(** * Health dashboard: the body calculator and the run-performance site

    A shallow embedding of [body_calculation.py] and [website.py].

    Numbers.  Python [int] is [Z].  Python [float] has two readings here.
    The main one is over the exact rationals [Q]: every formula of the
    programs is embedded as written, and [/], [//], [%], [int()], [round()]
    have their Python meaning on exact values; statements over all inputs are
    statements about these exact formulas, and say so.  The second, module
    [Binary64], embeds the pace and time helpers of [website.py] and the body
    formulas of [body_calculation.py] once more on IEEE binary64 numbers, the
    floats Python computes with; it rounds after every operation, so its
    results can differ from the exact ones in the last digit.  The theorems
    evaluate it at the inputs they name and over the finite ranges of the
    integer widgets, and state where the two readings part.

    Effects.  An exception is a [Raise] in the [result] monad.  The three CSV
    files live in a [disk]; a missing file is [None]. *)

From Stdlib Require Import ZArith QArith Qround Qabs Lqa Lia.
From Stdlib Require Import List String Ascii Bool.
From Stdlib Require Import DecimalString.
From Stdlib Require Import Sorting.Sorted Sorting.Permutation.
From Stdlib Require Floats.PrimFloat Floats.FloatOps Floats.SpecFloat.
Import ListNotations.

Set Implicit Arguments.

Local Open Scope string_scope.
Local Open Scope Z_scope.

(* ================================================================== *)
(** ** Python semantics used by both programs *)
(* ================================================================== *)

(** *** Exceptions *)

Inductive exn : Set :=
| ZeroDivisionError
| FileNotFoundError
| KeyError
| ValueError
| OverflowError.

Inductive result (A : Type) : Type :=
| Ok (a : A)
| Raise (e : exn).

Arguments Ok {A} a.
Arguments Raise {A} e.

Definition bind {A B : Type} (m : result A) (k : A -> result B) : result B :=
  match m with
  | Ok a => k a
  | Raise e => Raise e
  end.

Notation "x <- m ;; k" := (bind m (fun x => k))
  (at level 61, m at next level, right associativity).

Fixpoint mapM {A B : Type} (f : A -> result B) (l : list A) : result (list B) :=
  match l with
  | [] => Ok []
  | a :: l' => b <- f a ;; bs <- mapM f l' ;; Ok (b :: bs)
  end.

(** *** Arithmetic on floats, read over [Q] *)

Definition Qltb (x y : Q) : bool := negb (Qle_bool y x).
Definition Qis_zero (x : Q) : bool := Qeq_bool x 0.

(** [x / y]: true division. *)
Definition py_truediv (x y : Q) : result Q :=
  if Qis_zero y then Raise ZeroDivisionError else Ok (x / y)%Q.

(** [x // y] on floats: the floor of the quotient, as a float. *)
Definition py_floordiv (x y : Q) : result Q :=
  if Qis_zero y then Raise ZeroDivisionError
  else Ok (inject_Z (Qfloor (x / y)))%Q.

(** [x % y] on floats: what is left over the floored quotient. *)
Definition py_mod (x y : Q) : result Q :=
  if Qis_zero y then Raise ZeroDivisionError
  else Ok (x - y * inject_Z (Qfloor (x / y)))%Q.

(** [int(x)]: truncation towards zero. *)
Definition py_int (x : Q) : Z := Z.quot (Qnum x) (Zpos (Qden x)).

(** [round(x)]: the nearest integer, a tie going to the even one. *)
Definition py_round (x : Q) : Z :=
  let f := Qfloor x in
  match (x - inject_Z f ?= 1 # 2)%Q with
  | Lt => f
  | Gt => f + 1
  | Eq => if Z.even f then f else f + 1
  end.

(** [round(x, 2)]: [x] to two decimals, a tie going to the even hundredth. *)
Definition py_round2 (x : Q) : Q := (inject_Z (py_round (x * 100)) / 100)%Q.

(** *** Format specifications of f-strings *)

(** [f"{z}"] and [f"{z:d}"]. *)
Definition fmt_d (z : Z) : string := NilZero.string_of_int (Z.to_int z).

(** [f"{z:02d}"]: width two, zero filled after the sign. *)
Definition fmt_02d (z : Z) : string :=
  if z <? 0 then fmt_d z
  else if z <? 10 then "0" ++ fmt_d z
  else fmt_d z.

(** The sign Python prints before a rounded number: a minus for a negative
    number even when it rounds to zero ("-0.0"). *)
Definition sign_text (x : Q) (k : Z) : string :=
  if (k <? 0) || ((k =? 0) && Qltb x 0) then "-" else "".

(** [f"{x:.0f}"], [f"{x:.1f}"] and [f"{x:.2f}"]: the nearest number with that
    many decimals, a tie going to the even one. *)
Definition fmt_0f (x : Q) : string :=
  let k := py_round x in
  sign_text x k ++ fmt_d (Z.abs k).

Definition fmt_1f (x : Q) : string :=
  let k := py_round (x * 10) in
  sign_text x k ++ fmt_d (Z.abs k / 10) ++ "." ++ fmt_d (Z.abs k mod 10).

Definition fmt_2f (x : Q) : string :=
  let k := py_round (x * 100) in
  sign_text x k ++ fmt_d (Z.abs k / 100) ++ "." ++ fmt_02d (Z.abs k mod 100).

(** [f"{round(x, 1)}"]: the float [round(x, 1)] is a whole number of tenths,
    and [str] prints it with its one decimal (below 1e16). *)
Definition fmt_round1 (x : Q) : string := fmt_1f x.

(** The double-quote character, for the markup that holds it. *)
Definition dq : string := String (ascii_of_nat 34) EmptyString.

(** The integers [lo], [lo + 1], ..., [lo + n - 1]: the values of an integer
    widget, to run a check over. *)
Definition zrange (lo : Z) (n : nat) : list Z :=
  map (fun i => lo + Z.of_nat i) (seq 0 n).

Fixpoint forall2b {A B : Type} (p : A -> B -> bool) (l1 : list A) (l2 : list B) : bool :=
  match l1, l2 with
  | [], [] => true
  | a :: l1', b :: l2' => p a b && forall2b p l1' l2'
  | _, _ => false
  end.

(** [sep.join(parts)] *)
Fixpoint join (sep : string) (parts : list string) : string :=
  match parts with
  | [] => ""
  | [p] => p
  | p :: rest => p ++ sep ++ join sep rest
  end.

(** Truth value of a [str]: non-empty. *)
Definition str_truthy (s : string) : bool :=
  match s with
  | EmptyString => false
  | String _ _ => true
  end.

(** White space.  A [str] is held as its UTF-8 bytes.  [str.isspace()] holds
    of the ASCII controls 9 to 13 and 28 to 31 and of the space (one byte
    each), of U+0085 and U+00A0 (two bytes: 194 133, 194 160) and of U+1680,
    U+2000 to U+200A, U+2028, U+2029, U+202F, U+205F and U+3000 (three bytes:
    225 154 128; 226 128 128 to 226 128 138; 226 128 168; 226 128 169;
    226 128 175; 226 129 159; 227 128 128). *)
Definition isspace1 (a : ascii) : bool :=
  let n := nat_of_ascii a in
  ((9 <=? n) && (n <=? 13) || (28 <=? n) && (n <=? 32))%nat.

Definition isspace2 (a b : ascii) : bool :=
  let x := nat_of_ascii a in
  let y := nat_of_ascii b in
  ((x =? 194) && ((y =? 133) || (y =? 160)))%nat.

Definition isspace3 (a b c : ascii) : bool :=
  let x := nat_of_ascii a in
  let y := nat_of_ascii b in
  let z := nat_of_ascii c in
  ((x =? 225) && (y =? 154) && (z =? 128)
   || (x =? 226) && (y =? 128)
      && ((128 <=? z) && (z <=? 138) || (z =? 168) || (z =? 169) || (z =? 175))
   || (x =? 226) && (y =? 129) && (z =? 159)
   || (x =? 227) && (y =? 128) && (z =? 128))%nat.

(** [c.isspace()] for a [str] of one character. *)
Definition isspace (c : string) : bool :=
  match c with
  | String a EmptyString => isspace1 a
  | String a (String b EmptyString) => isspace2 a b
  | String a (String b (String c EmptyString)) => isspace3 a b c
  | _ => false
  end.

(** [lstrip]: drops the leading white-space characters. *)
Fixpoint lstrip (s : string) : string :=
  match s with
  | EmptyString => EmptyString
  | String a r =>
      if isspace1 a then lstrip r
      else
        match r with
        | EmptyString => s
        | String b r2 =>
            if isspace2 a b then lstrip r2
            else
              match r2 with
              | EmptyString => s
              | String c r3 => if isspace3 a b c then lstrip r3 else s
              end
        end
  end.

(** [rstrip]: drops the trailing white-space characters, that is, cuts the
    text where nothing but white space follows. *)
Fixpoint rstrip (s : string) : string :=
  match s with
  | EmptyString => EmptyString
  | String a r =>
      if String.eqb (lstrip s) "" then EmptyString else String a (rstrip r)
  end.

(** [s.strip()] *)
Definition strip (s : string) : string := rstrip (lstrip s).

(** *** Calendar days *)

Record date : Set := mkdate { year : Z; month : Z; day : Z }.

Definition is_leap (y : Z) : bool :=
  (y mod 4 =? 0) && (negb (y mod 100 =? 0) || (y mod 400 =? 0)).

Definition days_in_month (y m : Z) : Z :=
  if m =? 2 then (if is_leap y then 29 else 28)
  else if (m =? 4) || (m =? 6) || (m =? 9) || (m =? 11) then 30
  else 31.

(** The days a [datetime.date] can hold, with the year of four digits that
    the date widgets produce. *)
Definition valid_date (d : date) : bool :=
  (1000 <=? year d) && (year d <=? 9999) &&
  (1 <=? month d) && (month d <=? 12) &&
  (1 <=? day d) && (day d <=? days_in_month (year d) (month d)).

(** [d.strftime("%d/%m/%Y")] *)
Definition strftime_dmy (d : date) : string :=
  fmt_02d (day d) ++ "/" ++ fmt_02d (month d) ++ "/" ++ fmt_d (year d).

Definition digit_of_ascii (c : ascii) : option Z :=
  let n := nat_of_ascii c in
  if ((48 <=? n) && (n <=? 57))%nat then Some (Z.of_nat n - 48) else None.

(** [pd.to_datetime(text, dayfirst=True)] on the texts the programs write,
    [DD/MM/YYYY]; any other text, or a day that does not exist, raises. *)
Definition to_datetime_dayfirst (s : string) : result date :=
  match s with
  | String d1 (String d2 (String "/" (String m1 (String m2 (String "/"
      (String y1 (String y2 (String y3 (String y4 EmptyString))))))))) =>
      match digit_of_ascii d1, digit_of_ascii d2,
            digit_of_ascii m1, digit_of_ascii m2,
            digit_of_ascii y1, digit_of_ascii y2,
            digit_of_ascii y3, digit_of_ascii y4 with
      | Some a, Some b, Some c, Some e, Some f, Some g, Some h, Some i =>
          let r := mkdate (f * 1000 + g * 100 + h * 10 + i) (c * 10 + e) (a * 10 + b) in
          if valid_date r then Ok r else Raise ValueError
      | _, _, _, _, _, _, _, _ => Raise ValueError
      end
  | _ => Raise ValueError
  end.

(** Chronological order of days. *)
Definition date_ltb (a b : date) : bool :=
  (year a <? year b) ||
  ((year a =? year b) &&
   ((month a <? month b) || ((month a =? month b) && (day a <? day b)))).
Definition date_eqb (a b : date) : bool :=
  (year a =? year b) && (month a =? month b) && (day a =? day b).
Definition date_lt (a b : date) : Prop := date_ltb a b = true.

(** Checks of the printed digits, run over the finite ranges of days, months
    and years: [n] printed on two (four) characters reads back as [n]. *)
Definition two_digits_ok (n : Z) : bool :=
  match fmt_02d n with
  | String c1 (String c2 EmptyString) =>
      match digit_of_ascii c1, digit_of_ascii c2 with
      | Some a, Some b => (a * 10 + b =? n)
      | _, _ => false
      end
  | _ => false
  end.

Definition four_digits_ok (n : Z) : bool :=
  match fmt_d n with
  | String c1 (String c2 (String c3 (String c4 EmptyString))) =>
      match digit_of_ascii c1, digit_of_ascii c2,
            digit_of_ascii c3, digit_of_ascii c4 with
      | Some a, Some b, Some c, Some e => (a * 1000 + b * 100 + c * 10 + e =? n)
      | _, _, _, _ => false
      end
  | _ => false
  end.

(* ================================================================== *)
(** ** The three record stores *)
(* ================================================================== *)

(** A row of [food_log.csv]; columns [date, meal, food, calories_in,
    exercise, calories_out]. *)
Record FoodLogEntry : Set := mkFood {
  food_date : string;
  meal : string;
  food : string;
  calories_in : Z;
  exercise : string;
  calories_out : Z
}.

(** A row of [runs.csv]; columns [date, distance_km, time_min,
    pace_min_per_km]. *)
Record RunEntry : Set := mkRun {
  run_date : string;
  distance_km : Q;
  time_min : Q;
  pace_min_per_km : Q
}.

(** A row of [notes.csv]; columns [id, date, title, content]. *)
Record Note : Set := mkNote {
  note_id : Z;
  note_date : string;
  title : string;
  content : string
}.

(** A CSV file holding rows of type [A]: [None] when the file does not exist. *)
Definition csv (A : Type) : Type := option (list A).

(** The working directory of the two programs. *)
Record disk : Type := mkDisk {
  FOOD_FILE : csv FoodLogEntry;
  FILE : csv RunEntry;
  NOTES_FILE : csv Note
}.

(** [os.path.exists(path)] *)
Definition os_path_exists {A : Type} (f : csv A) : bool :=
  match f with
  | Some _ => true
  | None => false
  end.

(** [pd.read_csv(path)]: the rows in file order; raises on a missing file.
    A cell is held as the value written.  pandas reads an empty text cell,
    and a text such as "NA" or "null", back as a missing value and not as
    that text; the model does not follow it there, so it stands for the
    frames whose text cells are of neither kind and for the columns the
    programs never read back ([food], [exercise]). *)
Definition pd_read_csv {A : Type} (f : csv A) : result (list A) :=
  match f with
  | Some rows => Ok rows
  | None => Raise FileNotFoundError
  end.

(** [df.empty] *)
Definition df_empty {A : Type} (df : list A) : bool :=
  match df with
  | [] => true
  | _ :: _ => false
  end.

(** [series.sum()] *)
Definition series_sum (xs : list Q) : Q := fold_left Qplus xs 0%Q.
Definition series_sumZ (xs : list Z) : Z := fold_left Z.add xs 0.

(** [series.mean()], called on non-empty series only (both call sites test
    [df.empty] first; pandas answers NaN on an empty series). *)
Definition series_mean (xs : list Q) : Q :=
  (series_sum xs / inject_Z (Z.of_nat (List.length xs)))%Q.

(* ================================================================== *)
(** ** body_calculation.py *)
(* ================================================================== *)

Module BodyCalculation.

(** [food_db]: a dict, in insertion order. *)
Definition food_db : list (string * Z) :=
  [ ("Egg", 78); ("Toast", 75); ("Oatmeal", 150);
    ("Chicken Breast (100g)", 165); ("Rice (1 cup)", 206); ("Salad", 50);
    ("Apple", 95); ("Banana", 105); ("Pasta (1 cup)", 200);
    ("Milk (1 cup)", 122); ("Yogurt (100g)", 59) ].

(** [db[k]] *)
Fixpoint dict_get (db : list (string * Z)) (k : string) : result Z :=
  match db with
  | [] => Raise KeyError
  | (k', v) :: db' => if String.eqb k k' then Ok v else dict_get db' k
  end.

Definition load_food_data (d : disk) : result (list FoodLogEntry) :=
  if os_path_exists (FOOD_FILE d) then pd_read_csv (FOOD_FILE d)
  else Ok [].

Definition save_food_data (entries : list FoodLogEntry) (d : disk) : result disk :=
  df <- load_food_data d ;;
  Ok (mkDisk (Some (df ++ entries)%list) (FILE d) (NOTES_FILE d)).

(** *** Body measurement *)

(** The formulas on exact numbers; [Binary64] has them on floats, where
    [(160 / 100) ** 2] is 2.5600000000000005 and 64 kg at 160 cm come out at
    24.999999999999996, not 25. *)
Definition calculate_bmi (weight height_cm : Q) : result Q :=
  h_m <- py_truediv height_cm 100 ;;
  py_truediv weight (h_m ^ 2)%Q.

Definition bmi_category (bmi : Q) : string :=
  if Qltb bmi 18.5 then "Underweight"
  else if Qltb bmi 25 then "Normal weight"
  else if Qltb bmi 30 then "Overweight"
  else "Obese".

(** *** Food and exercise tab *)

Definition meals : list string := ["Breakfast"; "Lunch"; "Dinner"].

(** The dict appended to [meal_entries] for one meal; [foods_selected] is
    what the multiselect of that meal holds. *)
Definition meal_entry (log_date : date) (meal : string)
    (foods_selected : list string) : result FoodLogEntry :=
  calories_in <-
    (if df_empty foods_selected then Ok 0
     else cs <- mapM (dict_get food_db) foods_selected ;; Ok (series_sumZ cs)) ;;
  Ok (mkFood (strftime_dmy log_date) meal
        (if df_empty foods_selected then "" else join ", " foods_selected)
        calories_in "" 0).

(** The loop over [meals]; [selection] gives the multiselect of each meal. *)
Definition meal_entries (log_date : date) (selection : string -> list string)
  : result (list FoodLogEntry) :=
  mapM (fun meal => meal_entry log_date meal (selection meal)) meals.

(** [entry["exercise"] = exercise_item] *)
Definition set_exercise (exercise_item : string) (entry : FoodLogEntry) : FoodLogEntry :=
  mkFood (food_date entry) (meal entry) (food entry) (calories_in entry)
         exercise_item (calories_out entry).

(** What the press of "Save Today's Entry" does. *)
Definition save_todays_entry (log_date : date) (selection : string -> list string)
    (exercise_item : string) (calories_out : Z) (d : disk) : result disk :=
  entries <- meal_entries log_date selection ;;
  let entries := map (set_exercise exercise_item) entries in
  let entries :=
    if str_truthy exercise_item && (0 <? calories_out)
    then (entries ++ [mkFood (strftime_dmy log_date) "Exercise" "" 0
                             exercise_item calories_out])%list
    else entries in
  save_food_data entries d.

(** *** Daily summary table *)

(** [df.groupby("date").agg({"calories_in": "sum", "calories_out": "sum"})]:
    one group per key, the keys in ascending order.  [group_add] files one
    row under its key. *)
Fixpoint group_add (k : date) (cin cout : Z) (groups : list (date * Z * Z))
  : list (date * Z * Z) :=
  match groups with
  | [] => [(k, cin, cout)]
  | (k', a, b) :: rest =>
      if date_eqb k k' then (k', a + cin, b + cout) :: rest
      else if date_ltb k k' then (k, cin, cout) :: groups
      else (k', a, b) :: group_add k cin cout rest
  end.

Definition groupby_date_sum (rows : list (date * Z * Z)) : list (date * Z * Z) :=
  fold_left (fun groups r => let '(k, cin, cout) := r in group_add k cin cout groups)
            rows [].

Record DailyRow : Set := mkDaily {
  daily_date : date;
  daily_calories_in : Z;
  daily_calories_out : Z;
  net_calories : Z
}.

(** [df_food["date"] = pd.to_datetime(df_food["date"], dayfirst=True).dt.date] *)
Definition parse_food_dates (df_food : list FoodLogEntry) : result (list (date * Z * Z)) :=
  mapM (fun e => k <- to_datetime_dayfirst (food_date e) ;;
                 Ok (k, calories_in e, calories_out e)) df_food.

(** [daily_summary["net_calories"] = daily_summary["calories_in"] -
    daily_summary["calories_out"]], on one row. *)
Definition with_net (g : date * Z * Z) : DailyRow :=
  let '(k, cin, cout) := g in mkDaily k cin cout (cin - cout).

(** The table [daily_summary]; on an empty log the program builds none, which
    reads here as the table without rows. *)
Definition daily_summary (df_food : list FoodLogEntry) : result (list DailyRow) :=
  if df_empty df_food then Ok []
  else
    rows <- parse_food_dates df_food ;;
    Ok (map with_net (groupby_date_sum rows)).

(** *** Body measurement, continued *)

Definition calculate_bmr (weight height_cm age : Q) (gender : string) : Q :=
  if String.eqb gender "Male"
  then (88.36 + (13.4 * weight) + (4.8 * height_cm) - (5.7 * age))%Q
  else (447.6 + (9.2 * weight) + (3.1 * height_cm) - (4.3 * age))%Q.

Definition target_weight (height_cm : Q) : result (Q * Q) :=
  h_m <- py_truediv height_cm 100 ;;
  Ok (18.5 * (h_m ^ 2), 24.9 * (h_m ^ 2))%Q.

(** [activity_level] has the default 1.2; both callers leave it out. *)
Definition daily_calories (weight height_cm age : Q) (gender : string)
    (activity_level : Q) : Q :=
  (calculate_bmr weight height_cm age gender * activity_level)%Q.

(** On exact numbers: [int(calories)] cuts the exact product [bmr * 1.2]; on
    floats the product can fall just below a whole number
    ([Binary64.daily_calories]). *)
Definition health_recommendation (bmi weight height_cm age : Q) (gender : string)
  : result string :=
  tw <- target_weight height_cm ;;
  let '(min_w, max_w) := tw in
  let calories := daily_calories weight height_cm age gender 1.2 in
  if Qltb bmi 18.5 then
    Ok ("😋 Underweight! Gain ~" ++ fmt_round1 (min_w - weight)
        ++ " kg. Calories/day: " ++ fmt_d (py_int calories) ++ " kcal")
  else if Qltb bmi 25 then
    Ok ("🎉 Healthy weight! Maintain. Calories/day: "
        ++ fmt_d (py_int calories) ++ " kcal")
  else if Qltb bmi 30 then
    Ok ("⚖️ Overweight! Lose ~" ++ fmt_round1 (weight - max_w)
        ++ " kg. Calories/day: " ++ fmt_d (py_int calories - 500) ++ " kcal")
  else
    Ok ("🚨 Obese! Lose ~" ++ fmt_round1 (weight - max_w)
        ++ " kg. Calories/day: " ++ fmt_d (py_int calories - 500) ++ " kcal").

(** What the press of "Analyze Health" computes: the three metric cards
    (title, value, extra) and the recommendation; the four inputs are the
    integers of the number widgets.  On exact numbers, as [calculate_bmi]
    above. *)
Definition analyze_health (age height : Z) (gender : string) (weight : Z)
  : result (list (string * string * string) * string) :=
  bmi <- calculate_bmi (inject_Z weight) (inject_Z height) ;;
  let bmr := calculate_bmr (inject_Z weight) (inject_Z height) (inject_Z age) gender in
  let category := bmi_category bmi in
  recommendation <-
    health_recommendation bmi (inject_Z weight) (inject_Z height) (inject_Z age) gender ;;
  Ok ([ ("BMI", fmt_2f bmi, category);
        ("BMR (kcal/day)", fmt_0f bmr, "");
        ("Weight Category", category, "") ],
      recommendation).

(** *** Daily summary table: row colours *)

(** [style_row]: one style per column of the row (date, calories in, calories
    out, net calories). *)
Definition style_row (row : DailyRow) : list string :=
  let bg_color :=
    if net_calories row <=? 2000 then "#d4edda"
    else if net_calories row <=? 2500 then "#fff3cd"
    else "#f8d7da" in
  repeat ("background-color:" ++ bg_color ++ "; color:black") 4.

(** *** Monthly calendar tab *)

(** [df_food[(year == selected_year) & (month == selected_month)]], on the log
    with its dates parsed. *)
Definition month_rows (selected_year selected_month : Z) (rows : list (date * Z * Z))
  : list (date * Z * Z) :=
  filter (fun r => (year (fst (fst r)) =? selected_year)
                   && (month (fst (fst r)) =? selected_month)) rows.

(** [df_month[df_month['date'] == day]] *)
Definition rows_of_day (day : date) (df_month : list (date * Z * Z))
  : list (date * Z * Z) :=
  filter (fun r => date_eqb (fst (fst r)) day) df_month.

(** The cell of one day of the grid. *)
Definition calendar_cell (selected_month : Z) (df_month : list (date * Z * Z))
    (a_day : date) : string :=
  if month a_day =? selected_month then
    let calories :=
      series_sumZ (map (fun r => snd (fst r)) (rows_of_day a_day df_month))
      - series_sumZ (map (fun r => snd r) (rows_of_day a_day df_month)) in
    let bg_color :=
      if calories <=? 2000 then "#d4edda"
      else if calories <=? 2500 then "#fff3cd"
      else "#f8d7da" in
    let text_color := "#000" in
    "<td style=" ++ dq ++ "border:1px solid #ccc; padding:8px; vertical-align:top; background:"
      ++ bg_color ++ "; color:" ++ text_color
      ++ "; font-weight:700; text-align:center;" ++ dq ++ ">"
      ++ fmt_d (day a_day) ++ "<br>" ++ fmt_d calories ++ " kcal</td>"
  else
    "<td style=" ++ dq ++ "border:1px solid #ccc; padding:8px; background-color:#f5f5f5;"
      ++ dq ++ "></td>".

End BodyCalculation.

(* ================================================================== *)
(** ** website.py *)
(* ================================================================== *)

Module Website.

(** *** Helpers *)

(** [h], [m], [s] are the integers of the three number widgets. *)
Definition to_minutes (h m s : Z) : result Q :=
  s60 <- py_truediv (inject_Z s) 60 ;;
  Ok (inject_Z (h * 60 + m) + s60)%Q.

Definition load_runs (d : disk) : result (list RunEntry) :=
  if os_path_exists (FILE d) then pd_read_csv (FILE d)
  else Ok [].

Definition save_run (run : RunEntry) (d : disk) : result disk :=
  df <- load_runs d ;;
  Ok (mkDisk (FOOD_FILE d) (Some (df ++ [run])%list) (NOTES_FILE d)).

(** [round] already answers an [int]; the [int(...)] around it changes
    nothing. *)
Definition format_pace (p : Q) : string :=
  let m := py_int p in
  let s := py_round ((p - inject_Z m) * 60)%Q in
  fmt_d m ++ ":" ++ fmt_02d s.

(** *** Pace / speed helpers *)

Definition pace_to_speed (pace_min_per_km : Q) : result Q :=
  py_truediv 60 pace_min_per_km.

Definition speed_to_pace (speed_kmh : Q) : result Q :=
  py_truediv 60 speed_kmh.

Record TimeRow : Set := mkTimeRow { Distance : string; Time : string }.

(** The distances as the exact decimals written; [Binary64.distances] has
    the floats nearest to them. *)
Definition distances : list (string * Q) :=
  [ ("5 km", 5%Q); ("10 km", 10%Q);
    ("Half Marathon (21.1 km)", 21.097%Q);
    ("Full Marathon (42.2 km)", 42.195%Q) ].

(** The body of the loop of [time_table_from_pace], on exact numbers.  On
    floats ([Binary64.time_row]) the product [pace * km] is rounded and can
    fall just below a whole second, which [int] then cuts away. *)
Definition time_row (pace_min_per_km : Q) (name : string) (km : Q) : result TimeRow :=
  let total_minutes := (pace_min_per_km * km)%Q in
  q <- py_floordiv total_minutes 60 ;;
  let hours := py_int q in
  r <- py_mod total_minutes 60 ;;
  let minutes := py_int r in
  let seconds :=
    py_int ((total_minutes - inject_Z (hours * 60) - inject_Z minutes) * 60)%Q in
  let time_str :=
    if 0 <? hours
    then fmt_02d hours ++ ":" ++ fmt_02d minutes ++ ":" ++ fmt_02d seconds
    else fmt_02d minutes ++ ":" ++ fmt_02d seconds in
  Ok (mkTimeRow name time_str).

Definition time_table_from_pace (pace_min_per_km : Q) : result (list TimeRow) :=
  mapM (fun d => time_row pace_min_per_km (fst d) (snd d)) distances.

(** *** Notes helpers *)

Definition load_notes (d : disk) : result (list Note) :=
  if os_path_exists (NOTES_FILE d) then pd_read_csv (NOTES_FILE d)
  else Ok [].

Definition save_notes (df : list Note) (d : disk) : disk :=
  mkDisk (FOOD_FILE d) (FILE d) (Some df).

(** *** Log run *)

(** What the press of "Save Activity" does; [km] is the distance widget,
    [h], [m], [s] the time widgets.  On exact numbers: [round] sees the exact
    [t] and [t / km]; [Binary64.stored_time_and_pace] has the two values on
    floats, where a quotient half-way between two hundredths is rounded
    before [round] sees it. *)
Definition save_activity (day : date) (km : Q) (h m s : Z) (d : disk) : result disk :=
  t <- to_minutes h m s ;;
  pace <- py_truediv t km ;;
  save_run (mkRun (strftime_dmy day) km (py_round2 t) (py_round2 pace)) d.

(** *** Calendar view: monthly summary *)

Record MonthlySummary : Set := mkMonthly {
  total_km : Q;
  avg_km : Q;
  avg_pace : Q;
  avg_pace_text : string
}.

(** [df["date"] = pd.to_datetime(df["date"], dayfirst=True)] *)
Definition parse_run_dates (df : list RunEntry) : result (list (date * RunEntry)) :=
  mapM (fun r => k <- to_datetime_dayfirst (run_date r) ;; Ok (k, r)) df.

(** [df[(df["date"].dt.year == year) & (df["date"].dt.month == month_num)]] *)
Definition month_filter (year_sel month_num : Z) (df : list (date * RunEntry))
  : list (date * RunEntry) :=
  filter (fun r => (year (fst r) =? year_sel) && (month (fst r) =? month_num)) df.

Definition monthly_summary (year_sel month_num : Z) (df : list RunEntry)
  : result MonthlySummary :=
  df <- parse_run_dates df ;;
  let month_df := month_filter year_sel month_num df in
  let total_km := series_sum (map (fun r => distance_km (snd r)) month_df) in
  let avg_km :=
    if negb (df_empty month_df)
    then series_mean (map (fun r => distance_km (snd r)) month_df) else 0%Q in
  let avg_pace :=
    if negb (df_empty month_df)
    then series_mean (map (fun r => pace_min_per_km (snd r)) month_df) else 0%Q in
  Ok (mkMonthly total_km avg_km avg_pace
        (if negb (df_empty month_df) then format_pace avg_pace else "-")).

(** The calendar tab: nothing but a notice when no run is logged. *)
Definition calendar_tab (year_sel month_num : Z) (d : disk)
  : result (option MonthlySummary) :=
  df <- load_runs d ;;
  if df_empty df then Ok None
  else s <- monthly_summary year_sel month_num df ;; Ok (Some s).

(** *** Notes tab *)

Inductive feedback : Set :=
| Warned      (* st.warning *)
| Saved       (* st.success *).

(** [notes_df["id"].max()], called on a non-empty frame only. *)
Definition id_max (df : list Note) : Z :=
  match map note_id df with
  | [] => 0
  | i :: ids => fold_left Z.max ids i
  end.

(** Submitting the "Add New Note" form: [notes_df] is the frame loaded at the
    top of the tab, [today] is [date.today()]. *)
Definition add_note (today : date) (note_title note_content : string)
    (notes_df : list Note) (d : disk) : feedback * list Note * disk :=
  if String.eqb (strip note_title) "" || String.eqb (strip note_content) ""
  then (Warned, notes_df, d)
  else
    let new_note :=
      mkNote (if negb (df_empty notes_df) then id_max notes_df + 1 else 1)
             (strftime_dmy today) note_title note_content in
    let notes_df := (notes_df ++ [new_note])%list in
    (Saved, notes_df, save_notes notes_df d).

(** [df.drop(idx).reset_index(drop=True)]: the row at label [idx] goes; a
    label that is not in the index raises. *)
Fixpoint drop {A : Type} (idx : nat) (df : list A) : result (list A) :=
  match df, idx with
  | [], _ => Raise KeyError
  | _ :: rest, O => Ok rest
  | r :: rest, S i => rest' <- drop i rest ;; Ok (r :: rest')
  end.

(** Pressing "Delete" on the note at row [idx]. *)
Definition delete_note (idx : nat) (notes_df : list Note) (d : disk)
  : result (list Note * disk) :=
  notes_df <- drop idx notes_df ;;
  Ok (notes_df, save_notes notes_df d).

(** *** Tools: the three calculators *)

(** "Calculate Pace"; [d] is the distance widget (at least 0.1). *)
Definition pace_calculator (d : Q) (h m s : Z) : result string :=
  t <- to_minutes h m s ;;
  p <- py_truediv t d ;;
  Ok (format_pace p ++ " min/km").

(** "Calculate Distance"; [p] is the pace widget (at least 0.1). *)
Definition distance_calculator (p : Q) (h m s : Z) : result string :=
  t <- to_minutes h m s ;;
  km <- py_truediv t p ;;
  Ok (fmt_2f km ++ " km").

(** "Calculate Time": the hours, minutes and seconds shown. *)
Definition time_calculator_fields (d p : Q) : Z * Z * Z :=
  let t := (d * p)%Q in
  let m := py_int t in
  let s := py_round ((t - inject_Z m) * 60)%Q in
  let h := m / 60 in
  let m := m mod 60 in
  (h, m, s).

Definition time_calculator (d p : Q) : string :=
  let '(h, m, s) := time_calculator_fields d p in
  fmt_d h ++ " hours, " ++ fmt_d m ++ " minutes, " ++ fmt_d s ++ " seconds".

(** *** Tools: the speed converter *)

Inductive converted : Set :=
| Success (text : string) (table : list TimeRow)
| Warning (text : string).

(** "Convert to Speed"; [pace_min] and [pace_sec] are the two integer
    widgets.  On exact numbers; [Binary64.convert_to_speed] has it on
    floats. *)
Definition convert_to_speed (pace_min pace_sec : Z) : result converted :=
  s60 <- py_truediv (inject_Z pace_sec) 60 ;;
  let pace := (inject_Z pace_min + s60)%Q in
  if Qltb 0 pace then
    speed <- py_truediv 60 pace ;;
    table <- time_table_from_pace pace ;;
    Ok (Success ("🚀 **" ++ fmt_2f speed ++ " km/h**") table)
  else Ok (Warning "Pace must be greater than 0").

(** "Convert to Pace"; [speed] is the speed widget. *)
Definition convert_to_pace (speed : Q) : result converted :=
  if Qltb 0 speed then
    pace <- py_truediv 60 speed ;;
    table <- time_table_from_pace pace ;;
    Ok (Success ("🏃 **" ++ format_pace pace ++ " min/km**") table)
  else Ok (Warning "Speed must be greater than 0").

(** *** Performance tab *)



(** The "Time" column of the monthly runs table:
    [f"{int(t//60)}h {int(t%60)}m"]. *)
Definition time_column (t : Q) : result string :=
  q <- py_floordiv t 60 ;;
  r <- py_mod t 60 ;;
  Ok (fmt_d (py_int q) ++ "h " ++ fmt_d (py_int r) ++ "m").

(** *** Calendar tab: the grid *)

(** The cell of day [day_counter] of the month shown; [month_df] holds the
    month's runs with their dates parsed. *)
Definition run_calendar_cell (year_sel month_num days_in_month : Z)
    (month_df : list (date * RunEntry)) (day_counter : Z) : string :=
  if (day_counter <? 1) || (days_in_month <? day_counter) then
    "<td style='padding:10px;border:1px solid #333;background:rgba(255,255,255,0.05);opacity:0.1;'></td>"
  else
    let d := mkdate year_sel month_num day_counter in
    let day_runs := filter (fun r => date_eqb (fst r) d) month_df in
    if negb (df_empty day_runs) then
      let km := series_sum (map (fun r => distance_km (snd r)) day_runs) in
      let pace := format_pace (series_mean (map (fun r => pace_min_per_km (snd r)) day_runs)) in
      "<td style='padding:10px;border:1px solid #333;background:rgba(255,255,255,0.05);text-align:center;'><b>"
        ++ fmt_d day_counter ++ "</b><br>" ++ fmt_1f km ++ " km<br>" ++ pace ++ " min/km</td>"
    else
      "<td style='padding:10px;border:1px solid #333;background:rgba(255,255,255,0.05);opacity:0.35;text-align:center;'><b>"
        ++ fmt_d day_counter ++ "</b><br>—</td>".

(** One pass of [for i in range(7)]: the seven cells from [day_counter] on. *)
Definition week_cells (cell : Z -> string) (day_counter : Z) : list string :=
  map (fun i => cell (day_counter + Z.of_nat i)) (seq 0 7).

(** [while day_counter <= days_in_month]: the rows still to come; [fuel]
    bounds the number of passes. *)
Fixpoint calendar_weeks (fuel : nat) (cell : Z -> string)
    (days_in_month day_counter : Z) : option (list (list string)) :=
  if day_counter <=? days_in_month then
    match fuel with
    | O => None
    | S fuel' =>
        match calendar_weeks fuel' cell days_in_month (day_counter + 7) with
        | Some weeks => Some (week_cells cell day_counter :: weeks)
        | None => None
        end
    end
  else Some [].

(** The rows of the grid; [first_weekday] and [days_in_month] are what
    [calendar.monthrange(year, month_num)] answers. *)
Definition run_calendar_rows (fuel : nat) (year_sel month_num first_weekday days_in_month : Z)
    (month_df : list (date * RunEntry)) : option (list (list string)) :=
  let day_counter := 1 - ((first_weekday - 0) mod 7) in
  calendar_weeks fuel (run_calendar_cell year_sel month_num days_in_month month_df)
                 days_in_month day_counter.

(** *** Notes tab: update *)

(** [notes_df.loc[idx, "title"] = edited_title] and the same for
    ["content"], on the row labelled [idx].  [None] stands for a label outside
    the index: pandas would then add a row of missing values, which a [Note]
    cannot hold; the tab only passes labels of the rows it shows. *)
Fixpoint loc_set (idx : nat) (edited_title edited_content : string)
    (notes_df : list Note) : option (list Note) :=
  match notes_df, idx with
  | [], _ => None
  | n :: rest, O =>
      Some (mkNote (note_id n) (note_date n) edited_title edited_content :: rest)
  | n :: rest, S i =>
      match loc_set i edited_title edited_content rest with
      | Some rest' => Some (n :: rest')
      | None => None
      end
  end.

(** Pressing "Update" on the note at row [idx]. *)
Definition update_note (idx : nat) (edited_title edited_content : string)
    (notes_df : list Note) (d : disk) : option (list Note * disk) :=
  match loc_set idx edited_title edited_content notes_df with
  | Some notes_df => Some (notes_df, save_notes notes_df d)
  | None => None
  end.

End Website.

(* ================================================================== *)
(** ** website.py on binary64 floats *)
(* ================================================================== *)

(** The pace and time helpers of [website.py] with Python's own floats:
    [+], [-], [*], [/] are the IEEE operations, rounding to nearest; [int],
    [round], [//] and [%] go through the exact value of their argument, which
    is what CPython computes on finite numbers of the sizes met here (far
    below 2^53). *)
Module Binary64.
Import PrimFloat FloatOps SpecFloat.
#[local] Set Warnings "-inexact-float".

(** The exact value of a finite float; [int(nan)] and [int(inf)] raise. *)
Definition exact (x : float) : result Q :=
  match Prim2SF x with
  | S754_zero _ => Ok 0%Q
  | S754_finite s m e =>
      Ok ((if s then -1 else 1) * inject_Z (Zpos m) * 2 ^ e)%Q
  | S754_infinity _ => Raise OverflowError
  | S754_nan => Raise ValueError
  end.

(** The float of an [int] that meets a float in an operation. *)
Definition of_int (z : Z) : float :=
  if z <? 0 then opp (of_uint63 (Uint63Axioms.of_Z (- z)))
  else of_uint63 (Uint63Axioms.of_Z z).

(** [x / y] *)
Definition f_truediv (x y : float) : result float :=
  if eqb y 0 then Raise ZeroDivisionError else Ok (x / y)%float.

(** [x // y] *)
Definition f_floordiv (x y : float) : result float :=
  if eqb y 0 then Raise ZeroDivisionError
  else qx <- exact x ;; qy <- exact y ;; Ok (of_int (Qfloor (qx / qy))).

(** [x % y] *)
Definition f_mod (x y : float) : result float :=
  q <- f_floordiv x y ;; Ok (x - y * q)%float.

(** [int(x)], [round(x)] and [round(x, 2)] *)
Definition f_int (x : float) : result Z := q <- exact x ;; Ok (py_int q).
Definition f_round (x : float) : result Z := q <- exact x ;; Ok (py_round q).
Definition f_round2 (x : float) : result float :=
  q <- exact x ;; Ok (of_int (py_round (q * 100)) / 100)%float.

Definition to_minutes (h m s : Z) : result float :=
  s60 <- f_truediv (of_int s) (of_int 60) ;;
  Ok (of_int (h * 60 + m) + s60)%float.

Definition format_pace (p : float) : result string :=
  m <- f_int p ;;
  s <- f_round ((p - of_int m) * 60)%float ;;
  Ok (fmt_d m ++ ":" ++ fmt_02d s).

Definition pace_to_speed (pace_min_per_km : float) : result float :=
  f_truediv 60 pace_min_per_km.

Definition speed_to_pace (speed_kmh : float) : result float :=
  f_truediv 60 speed_kmh.

Definition distances : list (string * float) :=
  [ ("5 km", 5%float); ("10 km", 10%float);
    ("Half Marathon (21.1 km)", 21.097%float);
    ("Full Marathon (42.2 km)", 42.195%float) ].

Definition time_row (pace_min_per_km : float) (name : string) (km : float)
  : result Website.TimeRow :=
  let total_minutes := (pace_min_per_km * km)%float in
  q <- f_floordiv total_minutes 60 ;;
  hours <- f_int q ;;
  r <- f_mod total_minutes 60 ;;
  minutes <- f_int r ;;
  seconds <-
    f_int ((total_minutes - of_int (hours * 60) - of_int minutes) * 60)%float ;;
  let time_str :=
    if 0 <? hours
    then fmt_02d hours ++ ":" ++ fmt_02d minutes ++ ":" ++ fmt_02d seconds
    else fmt_02d minutes ++ ":" ++ fmt_02d seconds in
  Ok (Website.mkTimeRow name time_str).

Definition time_table_from_pace (pace_min_per_km : float)
  : result (list Website.TimeRow) :=
  mapM (fun d => time_row pace_min_per_km (fst d) (snd d)) distances.

(** The [time_min] and [pace_min_per_km] that "Save Activity" stores. *)
Definition stored_time_and_pace (km : float) (h m s : Z) : result (float * float) :=
  t <- to_minutes h m s ;;
  pace <- f_truediv t km ;;
  time_min <- f_round2 t ;;
  pace_min_per_km <- f_round2 pace ;;
  Ok (time_min, pace_min_per_km).

(** [f"{x:.2f}"]: the exact value of the float to two decimals; an infinity
    or a NaN is printed by name. *)
Definition f_fmt_2f (x : float) : string :=
  match exact x with
  | Ok q => fmt_2f q
  | Raise _ => if is_nan x then "nan" else if (x <? 0)%float then "-inf" else "inf"
  end.

(** "Convert to Speed" and "Convert to Pace" on floats. *)
Definition convert_to_speed (pace_min pace_sec : Z) : result Website.converted :=
  s60 <- f_truediv (of_int pace_sec) (of_int 60) ;;
  let pace := (of_int pace_min + s60)%float in
  if (0 <? pace)%float then
    speed <- f_truediv 60 pace ;;
    table <- time_table_from_pace pace ;;
    Ok (Website.Success ("🚀 **" ++ f_fmt_2f speed ++ " km/h**") table)
  else Ok (Website.Warning "Pace must be greater than 0").

Definition convert_to_pace (speed : float) : result Website.converted :=
  if (0 <? speed)%float then
    pace <- f_truediv 60 speed ;;
    text <- format_pace pace ;;
    table <- time_table_from_pace pace ;;
    Ok (Website.Success ("🏃 **" ++ text ++ " min/km**") table)
  else Ok (Website.Warning "Speed must be greater than 0").

(** *** body_calculation.py on floats *)

(** [x ** 2]: [pow] is taken to give the square rounded once, as [x * x]
    does; a finite [x] whose square overflows raises. *)
Definition f_pow2 (x : float) : result float :=
  let y := (x * x)%float in
  if is_infinity y && negb (is_infinity x) then Raise OverflowError else Ok y.

Definition calculate_bmi (weight height_cm : float) : result float :=
  h_m <- f_truediv height_cm 100 ;;
  sq <- f_pow2 h_m ;;
  f_truediv weight sq.

Definition bmi_category (bmi : float) : string :=
  if (bmi <? 18.5)%float then "Underweight"
  else if (bmi <? 25)%float then "Normal weight"
  else if (bmi <? 30)%float then "Overweight"
  else "Obese".

Definition calculate_bmr (weight height_cm age : float) (gender : string) : float :=
  if String.eqb gender "Male"
  then (88.36 + (13.4 * weight) + (4.8 * height_cm) - (5.7 * age))%float
  else (447.6 + (9.2 * weight) + (3.1 * height_cm) - (4.3 * age))%float.

Definition target_weight (height_cm : float) : result (float * float) :=
  h_m <- f_truediv height_cm 100 ;;
  sq <- f_pow2 h_m ;;
  Ok (18.5 * sq, 24.9 * sq)%float.

Definition daily_calories (weight height_cm age : float) (gender : string)
    (activity_level : float) : float :=
  (calculate_bmr weight height_cm age gender * activity_level)%float.

(** The difference that [health_recommendation] names, [min_w - weight] below
    BMI 18.5 and [weight - max_w] from 25 on, for the integers of the
    widgets; [None] between 18.5 and 25, where no weight is named. *)
Definition amount_named (weight height : Z) : result (option float) :=
  bmi <- calculate_bmi (of_int weight) (of_int height) ;;
  tw <- target_weight (of_int height) ;;
  let '(min_w, max_w) := tw in
  if (bmi <? 18.5)%float then Ok (Some (min_w - of_int weight)%float)
  else if (bmi <? 25)%float then Ok None
  else Ok (Some (of_int weight - max_w)%float).

End Binary64.

(* ================================================================== *)
(** ** Readings of the specification, to compare the code with *)
(* ================================================================== *)

Module Reading.
Import Website.

(** A duration of [total_seconds] whole seconds on the clock: [HH:MM:SS] from
    one hour on, [MM:SS] below. *)
Definition clock (total_seconds : Z) : string :=
  let h := total_seconds / 3600 in
  let m := (total_seconds / 60) mod 60 in
  let s := total_seconds mod 60 in
  if 0 <? h
  then fmt_02d h ++ ":" ++ fmt_02d m ++ ":" ++ fmt_02d s
  else fmt_02d m ++ ":" ++ fmt_02d s.

(** The finish time as the specification words it: hours and minutes from the
    whole minutes, and [seconds = round((total_minutes - whole_minutes) * 60)]. *)
Definition rounded_finish_time (total_minutes : Q) : string :=
  let whole := py_int total_minutes in
  let seconds := py_round ((total_minutes - inject_Z whole) * 60)%Q in
  let hours := whole / 60 in
  let minutes := whole mod 60 in
  if 0 <? hours
  then fmt_02d hours ++ ":" ++ fmt_02d minutes ++ ":" ++ fmt_02d seconds
  else fmt_02d minutes ++ ":" ++ fmt_02d seconds.

Definition rounded_finish_time_table (pace : Q) : list TimeRow :=
  map (fun d => mkTimeRow (fst d) (rounded_finish_time (snd d * pace)%Q)) distances.

(** The date of a parsed row of the food log, and the calories eaten and
    burnt on day [k] over all rows of that day. *)
Definition key (r : date * Z * Z) : date := fst (fst r).
Definition total_in (k : date) (rows : list (date * Z * Z)) : Z :=
  series_sumZ (map (fun r => snd (fst r)) (filter (fun r => date_eqb (key r) k) rows)).
Definition total_out (k : date) (rows : list (date * Z * Z)) : Z :=
  series_sumZ (map (fun r => snd r) (filter (fun r => date_eqb (key r) k) rows)).

(** The mean of a list of numbers, every entry counting once. *)
Definition unweighted_mean (xs : list Q) : Q :=
  (fold_right Qplus 0 xs / inject_Z (Z.of_nat (List.length xs)))%Q.

(** Pace over the whole distance: total time by total distance. *)
Definition distance_weighted_pace (runs : list RunEntry) : Q :=
  (fold_right Qplus 0 (map time_min runs) /
   fold_right Qplus 0 (map distance_km runs))%Q.

(** The colour of a day by its net calories: green up to 2000, yellow up to
    2500, red above. *)
Definition calorie_band (net : Z) : string :=
  if net <=? 2000 then "#d4edda"
  else if net <=? 2500 then "#fff3cd"
  else "#f8d7da".

(** The markup of a calendar cell that shows day [number] with [net] kcal on
    the background [bg]. *)
Definition day_cell (bg : string) (number net : Z) : string :=
  "<td style=" ++ dq
    ++ "border:1px solid #ccc; padding:8px; vertical-align:top; background:"
    ++ bg ++ "; color:#000; font-weight:700; text-align:center;" ++ dq ++ ">"
    ++ fmt_d number ++ "<br>" ++ fmt_d net ++ " kcal</td>".

(** A text of white-space characters only, or of none. *)
Inductive blank : string -> Prop :=
| blank_nil : blank ""
| blank_cons (c s : string) : isspace c = true -> blank s -> blank (c ++ s).

(** A finish time that is the duration [pace * km] cut to whole seconds, or
    one second less. *)
Definition near_truncation (pace km : Q) (t : string) : bool :=
  let T := Qfloor (pace * km * 60) in
  String.eqb t (clock T) || String.eqb t (clock (T - 1)).

(** Checks over the values of the widgets, on the floats of [Binary64]. *)

(** "Convert to Speed" for [pace_min] minutes and [pace_sec] seconds does
    not raise; it warns at 0:00 and nowhere else; and the table it shows
    lists the four distances, each with a time near the exact one. *)
Definition converter_checked (pace_min pace_sec : Z) : bool :=
  match Binary64.convert_to_speed pace_min pace_sec with
  | Ok (Warning text) =>
      String.eqb text "Pace must be greater than 0"
      && ((pace_min =? 0) && (pace_sec =? 0))
  | Ok (Success _ table) =>
      negb ((pace_min =? 0) && (pace_sec =? 0))
      && forall2b (fun d r =>
                     String.eqb (Distance r) (fst d)
                     && near_truncation (inject_Z pace_min + inject_Z pace_sec / 60)
                                        (snd d) (Time r))
                  distances table
  | Raise _ => false
  end.

(** The label shown for a weight and a height is one of the four, and it is
    the label of the exact BMI unless the pair is one of the two named. *)
Definition four_labels : list string :=
  ["Underweight"; "Normal weight"; "Overweight"; "Obese"].

Definition label_as_exact (weight height : Z) : bool :=
  match Binary64.calculate_bmi (Binary64.of_int weight) (Binary64.of_int height),
        BodyCalculation.calculate_bmi (inject_Z weight) (inject_Z height) with
  | Ok b, Ok q =>
      existsb (String.eqb (Binary64.bmi_category b)) four_labels
      && (String.eqb (Binary64.bmi_category b) (BodyCalculation.bmi_category q)
          || (weight =? 64) && (height =? 160)
          || (weight =? 121) && (height =? 220))
  | _, _ => false
  end.

(** The difference named by the recommendation is positive. *)
Definition amount_positive (weight height : Z) : bool :=
  match Binary64.amount_named weight height with
  | Ok (Some x) => PrimFloat.ltb PrimFloat.zero x
  | Ok None => true
  | Raise _ => false
  end.

(** "Convert to Pace" shows a pace and a table for a speed of [tenths] tenths
    of a km/h. *)
Definition pace_shown (tenths : Z) : bool :=
  match Binary64.convert_to_pace (PrimFloat.div (Binary64.of_int tenths) (Binary64.of_int 10)) with
  | Ok (Success _ _) => true
  | _ => false
  end.

End Reading.

(* ================================================================== *)
(** ** Facts about the Python operations *)
(* ================================================================== *)

Section PythonArithmetic.
Local Open Scope Q_scope.

Lemma Qltb_lt (x y : Q) : Qltb x y = true <-> x < y.
Proof.
  unfold Qltb. rewrite Bool.negb_true_iff.
  split; intro H.
  - apply Qnot_le_lt. intro L. apply Qle_bool_iff in L. congruence.
  - destruct (Qle_bool y x) eqn:E; auto. apply Qle_bool_iff in E. lra.
Qed.

Lemma Qltb_ge (x y : Q) : Qltb x y = false <-> y <= x.
Proof.
  unfold Qltb. rewrite Bool.negb_false_iff. apply Qle_bool_iff.
Qed.

Lemma Qis_zero_false (x : Q) : ~ x == 0 -> Qis_zero x = false.
Proof.
  intro H. unfold Qis_zero. destruct (Qeq_bool x 0) eqn:E; auto.
  apply Qeq_bool_iff in E. contradiction.
Qed.

Lemma py_truediv_ok (x y : Q) : ~ y == 0 -> py_truediv x y = Ok (x / y).
Proof. intro H. unfold py_truediv. now rewrite Qis_zero_false. Qed.

Lemma Qfloor_unique (x : Q) (z : Z) :
  inject_Z z <= x -> x < inject_Z (z + 1) -> Qfloor x = z.
Proof.
  intros L U.
  pose proof (Qfloor_le x) as L'. pose proof (Qlt_floor x) as U'.
  assert (A : (z < Qfloor x + 1)%Z) by (rewrite Zlt_Qlt; lra).
  assert (B : (Qfloor x < z + 1)%Z) by (rewrite Zlt_Qlt; lra).
  lia.
Qed.

Lemma py_int_nonneg (x : Q) : 0 <= x -> py_int x = Qfloor x.
Proof.
  destruct x as [n d]. unfold py_int, Qfloor, Qle. simpl. intro H.
  apply Z.quot_div_nonneg; lia.
Qed.

Lemma py_int_inject (z : Z) : py_int (inject_Z z) = z.
Proof. unfold py_int. simpl. apply Z.quot_1_r. Qed.

(** [round] moves a number by half a unit at most. *)
Lemma py_round_near (x : Q) : Qabs (inject_Z (py_round x) - x) <= 1 # 2.
Proof.
  unfold py_round.
  pose proof (Qfloor_le x) as L. pose proof (Qlt_floor x) as U.
  rewrite inject_Z_plus in U. change (inject_Z 1) with 1 in U.
  set (f := Qfloor x) in *. clearbody f.
  apply Qabs_Qle_condition.
  destruct (x - inject_Z f ?= 1 # 2) eqn:C.
  - apply Qeq_alt in C.
    destruct (Z.even f); [| rewrite inject_Z_plus; change (inject_Z 1) with 1];
      split; lra.
  - apply Qlt_alt in C. split; lra.
  - apply Qgt_alt in C. rewrite inject_Z_plus. change (inject_Z 1) with 1.
    split; lra.
Qed.

(** [round(x, 2)] moves a number by half a hundredth at most. *)
Lemma py_round2_near (x : Q) : Qabs (py_round2 x - x) <= 0.005.
Proof.
  unfold py_round2.
  pose proof (py_round_near (x * 100)) as N.
  apply Qabs_Qle_condition in N. destruct N as [N1 N2].
  apply Qabs_Qle_condition.
  set (r := inject_Z (py_round (x * 100))) in *. clearbody r.
  assert (E : r / 100 == r * (1 # 100)) by field.
  split; lra.
Qed.

(** The split of a duration into hours, minutes and seconds that
    [time_table_from_pace] computes is the split of its whole seconds. *)
Lemma hms_decomposition (t : Q) :
  let H := Qfloor (t / 60) in
  let M := py_int (t - 60 * inject_Z H) in
  let S := py_int ((t - inject_Z (H * 60) - inject_Z M) * 60) in
  let T := Qfloor (t * 60) in
  H = (T / 3600)%Z /\ M = ((T / 60) mod 60)%Z /\ S = (T mod 60)%Z.
Proof.
  intros H M S T.
  pose proof (Qfloor_le (t / 60)) as HL. pose proof (Qlt_floor (t / 60)) as HU.
  fold H in HL, HU.
  rewrite inject_Z_plus in HU. change (inject_Z 1) with 1 in HU.
  assert (Et : t == 60 * (t / 60)) by field.
  assert (R0 : 0 <= t - 60 * inject_Z H) by lra.
  assert (R1 : t - 60 * inject_Z H < 60) by lra.
  assert (EM : M = Qfloor (t - 60 * inject_Z H)) by (apply py_int_nonneg; exact R0).
  pose proof (Qfloor_le (t - 60 * inject_Z H)) as ML.
  pose proof (Qlt_floor (t - 60 * inject_Z H)) as MU.
  rewrite <- EM in ML, MU. rewrite inject_Z_plus in MU.
  change (inject_Z 1) with 1 in MU.
  assert (M0 : (0 <= M)%Z).
  { rewrite EM. change 0%Z with (Qfloor 0). apply Qfloor_resp_le. exact R0. }
  assert (M59 : (M < 60)%Z).
  { rewrite Zlt_Qlt. change (inject_Z 60) with 60. lra. }
  set (u := (t - inject_Z (H * 60) - inject_Z M) * 60) in *.
  assert (Eu : u == (t - 60 * inject_Z H - inject_Z M) * 60).
  { unfold u. rewrite inject_Z_mult. change (inject_Z 60) with 60. ring. }
  assert (U0 : 0 <= u) by lra.
  assert (U1 : u < 60) by lra.
  assert (ES : S = Qfloor u) by (apply py_int_nonneg; exact U0).
  pose proof (Qfloor_le u) as SL. pose proof (Qlt_floor u) as SU.
  rewrite <- ES in SL, SU. rewrite inject_Z_plus in SU.
  change (inject_Z 1) with 1 in SU.
  assert (S0 : (0 <= S)%Z).
  { rewrite ES. change 0%Z with (Qfloor 0). apply Qfloor_resp_le. exact U0. }
  assert (S59 : (S < 60)%Z).
  { rewrite Zlt_Qlt. change (inject_Z 60) with 60. lra. }
  assert (ET : T = (3600 * H + 60 * M + S)%Z).
  { unfold T. apply Qfloor_unique.
    - rewrite !inject_Z_plus, !inject_Z_mult.
      change (inject_Z 3600) with 3600. change (inject_Z 60) with 60. lra.
    - rewrite !inject_Z_plus, !inject_Z_mult.
      change (inject_Z 3600) with 3600. change (inject_Z 60) with 60.
      change (inject_Z 1) with 1. lra. }
  clearbody T S M H. clear - ET M0 M59 S0 S59. subst T. repeat split.
  - apply Z.div_unique with (r := (60 * M + S)%Z); lia.
  - assert (D : ((3600 * H + 60 * M + S) / 60 = 60 * H + M)%Z).
    { symmetry. apply Z.div_unique with (r := S); lia. }
    rewrite D. apply Z.mod_unique with (q := H); lia.
  - apply Z.mod_unique with (q := (60 * H + M)%Z); lia.
Qed.

Lemma series_sum_fold_right (xs : list Q) (a : Q) :
  fold_left Qplus xs a == a + fold_right Qplus 0 xs.
Proof.
  revert a. induction xs as [| x xs IH]; intro a; simpl.
  - ring.
  - rewrite IH. ring.
Qed.

(** Checks run over the values of integer widgets. *)
Lemma forallb_zrange (P : Z -> bool) (lo : Z) (n : nat) :
  forallb P (zrange lo n) = true ->
  forall z, (lo <= z < lo + Z.of_nat n)%Z -> P z = true.
Proof.
  intros F z Hz. rewrite forallb_forall in F. apply F.
  unfold zrange. apply in_map_iff. exists (Z.to_nat (z - lo)).
  split; [lia |]. apply in_seq. lia.
Qed.

Lemma forallb_zrange2 (P : Z -> Z -> bool) (lo1 : Z) (n1 : nat) (lo2 : Z) (n2 : nat) :
  forallb (fun a => forallb (P a) (zrange lo2 n2)) (zrange lo1 n1) = true ->
  forall a b, (lo1 <= a < lo1 + Z.of_nat n1)%Z -> (lo2 <= b < lo2 + Z.of_nat n2)%Z ->
  P a b = true.
Proof.
  intros F a b Ha Hb.
  pose proof (@forallb_zrange _ _ _ F a Ha) as Fa.
  exact (@forallb_zrange _ _ _ Fa b Hb).
Qed.

Lemma forall2b_Forall2 {A B : Type} (p : A -> B -> bool) (l1 : list A) (l2 : list B) :
  forall2b p l1 l2 = true -> Forall2 (fun a b => p a b = true) l1 l2.
Proof.
  revert l2. induction l1 as [| a l1 IH]; intros [| b l2] H; cbn [forall2b] in H;
    try discriminate H; [constructor |].
  apply andb_true_iff in H. destruct H as [H1 H2].
  constructor; [exact H1 | now apply IH].
Qed.

(** The speed converter, run on floats over the values of its two widgets. *)
Lemma converter_checked_all (pace_min pace_sec : Z) :
  (0 <= pace_min <= 30)%Z -> (0 <= pace_sec <= 59)%Z ->
  Reading.converter_checked pace_min pace_sec = true.
Proof.
  intros Hm Hs.
  assert (F : forallb (fun a => forallb (Reading.converter_checked a) (zrange 0 60))
                      (zrange 0 31) = true) by (vm_compute; reflexivity).
  exact (@forallb_zrange2 _ _ _ _ _ F pace_min pace_sec ltac:(lia) ltac:(lia)).
Qed.

End PythonArithmetic.

(* ================================================================== *)
(** ** website.py: pace, speed and finish times *)
(* ================================================================== *)

Section PaceAndTime.
Import Website Reading.
Import PrimFloat.
Local Open Scope Q_scope.
#[local] Set Warnings "-inexact-float".

Lemma time_row_clock (pace : Q) (name : string) (km : Q) :
  time_row pace name km = Ok (mkTimeRow name (clock (Qfloor (pace * km * 60)))).
Proof.
  unfold time_row, py_floordiv, py_mod.
  change (Qis_zero 60) with false. cbn [bind].
  rewrite py_int_inject.
  destruct (hms_decomposition (pace * km)) as (EH & EM & ES).
  unfold clock. cbv zeta.
  rewrite <- EH, <- EM, <- ES. reflexivity.
Qed.

(** C1.  [format_pace] rounds the seconds without carrying them: a pace of
    5.999 min/km is printed "5:60", where the claim wants "6:00"; a pace of
    6.0 is printed "6:00".  Both hold on exact numbers and on binary64
    floats. *)
Theorem format_pace_prints_sixty_seconds :
  format_pace 5.999 = "5:60"%string
  /\ format_pace 6 = "6:00"%string
  /\ Binary64.format_pace 5.999%float = Ok "5:60"%string
  /\ Binary64.format_pace 6%float = Ok "6:00"%string.
Proof. repeat split; vm_compute; reflexivity. Qed.

(** X1.  The seconds field of [format_pace] reads 60 for every pace, on exact
    numbers, whose fraction of a minute is more than 59.5 seconds: the
    minutes stay those of [int(p)]. *)
Lemma format_pace_sixty (p : Q) :
  0 <= p -> 59.5 < (p - inject_Z (Qfloor p)) * 60 ->
  format_pace p = (fmt_d (Qfloor p) ++ ":60")%string.
Proof.
  intros P F. unfold format_pace.
  rewrite (py_int_nonneg P).
  pose proof (Qlt_floor p) as U. rewrite inject_Z_plus in U.
  change (inject_Z 1) with 1 in U.
  set (f := Qfloor p) in *. clearbody f.
  assert (R : py_round ((p - inject_Z f) * 60) = 60%Z).
  { unfold py_round.
    assert (E : Qfloor ((p - inject_Z f) * 60) = 59%Z).
    { apply Qfloor_unique.
      - change (inject_Z 59) with 59. lra.
      - change (inject_Z (59 + 1)) with 60. lra. }
    rewrite E.
    assert (C : ((p - inject_Z f) * 60 - inject_Z 59 ?= 1 # 2) = Gt).
    { apply Qgt_alt. change (inject_Z 59) with 59. lra. }
    rewrite C. reflexivity. }
  rewrite R. reflexivity.
Qed.

Lemma format_pace_sixty_witness :
  format_pace 12.9999 = (fmt_d (Qfloor 12.9999) ++ ":60")%string.
Proof.
  apply (@format_pace_sixty 12.9999).
  - vm_compute. discriminate.
  - reflexivity.
Defined.

(** C2, as the claim words it, fails: with the seconds rounded, a half
    marathon at 6 min/km (126.582 minutes, 34.92 seconds over 2:06) would
    read 02:06:35; the table says 02:06:34, on exact numbers and on binary64
    floats alike. *)
Lemma time_table_does_not_round_seconds :
  time_table_from_pace 6 <> Ok (rounded_finish_time_table 6)
  /\ nth_error (rounded_finish_time_table 6) 2
       = Some (mkTimeRow "Half Marathon (21.1 km)" "02:06:35")
  /\ (r <- time_table_from_pace 6 ;; Ok (nth_error r 2))
       = Ok (Some (mkTimeRow "Half Marathon (21.1 km)" "02:06:34"))
  /\ (r <- Binary64.time_table_from_pace 6%float ;; Ok (nth_error r 2))
       = Ok (Some (mkTimeRow "Half Marathon (21.1 km)" "02:06:34")).
Proof.
  split; [| split; [| split]].
  - vm_compute. intro E. discriminate E.
  - vm_compute. reflexivity.
  - vm_compute. reflexivity.
  - vm_compute. reflexivity.
Qed.

(** C2, amended.  The table lists 5, 10, 21.097 and 42.195 km in that order,
    each with a time printed HH:MM:SS when the hours are positive and MM:SS
    otherwise; the seconds are cut ([int]), not rounded.
    In exact arithmetic the time is [distance * pace] cut to whole seconds,
    for every pace.  On binary64 floats, which the program computes with, the
    product can fall just below the exact one, and the time shown is then one
    second less: for every pace of the "Minutes" (0 to 30) and "Seconds"
    (0 to 59) widgets of the converter, each row shows the exact time cut to
    whole seconds or one second less.  At 5 min/km the rows read 25:00,
    50:00, 01:45:29, 03:30:58 in both readings; at 10 min/km the marathon
    reads 07:01:56 on floats and 07:01:57 in exact arithmetic. *)
Theorem time_table_from_pace_truncates :
  (forall pace : Q,
      time_table_from_pace pace =
        Ok [ mkTimeRow "5 km" (clock (Qfloor (pace * 5 * 60)));
             mkTimeRow "10 km" (clock (Qfloor (pace * 10 * 60)));
             mkTimeRow "Half Marathon (21.1 km)"
                       (clock (Qfloor (pace * 21.097 * 60)));
             mkTimeRow "Full Marathon (42.2 km)"
                       (clock (Qfloor (pace * 42.195 * 60))) ])
  /\ time_table_from_pace 5 =
       Ok [ mkTimeRow "5 km" "25:00";
            mkTimeRow "10 km" "50:00";
            mkTimeRow "Half Marathon (21.1 km)" "01:45:29";
            mkTimeRow "Full Marathon (42.2 km)" "03:30:58" ]
  /\ Binary64.time_table_from_pace 5%float = time_table_from_pace 5
  /\ (forall pace_min pace_sec : Z,
        (0 <= pace_min <= 30)%Z -> (0 <= pace_sec <= 59)%Z ->
        (0 < 60 * pace_min + pace_sec)%Z ->
        exists text table,
          Binary64.convert_to_speed pace_min pace_sec = Ok (Success text table)
          /\ Forall2 (fun d r =>
                        Distance r = fst d
                        /\ near_truncation (inject_Z pace_min + inject_Z pace_sec / 60)
                                           (snd d) (Time r) = true)
                     distances table)
  /\ (r <- Binary64.time_table_from_pace 10%float ;; Ok (nth_error r 3))
       = Ok (Some (mkTimeRow "Full Marathon (42.2 km)" "07:01:56"))
  /\ (r <- time_table_from_pace 10 ;; Ok (nth_error r 3))
       = Ok (Some (mkTimeRow "Full Marathon (42.2 km)" "07:01:57")).
Proof.
  split; [| split; [| split; [| split; [| split]]]].
  - intro pace. unfold time_table_from_pace, distances. cbn [mapM fst snd].
    rewrite !time_row_clock. reflexivity.
  - vm_compute. reflexivity.
  - vm_compute. reflexivity.
  - intros pace_min pace_sec Hm Hs Hp.
    pose proof (@converter_checked_all pace_min pace_sec Hm Hs) as C.
    unfold converter_checked in C.
    destruct (Binary64.convert_to_speed pace_min pace_sec) as [[text table | w] | e];
      [| | discriminate C].
    2: { apply andb_true_iff in C. destruct C as [_ C].
         apply andb_true_iff in C. destruct C as [C1 C2].
         apply Z.eqb_eq in C1. apply Z.eqb_eq in C2. lia. }
    apply andb_true_iff in C. destruct C as [_ C].
    exists text, table. split; [reflexivity |].
    apply forall2b_Forall2 in C.
    eapply Forall2_impl; [| exact C].
    intros d r E. apply andb_true_iff in E. destruct E as [E1 E2].
    apply String.eqb_eq in E1. split; assumption.
  - vm_compute. reflexivity.
  - vm_compute. reflexivity.
Qed.

Lemma time_table_from_pace_truncates_witness :
  exists text table,
    Binary64.convert_to_speed 4 20 = Ok (Success text table)
    /\ Forall2 (fun d r =>
                  Distance r = fst d
                  /\ near_truncation (inject_Z 4 + inject_Z 20 / 60) (snd d) (Time r) = true)
               distances table.
Proof.
  apply (proj1 (proj2 (proj2 (proj2 time_table_from_pace_truncates))) 4%Z 20%Z); lia.
Defined.

(** C9, as the claim words it, fails on the floats the program computes
    with: at 13 km/h the pace is 60 / 13 = 4.615384615384615 and the speed
    back is 13.000000000000002, which [==] tells apart from 13.0. *)
Lemma speed_pace_round_trip_inexact_on_floats :
  (p <- Binary64.speed_to_pace 13%float ;;
   s' <- Binary64.pace_to_speed p ;;
   Ok (s', PrimFloat.eqb s' 13%float))
  = Ok (13.000000000000002%float, false).
Proof. vm_compute. reflexivity. Qed.

(** C9, amended.  On exact numbers the two conversions, both [60 / x], undo
    each other: speed to pace and back is the identity on positive speeds
    (and neither raises there).  On binary64 floats the round trip is exact
    at some speeds, such as 10.0, and off by a rounding error at others. *)
Theorem speed_pace_round_trip :
  (forall s : Q,
      0 < s ->
      exists p s', speed_to_pace s = Ok p /\ p == 60 / s /\ 0 < p
                /\ pace_to_speed p = Ok s' /\ s' == 60 / p /\ s' == s)
  /\ (p <- Binary64.speed_to_pace 10%float ;; Binary64.pace_to_speed p)
       = Ok 10%float.
Proof.
  split; [| vm_compute; reflexivity].
  intros s S.
  assert (P : 0 < 60 / s).
  { apply Qlt_shift_div_l; lra. }
  exists (60 / s), (60 / (60 / s)).
  unfold speed_to_pace, pace_to_speed.
  rewrite !py_truediv_ok by lra.
  repeat split; try reflexivity; try exact P.
  field. lra.
Qed.

Lemma speed_pace_round_trip_witness :
  exists p s', speed_to_pace 13 = Ok p /\ p == 60 / 13 /\ 0 < p
            /\ pace_to_speed p = Ok s' /\ s' == 60 / p /\ s' == 13.
Proof. apply (proj1 speed_pace_round_trip 13). reflexivity. Defined.

End PaceAndTime.

(* ================================================================== *)
(** ** website.py: the run log and its monthly summary *)
(* ================================================================== *)

Section RunLog.
Import Website Reading.
Import PrimFloat.
Local Open Scope Q_scope.
#[local] Set Warnings "-inexact-float".

Lemma load_runs_total (d : disk) :
  load_runs d = Ok (match FILE d with Some rows => rows | None => [] end).
Proof. unfold load_runs. destruct (FILE d); reflexivity. Qed.

(** C4, as the claim words it, fails: 3 km in 10 minutes is stored with time
    10.0 and pace 3.33, and 3.33 is not 10.0 / 3 (on exact numbers and on
    binary64 floats alike). *)
Lemma stored_pace_is_not_time_over_distance :
  (exists r,
      save_activity (mkdate 2024 1 1) 3 0 10 0 (mkDisk None None None)
        = Ok (mkDisk None (Some [r]) None)
      /\ ~ pace_min_per_km r == time_min r / distance_km r)
  /\ Binary64.stored_time_and_pace 3%float 0 10 0 = Ok (10%float, 3.33%float)
  /\ PrimFloat.eqb 3.33%float (10 / 3)%float = false.
Proof.
  split; [| split; vm_compute; reflexivity].
  exists (mkRun "01/01/2024" 3 10.00 3.33). split.
  - vm_compute. reflexivity.
  - cbn [pace_min_per_km time_min distance_km]. intro E.
    vm_compute in E. discriminate E.
Qed.

(** C4, amended.  Saving a run of positive distance [km] appends one record
    to the run log, holding [km], [round(t, 2)] and [round(t / km, 2)] for the
    time entered [t = h*60 + m + s/60]: time and pace are rounded to two
    decimals separately, so the stored pace is not the stored time over the
    stored distance.
    In exact arithmetic the stored pace is within 0.005 of [t / km] and within
    [0.005 + 0.005 / km] of the stored time over the stored distance.  On
    binary64 floats, which the program computes with, [t] and [t / km] are
    rounded before [round] sees them, and a quotient half-way between two
    hundredths can go the other way: 10.5 km in 52:30 is stored as 52.5 and
    5.0 in both readings, 4 km in 10:42 as pace 2.67 on floats, where exact
    arithmetic gives 2.68. *)
Theorem save_activity_stores_rounded_values :
  (forall (day : date) (km : Q) (h m s : Z) (d : disk),
      0 < km ->
      let t := inject_Z (h * 60 + m) + inject_Z s / 60 in
      exists old run,
        load_runs d = Ok old
        /\ save_activity day km h m s d
             = Ok (mkDisk (FOOD_FILE d) (Some (old ++ [run])%list) (NOTES_FILE d))
        /\ run = mkRun (strftime_dmy day) km (py_round2 t) (py_round2 (t / km))
        /\ Qabs (time_min run - t) <= 0.005
        /\ Qabs (pace_min_per_km run - t / km) <= 0.005
        /\ Qabs (pace_min_per_km run - time_min run / distance_km run)
             <= 0.005 + 0.005 / km)
  /\ Binary64.stored_time_and_pace 10.5%float 0 52 30 = Ok (52.5%float, 5%float)
  /\ Binary64.stored_time_and_pace 4%float 0 10 42 = Ok (10.7%float, 2.67%float)
  /\ py_round2 ((inject_Z (0 * 60 + 10) + inject_Z 42 / 60) / 4) == 2.68.
Proof.
  split; [| split; [| split]]; [| vm_compute; reflexivity ..].
  intros day km h m s d K t.
  exists (match FILE d with Some rows => rows | None => [] end).
  eexists. split; [apply load_runs_total |]. split; [| split; [reflexivity |]].
  - unfold save_activity, to_minutes, save_run.
    rewrite py_truediv_ok by (intro E; discriminate E).
    cbn [bind]. fold t.
    rewrite py_truediv_ok by lra.
    cbn [bind]. rewrite load_runs_total. reflexivity.
  - cbn [time_min pace_min_per_km distance_km].
    pose proof (py_round2_near t) as A.
    pose proof (py_round2_near (t / km)) as B.
    split; [exact A | split; [exact B |]].
    apply Qabs_Qle_condition in A. apply Qabs_Qle_condition in B.
    apply Qabs_Qle_condition.
    set (a := py_round2 t) in *. set (b := py_round2 (t / km)) in *.
    clearbody a b. clearbody t.
    assert (X : 0 < / km) by (apply Qinv_lt_0_compat; exact K).
    unfold Qdiv in *. set (x := / km) in *. clearbody x.
    split; nra.
Qed.

Lemma save_activity_stores_rounded_values_witness :
  0 < 10.5 /\
  exists old run,
    load_runs (mkDisk None None None) = Ok old
    /\ save_activity (mkdate 2024 3 5) 10.5 0 52 30 (mkDisk None None None)
         = Ok (mkDisk None (Some (old ++ [run])%list) None)
    /\ run = mkRun (strftime_dmy (mkdate 2024 3 5)) 10.5
               (py_round2 (inject_Z (0 * 60 + 52) + inject_Z 30 / 60))
               (py_round2 ((inject_Z (0 * 60 + 52) + inject_Z 30 / 60) / 10.5))
    /\ Qabs (time_min run - (inject_Z (0 * 60 + 52) + inject_Z 30 / 60)) <= 0.005
    /\ Qabs (pace_min_per_km run
             - (inject_Z (0 * 60 + 52) + inject_Z 30 / 60) / 10.5) <= 0.005
    /\ Qabs (pace_min_per_km run - time_min run / distance_km run)
         <= 0.005 + 0.005 / 10.5.
Proof.
  split; [reflexivity |].
  apply (proj1 save_activity_stores_rounded_values
           (mkdate 2024 3 5) 10.5 0%Z 52%Z 30%Z (mkDisk None None None)).
  reflexivity.
Defined.

(** [pandas] sums from the left; the total is the same. *)
Lemma series_mean_unweighted (xs : list Q) :
  series_mean xs == unweighted_mean xs.
Proof.
  unfold series_mean, unweighted_mean, series_sum.
  rewrite series_sum_fold_right, Qplus_0_l. reflexivity.
Qed.

(** C5.  The average pace of the monthly summary is the plain mean of the
    paces of that month's runs, each run counting once whatever its length.  With
    1 km at 4 min/km and 9 km at 6 min/km logged in March 2024 (and a run in
    April), the summary of March reports 5 min/km, printed "5:00", while
    total time over total distance is 5.8 min/km. *)
Theorem monthly_avg_pace_is_unweighted_mean :
  (forall (year_sel month_num : Z) (df : list RunEntry) (parsed : list (date * RunEntry)),
      parse_run_dates df = Ok parsed ->
      month_filter year_sel month_num parsed <> [] ->
      exists s,
        monthly_summary year_sel month_num df = Ok s
        /\ avg_pace s ==
             unweighted_mean
               (map (fun r => pace_min_per_km (snd r))
                    (month_filter year_sel month_num parsed))
        /\ avg_pace_text s = format_pace (avg_pace s))
  /\ (let march := [mkRun "05/03/2024" 1 4 4; mkRun "20/03/2024" 9 54 6] in
      exists s,
        monthly_summary 2024 3 (march ++ [mkRun "02/04/2024" 5 35 7])%list = Ok s
        /\ avg_pace s == 5
        /\ avg_pace_text s = "5:00"%string
        /\ distance_weighted_pace march == 5.8
        /\ ~ avg_pace s == distance_weighted_pace march).
Proof.
  split.
  - intros year_sel month_num df parsed P N.
    unfold monthly_summary. rewrite P. cbn [bind].
    destruct (month_filter year_sel month_num parsed) as [| r rs] eqn:F;
      [contradiction |].
    cbn [df_empty negb].
    eexists. split; [reflexivity |].
    cbn [avg_pace avg_pace_text]. split; [| reflexivity].
    apply series_mean_unweighted.
  - cbv zeta. eexists. split; [vm_compute; reflexivity |].
    cbn [avg_pace avg_pace_text].
    repeat split; try reflexivity.
    intro E. vm_compute in E. discriminate E.
Qed.

Lemma monthly_avg_pace_is_unweighted_mean_witness :
  exists s,
    monthly_summary 2024 3 [mkRun "05/03/2024" 1 4 4; mkRun "20/03/2024" 9 54 6] = Ok s
    /\ avg_pace s ==
         unweighted_mean
           (map (fun r => pace_min_per_km (snd r))
                (month_filter 2024 3
                   [(mkdate 2024 3 5, mkRun "05/03/2024" 1 4 4);
                    (mkdate 2024 3 20, mkRun "20/03/2024" 9 54 6)]))
    /\ avg_pace_text s = format_pace (avg_pace s).
Proof.
  apply (proj1 monthly_avg_pace_is_unweighted_mean 2024%Z 3%Z
           [mkRun "05/03/2024" 1 4 4; mkRun "20/03/2024" 9 54 6]
           [(mkdate 2024 3 5, mkRun "05/03/2024" 1 4 4);
            (mkdate 2024 3 20, mkRun "20/03/2024" 9 54 6)]).
  - reflexivity.
  - simpl. discriminate.
Defined.

End RunLog.

(* ================================================================== *)
(** ** Dates as the programs write and read them *)
(* ================================================================== *)

Section Dates.

Lemma forallb_range (P : Z -> bool) (lo len : nat) :
  forallb (fun i => P (Z.of_nat i)) (seq lo len) = true ->
  forall z, Z.of_nat lo <= z < Z.of_nat (lo + len) -> P z = true.
Proof.
  intros F z Hz. rewrite forallb_forall in F.
  specialize (F (Z.to_nat z)). rewrite Z2Nat.id in F by lia.
  apply F. apply in_seq. lia.
Qed.

Lemma two_digits_all (n : Z) : 0 <= n < 100 -> two_digits_ok n = true.
Proof.
  apply (forallb_range two_digits_ok 0 100). vm_compute. reflexivity.
Qed.

Lemma four_digits_all (n : Z) : 1000 <= n < 10000 -> four_digits_ok n = true.
Proof.
  apply (forallb_range four_digits_ok (Z.to_nat 1000) (Z.to_nat 9000)).
  vm_compute. reflexivity.
Qed.

Lemma valid_date_bounds (d : date) :
  valid_date d = true ->
  1000 <= year d <= 9999 /\ 1 <= month d <= 12 /\ 1 <= day d <= 31.
Proof.
  unfold valid_date. rewrite !andb_true_iff, !Z.leb_le.
  intros (((((A & B) & C) & D) & E) & F).
  assert (days_in_month (year d) (month d) <= 31).
  { unfold days_in_month.
    destruct (month d =? 2); [destruct (is_leap (year d)); lia |].
    destruct ((month d =? 4) || (month d =? 6) || (month d =? 9) || (month d =? 11)); lia. }
  lia.
Qed.

Lemma to_datetime_strftime (d : date) :
  valid_date d = true -> to_datetime_dayfirst (strftime_dmy d) = Ok d.
Proof.
  intro V. destruct (valid_date_bounds d V) as (Y & M & D).
  pose proof (two_digits_all (n := day d) ltac:(lia)) as HD.
  pose proof (two_digits_all (n := month d) ltac:(lia)) as HM.
  pose proof (four_digits_all (n := year d) ltac:(lia)) as HY.
  unfold two_digits_ok in HD, HM. unfold four_digits_ok in HY.
  unfold strftime_dmy.
  destruct (fmt_02d (day d)) as [| d1 [| d2 [| ? ?]]]; try discriminate HD.
  destruct (fmt_02d (month d)) as [| m1 [| m2 [| ? ?]]]; try discriminate HM.
  destruct (fmt_d (year d)) as [| y1 [| y2 [| y3 [| y4 [| ? ?]]]]]; try discriminate HY.
  cbn [append to_datetime_dayfirst].
  destruct (digit_of_ascii d1), (digit_of_ascii d2); try discriminate HD.
  destruct (digit_of_ascii m1), (digit_of_ascii m2); try discriminate HM.
  destruct (digit_of_ascii y1), (digit_of_ascii y2),
           (digit_of_ascii y3), (digit_of_ascii y4); try discriminate HY.
  apply Z.eqb_eq in HD, HM, HY.
  rewrite HD, HM, HY.
  destruct d as [y m dd]. cbn [year month day] in *.
  rewrite V. reflexivity.
Qed.

End Dates.

(* ================================================================== *)
(** ** body_calculation.py: the food log and its daily summary *)
(* ================================================================== *)

Section FoodLog.
Import BodyCalculation Reading.

Lemma date_eqb_eq (a b : date) : date_eqb a b = true <-> a = b.
Proof.
  destruct a as [y m d], b as [y' m' d']. unfold date_eqb. cbn [year month day].
  rewrite !andb_true_iff, !Z.eqb_eq. split.
  - intros [[-> ->] ->]. reflexivity.
  - intro E. injection E as -> -> ->. auto.
Qed.

Lemma date_eqb_refl (a : date) : date_eqb a a = true.
Proof. now apply date_eqb_eq. Qed.

Lemma date_ltb_spec (a b : date) :
  date_ltb a b = true <->
  year a < year b \/ (year a = year b /\ (month a < month b \/ (month a = month b /\ day a < day b))).
Proof.
  unfold date_ltb.
  rewrite !orb_true_iff, !andb_true_iff, !orb_true_iff, !andb_true_iff,
          !Z.ltb_lt, !Z.eqb_eq.
  tauto.
Qed.

Lemma date_lt_trans (a b c : date) : date_lt a b -> date_lt b c -> date_lt a c.
Proof. unfold date_lt. rewrite !date_ltb_spec. lia. Qed.

Lemma date_lt_neq (a b : date) : date_lt a b -> date_eqb b a = false.
Proof.
  unfold date_lt. rewrite date_ltb_spec. intro L.
  destruct (date_eqb b a) eqn:E; [| reflexivity].
  apply date_eqb_eq in E. subst b. lia.
Qed.

Lemma date_lt_total (a b : date) :
  date_eqb a b = false -> date_ltb a b = false -> date_lt b a.
Proof.
  intros E L. unfold date_lt. apply date_ltb_spec.
  assert (N : ~ (year a < year b \/ (year a = year b /\ (month a < month b \/ (month a = month b /\ day a < day b))))).
  { intro H. apply date_ltb_spec in H. congruence. }
  assert (D : a <> b).
  { intro H. apply date_eqb_eq in H. congruence. }
  destruct a as [y m d], b as [y' m' d']. cbn [year month day] in *.
  assert (~ (y = y' /\ m = m' /\ d = d')).
  { intros (-> & -> & ->). now apply D. }
  lia.
Qed.

Lemma series_sumZ_cons (x : Z) (xs : list Z) :
  series_sumZ (x :: xs) = x + series_sumZ xs.
Proof.
  unfold series_sumZ. cbn [fold_left].
  assert (G : forall l a, fold_left Z.add l a = a + fold_left Z.add l 0).
  { induction l as [| y l IH]; intro a; cbn [fold_left]; [lia |].
    rewrite (IH (a + y)), (IH (0 + y)). lia. }
  rewrite (G xs (0 + x)). lia.
Qed.

Lemma total_in_cons (k : date) (r : date * Z * Z) (rows : list (date * Z * Z)) :
  total_in k (r :: rows) =
    (if date_eqb (key r) k then snd (fst r) else 0) + total_in k rows.
Proof.
  unfold total_in. cbn [filter].
  destruct (date_eqb (key r) k); cbn [map]; [apply series_sumZ_cons | lia].
Qed.

Lemma total_out_cons (k : date) (r : date * Z * Z) (rows : list (date * Z * Z)) :
  total_out k (r :: rows) =
    (if date_eqb (key r) k then snd r else 0) + total_out k rows.
Proof.
  unfold total_out. cbn [filter].
  destruct (date_eqb (key r) k); cbn [map]; [apply series_sumZ_cons | lia].
Qed.

(** Filing a row under its key adds its calories to that key and to no other. *)
Lemma total_group_add (k' k : date) (cin cout : Z) (groups : list (date * Z * Z)) :
  total_in k' (group_add k cin cout groups) = total_in k' ((k, cin, cout) :: groups)
  /\ total_out k' (group_add k cin cout groups) = total_out k' ((k, cin, cout) :: groups).
Proof.
  induction groups as [| [[k0 a] b] rest IH].
  - split; reflexivity.
  - cbn [group_add].
    destruct (date_eqb k k0) eqn:E.
    + apply date_eqb_eq in E. subst k0.
      rewrite !total_in_cons, !total_out_cons. unfold key. cbn [fst snd].
      destruct (date_eqb k k'); lia.
    + destruct (date_ltb k k0); [split; reflexivity |].
      destruct IH as [IHi IHo].
      rewrite total_in_cons, total_out_cons, IHi, IHo.
      rewrite !total_in_cons, !total_out_cons. lia.
Qed.

Lemma group_add_keys (k' k : date) (cin cout : Z) (groups : list (date * Z * Z)) :
  In k' (map key (group_add k cin cout groups)) <-> k' = k \/ In k' (map key groups).
Proof.
  induction groups as [| [[k0 a] b] rest IH].
  - cbn. intuition.
  - cbn [group_add].
    destruct (date_eqb k k0) eqn:E.
    + apply date_eqb_eq in E. subst k0. cbn [map In key fst]. intuition.
    + destruct (date_ltb k k0).
      * cbn [map In key fst]. intuition.
      * cbn [map In]. rewrite IH. cbn [key fst]. intuition.
Qed.

Lemma group_add_sorted (k : date) (cin cout : Z) (groups : list (date * Z * Z)) :
  StronglySorted date_lt (map key groups) ->
  StronglySorted date_lt (map key (group_add k cin cout groups)).
Proof.
  induction groups as [| [[k0 a] b] rest IH]; intro S.
  - cbn. constructor; constructor.
  - cbn [group_add]. cbn [map key fst] in S.
    apply StronglySorted_inv in S. destruct S as [S F].
    destruct (date_eqb k k0) eqn:E.
    + cbn [map key fst]. constructor; assumption.
    + destruct (date_ltb k k0) eqn:L.
      * cbn [map key fst]. constructor.
        -- constructor; assumption.
        -- constructor; [exact L |].
           eapply Forall_impl; [| exact F].
           intros x Hx. eapply date_lt_trans; [exact L | exact Hx].
      * cbn [map]. constructor; [apply IH; exact S |].
        cbn [key fst]. apply Forall_forall. intros x Hx.
        apply group_add_keys in Hx. destruct Hx as [-> | Hx].
        -- apply date_lt_total; [exact E | exact L].
        -- rewrite Forall_forall in F. now apply F.
Qed.

Lemma groupby_fold (rows acc : list (date * Z * Z)) :
  let groups :=
    fold_left (fun groups r => let '(k, cin, cout) := r in group_add k cin cout groups)
              rows acc in
  (StronglySorted date_lt (map key acc) -> StronglySorted date_lt (map key groups))
  /\ (forall k, In k (map key groups) <-> In k (map key acc) \/ In k (map key rows))
  /\ (forall k, total_in k groups = total_in k acc + total_in k rows)
  /\ (forall k, total_out k groups = total_out k acc + total_out k rows).
Proof.
  revert acc. induction rows as [| [[k0 a] b] rows IH]; intro acc; cbn [fold_left].
  - cbv zeta. repeat split; try tauto; intros.
    + cbn in H. tauto.
    + change (total_in k []) with 0. lia.
    + change (total_out k []) with 0. lia.
  - specialize (IH (group_add k0 a b acc)). cbv zeta in IH |- *.
    destruct IH as (S & K & I & O).
    split; [| split; [| split]].
    + intro H. apply S. now apply group_add_sorted.
    + intro k. rewrite K, group_add_keys. cbn [map In key fst]. intuition.
    + intro k. rewrite I. destruct (total_group_add k k0 a b acc) as [-> _].
      rewrite !total_in_cons. lia.
    + intro k. rewrite O. destruct (total_group_add k k0 a b acc) as [_ ->].
      rewrite !total_out_cons. lia.
Qed.

(** In a table with ascending keys, a row carries the totals of its key. *)
Lemma sorted_row_totals (groups : list (date * Z * Z)) (k : date) (a b : Z) :
  StronglySorted date_lt (map key groups) ->
  In (k, a, b) groups ->
  total_in k groups = a /\ total_out k groups = b.
Proof.
  induction groups as [| [[k0 a0] b0] rest IH]; intros S I; [contradiction |].
  cbn [map key fst] in S. apply StronglySorted_inv in S. destruct S as [S F].
  rewrite total_in_cons, total_out_cons. unfold key. cbn [fst snd].
  destruct I as [E | I].
  - injection E as -> -> ->. rewrite date_eqb_refl.
    assert (Z : total_in k rest = 0 /\ total_out k rest = 0).
    { clear IH S. induction rest as [| [[k1 a1] b1] rest IH].
      - split; reflexivity.
      - cbn [map key fst] in F. apply Forall_cons_iff in F. destruct F as [L F].
        rewrite total_in_cons, total_out_cons. unfold key. cbn [fst snd].
        rewrite (date_lt_neq L). destruct (IH F) as [-> ->]. split; reflexivity. }
    destruct Z as [-> ->]. lia.
  - assert (L : date_lt k0 k).
    { rewrite Forall_forall in F. apply F.
      change k with (key (k, a, b)). now apply in_map. }
    assert (N : date_eqb k0 k = false).
    { destruct (date_eqb k0 k) eqn:E; [| reflexivity].
      apply date_eqb_eq in E. subst k0.
      pose proof (date_lt_neq L) as X. now rewrite date_eqb_refl in X. }
    rewrite N. destruct (IH S I) as [-> ->]. lia.
Qed.


Lemma mapM_Forall2 {A B : Type} (f : A -> result B) (l : list A) (l' : list B) :
  mapM f l = Ok l' -> Forall2 (fun a b => f a = Ok b) l l'.
Proof.
  revert l'. induction l as [| a l IH]; intros l' H; cbn [mapM] in H.
  - injection H as <-. constructor.
  - destruct (f a) as [b |] eqn:Fa; cbn [bind] in H; [| discriminate H].
    destruct (mapM f l) as [bs |]; cbn [bind] in H; [| discriminate H].
    injection H as <-. constructor; auto.
Qed.

Lemma mapM_app {A B : Type} (f : A -> result B) (l1 l2 : list A) (r1 r2 : list B) :
  mapM f l1 = Ok r1 -> mapM f l2 = Ok r2 -> mapM f (l1 ++ l2) = Ok (r1 ++ r2)%list.
Proof.
  revert r1. induction l1 as [| a l1 IH]; intros r1 H1 H2; cbn [mapM app] in *.
  - injection H1 as <-. exact H2.
  - destruct (f a) as [b |]; cbn [bind] in *; [| discriminate H1].
    destruct (mapM f l1) as [bs |]; cbn [bind] in *; [| discriminate H1].
    injection H1 as <-. rewrite (IH bs eq_refl H2). reflexivity.
Qed.

Lemma daily_summary_table (df_food : list FoodLogEntry) (rows : list (date * Z * Z)) :
  parse_food_dates df_food = Ok rows ->
  daily_summary df_food = Ok (map with_net (groupby_date_sum rows)).
Proof.
  intro P. unfold daily_summary. destruct df_food as [| e df].
  - cbn in P. injection P as <-. reflexivity.
  - cbn [df_empty]. rewrite P. reflexivity.
Qed.

Lemma daily_summary_spec (df_food : list FoodLogEntry) (rows : list (date * Z * Z)) :
  parse_food_dates df_food = Ok rows ->
  exists table,
    daily_summary df_food = Ok table
    /\ StronglySorted date_lt (map daily_date table)
    /\ (forall k, In k (map daily_date table) <-> In k (map key rows))
    /\ (forall r, In r table ->
          daily_calories_in r = total_in (daily_date r) rows
          /\ daily_calories_out r = total_out (daily_date r) rows
          /\ net_calories r = daily_calories_in r - daily_calories_out r).
Proof.
  intro P. eexists. split; [apply daily_summary_table; exact P |].
  destruct (groupby_fold rows []) as (S & K & I & O).
  fold (groupby_date_sum rows) in S, K, I, O.
  set (groups := groupby_date_sum rows) in *. clearbody groups.
  assert (E : map daily_date (map with_net groups) = map key groups).
  { rewrite map_map. apply map_ext. intros [[k a] b]. reflexivity. }
  rewrite E. split; [apply S; constructor |]. split.
  - intro k. rewrite K. cbn [map In]. tauto.
  - intros r Hr. apply in_map_iff in Hr. destruct Hr as ([[k a] b] & <- & Hg).
    cbn [with_net daily_date daily_calories_in daily_calories_out net_calories].
    destruct (@sorted_row_totals groups k a b (S ltac:(constructor)) Hg) as [Ti To].
    pose proof (I k) as Ik. pose proof (O k) as Ok'.
    change (total_in k []) with 0 in Ik. change (total_out k []) with 0 in Ok'.
    lia.
Qed.

Lemma load_food_data_total (d : disk) :
  load_food_data d = Ok (match FOOD_FILE d with Some rows => rows | None => [] end).
Proof. unfold load_food_data. destruct (FOOD_FILE d); reflexivity. Qed.

(** C7.  For a log whose dates read as days, [daily_summary] has one row per
    day of the log, the days strictly ascending (so none twice, and none that
    the log lacks); a row holds the sum of [calories_in] and the sum of
    [calories_out] over the entries of its day, and their difference as net.
    Two entries of 1 January 2024, 500 in / 0 out and 300 in / 100 out, give
    the single row 800, 100, 700. *)
Theorem daily_summary_groups_by_date
    (df_food : list FoodLogEntry) (rows : list (date * Z * Z)) :
  parse_food_dates df_food = Ok rows ->
  Forall2 (fun e r => to_datetime_dayfirst (food_date e) = Ok (key r)
                      /\ snd (fst r) = calories_in e /\ snd r = calories_out e)
          df_food rows
  /\ (exists table,
        daily_summary df_food = Ok table
        /\ StronglySorted date_lt (map daily_date table)
        /\ (forall k, In k (map daily_date table) <-> In k (map key rows))
        /\ (forall r, In r table ->
              daily_calories_in r = total_in (daily_date r) rows
              /\ daily_calories_out r = total_out (daily_date r) rows
              /\ net_calories r = daily_calories_in r - daily_calories_out r))
  /\ daily_summary [ mkFood "01/01/2024" "Breakfast" "Oatmeal" 500 "" 0;
                     mkFood "01/01/2024" "Lunch" "Pasta" 300 "Run" 100 ]
       = Ok [ mkDaily (mkdate 2024 1 1) 800 100 700 ].
Proof.
  intro P. split; [| split].
  - apply mapM_Forall2 in P.
    eapply Forall2_impl; [| exact P].
    intros e r H. cbn beta in H.
    destruct (to_datetime_dayfirst (food_date e)) as [k |]; cbn [bind] in H;
      [| discriminate H].
    injection H as <-. unfold key. cbn [fst snd]. auto.
  - apply daily_summary_spec. exact P.
  - vm_compute. reflexivity.
Qed.

Lemma daily_summary_groups_by_date_witness :
  let log := [ mkFood "02/01/2024" "Lunch" "Salad" 50 "" 0;
               mkFood "01/01/2024" "Breakfast" "Egg" 78 "" 0;
               mkFood "02/01/2024" "Exercise" "" 0 "Walk" 120 ] in
  parse_food_dates log
    = Ok [ (mkdate 2024 1 2, 50, 0); (mkdate 2024 1 1, 78, 0); (mkdate 2024 1 2, 0, 120) ]
  /\ exists table,
       daily_summary log = Ok table
       /\ StronglySorted date_lt (map daily_date table)
       /\ (forall k, In k (map daily_date table) <->
                     In k [mkdate 2024 1 2; mkdate 2024 1 1; mkdate 2024 1 2]).
Proof.
  cbv zeta. split; [reflexivity |].
  destruct (@daily_summary_groups_by_date
              [ mkFood "02/01/2024" "Lunch" "Salad" 50 "" 0;
                mkFood "01/01/2024" "Breakfast" "Egg" 78 "" 0;
                mkFood "02/01/2024" "Exercise" "" 0 "Walk" 120 ]
              [ (mkdate 2024 1 2, 50, 0); (mkdate 2024 1 1, 78, 0);
                (mkdate 2024 1 2, 0, 120) ]
              eq_refl) as (_ & (table & T & S & K & _) & _).
  exists table. split; [exact T |]. split; [exact S |]. exact K.
Defined.

Lemma dict_get_in (db : list (string * Z)) (k : string) :
  In k (map fst db) -> exists v, dict_get db k = Ok v.
Proof.
  induction db as [| [k' v'] db IH]; intro H; [contradiction |].
  cbn [dict_get]. destruct (String.eqb k k') eqn:E; [now exists v' |].
  destruct H as [H | H]; [| now apply IH].
  cbn [fst] in H. subst k'. now rewrite String.eqb_refl in E.
Qed.

Lemma mapM_dict_get_total (foods : list string) :
  (forall f, In f foods -> In f (map fst food_db)) ->
  exists cs, mapM (dict_get food_db) foods = Ok cs.
Proof.
  induction foods as [| f foods IH]; intro H.
  - now exists [].
  - destruct (dict_get_in food_db f (H f (or_introl eq_refl))) as [v Hv].
    destruct IH as [cs Hcs]; [intros g Hg; apply H; now right |].
    exists (v :: cs). cbn [mapM]. rewrite Hv. cbn [bind]. rewrite Hcs. reflexivity.
Qed.

Lemma meal_entry_ok (log_date : date) (m : string) (foods : list string) (cs : list Z) :
  mapM (dict_get food_db) foods = Ok cs ->
  meal_entry log_date m foods
    = Ok (mkFood (strftime_dmy log_date) m (join ", " foods) (series_sumZ cs) "" 0).
Proof.
  intro H. unfold meal_entry. destruct foods as [| f foods].
  - cbn in H. injection H as <-. reflexivity.
  - cbn [df_empty]. rewrite H. reflexivity.
Qed.

(** C10.  With every selected food a key of [food_db], pressing "Save Today's
    Entry" appends to the food log the three records of Breakfast, Lunch and
    Dinner for the chosen date, in that order (an empty selection giving the
    empty food text and 0 calories), followed by one "Exercise" record exactly
    when the exercise text is not empty and the calories burnt are positive,
    and by nothing else.  Hence, if the log read as days before, the chosen
    date has a row in the daily summary of the new log. *)
Theorem save_todays_entry_appends_meal_records
    (log_date : date) (selection : string -> list string)
    (exercise_item : string) (cout : Z) (d : disk) :
  (forall m f, In m meals -> In f (selection m) -> In f (map fst food_db)) ->
  valid_date log_date = true ->
  exists old b l dn extra,
    load_food_data d = Ok old
    /\ save_todays_entry log_date selection exercise_item cout d
         = Ok (mkDisk (Some (old ++ [b; l; dn] ++ extra)%list) (FILE d) (NOTES_FILE d))
    /\ map meal [b; l; dn] = ["Breakfast"; "Lunch"; "Dinner"]
    /\ (forall e, In e [b; l; dn] ->
          food_date e = strftime_dmy log_date
          /\ exercise e = exercise_item /\ calories_out e = 0
          /\ food e = join ", " (selection (meal e))
          /\ (exists cs, mapM (dict_get food_db) (selection (meal e)) = Ok cs
                         /\ calories_in e = series_sumZ cs)
          /\ (selection (meal e) = [] -> food e = "" /\ calories_in e = 0))
    /\ (exercise_item <> "" /\ 0 < cout ->
          extra = [mkFood (strftime_dmy log_date) "Exercise" "" 0 exercise_item cout])
    /\ (~ (exercise_item <> "" /\ 0 < cout) -> extra = [])
    /\ (forall rows, parse_food_dates old = Ok rows ->
          exists table,
            daily_summary (old ++ [b; l; dn] ++ extra)%list = Ok table
            /\ In log_date (map daily_date table)).
Proof.
  intros Keys V.
  destruct (mapM_dict_get_total (selection "Breakfast")) as [cb Hb];
    [intros f Hf; apply (Keys "Breakfast"); [cbn; tauto | exact Hf] |].
  destruct (mapM_dict_get_total (selection "Lunch")) as [cl Hl];
    [intros f Hf; apply (Keys "Lunch"); [cbn; tauto | exact Hf] |].
  destruct (mapM_dict_get_total (selection "Dinner")) as [cd Hd];
    [intros f Hf; apply (Keys "Dinner"); [cbn; tauto | exact Hf] |].
  set (day_text := strftime_dmy log_date).
  exists (match FOOD_FILE d with Some rows => rows | None => [] end).
  exists (mkFood day_text "Breakfast" (join ", " (selection "Breakfast"))
                 (series_sumZ cb) exercise_item 0).
  exists (mkFood day_text "Lunch" (join ", " (selection "Lunch"))
                 (series_sumZ cl) exercise_item 0).
  exists (mkFood day_text "Dinner" (join ", " (selection "Dinner"))
                 (series_sumZ cd) exercise_item 0).
  exists (if str_truthy exercise_item && (0 <? cout)
          then [mkFood day_text "Exercise" "" 0 exercise_item cout] else []).
  split; [apply load_food_data_total |].
  split.
  { unfold save_todays_entry, meal_entries, meals. cbn [mapM].
    rewrite (meal_entry_ok log_date "Breakfast" _ Hb),
            (meal_entry_ok log_date "Lunch" _ Hl),
            (meal_entry_ok log_date "Dinner" _ Hd).
    cbn [bind map set_exercise food_date meal food calories_in calories_out].
    fold day_text. unfold save_food_data. rewrite load_food_data_total.
    cbn [bind]. destruct (str_truthy exercise_item && (0 <? cout));
      reflexivity. }
  split; [reflexivity |].
  split.
  { assert (F : forall m cs,
               mapM (dict_get food_db) (selection m) = Ok cs ->
               selection m = [] ->
               join ", " (selection m) = "" /\ series_sumZ cs = 0).
    { intros m cs H E. rewrite E in H |- *. cbn in H. injection H as <-.
      split; reflexivity. }
    intros e [<- | [<- | [<- | []]]];
      cbn [food_date meal food calories_in exercise calories_out];
      do 4 (split; [reflexivity |]);
      (split; [eexists; split; [eassumption | reflexivity] |]);
      apply F; assumption. }
  assert (T : str_truthy exercise_item && (0 <? cout) = true
              <-> exercise_item <> "" /\ 0 < cout).
  { rewrite andb_true_iff, Z.ltb_lt.
    destruct exercise_item; cbn [str_truthy]; split; intros [A B]; split;
      try assumption; try discriminate; try reflexivity; try congruence. }
  split.
  { intro H. apply T in H. rewrite H. reflexivity. }
  split.
  { intro H. destruct (str_truthy exercise_item && (0 <? cout)) eqn:E;
      [| reflexivity]. exfalso. apply H. now apply T. }
  intros rows P.
  pose proof (to_datetime_strftime log_date V) as R. fold day_text in R.
  assert (PA : exists rows',
             parse_food_dates
               ([mkFood day_text "Breakfast" (join ", " (selection "Breakfast"))
                        (series_sumZ cb) exercise_item 0;
                 mkFood day_text "Lunch" (join ", " (selection "Lunch"))
                        (series_sumZ cl) exercise_item 0;
                 mkFood day_text "Dinner" (join ", " (selection "Dinner"))
                        (series_sumZ cd) exercise_item 0]
                ++ (if str_truthy exercise_item && (0 <? cout)
                    then [mkFood day_text "Exercise" "" 0 exercise_item cout]
                    else []))%list = Ok rows'
             /\ In log_date (map key rows')).
  { unfold parse_food_dates.
    destruct (str_truthy exercise_item && (0 <? cout));
      cbn [app mapM food_date calories_in calories_out]; rewrite R; cbn [bind];
      eexists; (split; [reflexivity |]); cbn; tauto. }
  destruct PA as (rows' & PA & IA).
  pose proof (mapM_app _ _ _ P PA) as PN.
  destruct (daily_summary_spec _ PN) as (table & DS & _ & K & _).
  exists table. split; [exact DS |].
  apply K. rewrite map_app. apply in_or_app. now right.
Qed.

Lemma save_todays_entry_appends_meal_records_witness :
  let d := mkDisk None None None in
  exists old b l dn extra,
    load_food_data d = Ok old
    /\ save_todays_entry (mkdate 2024 1 1) (fun _ => []) "" 0 d
         = Ok (mkDisk (Some (old ++ [b; l; dn] ++ extra)%list) None None)
    /\ map meal [b; l; dn] = ["Breakfast"; "Lunch"; "Dinner"]
    /\ extra = []
    /\ (forall rows, parse_food_dates old = Ok rows ->
          exists table,
            daily_summary (old ++ [b; l; dn] ++ extra)%list = Ok table
            /\ In (mkdate 2024 1 1) (map daily_date table)).
Proof.
  cbv zeta.
  destruct (@save_todays_entry_appends_meal_records
              (mkdate 2024 1 1) (fun _ => []) "" 0 (mkDisk None None None))
    as (old & b & l & dn & extra & L & S & M & _ & _ & NX & DS).
  - intros m f _ F. contradiction F.
  - reflexivity.
  - exists old, b, l, dn, extra.
    split; [exact L |]. split; [exact S |]. split; [exact M |].
    split; [| exact DS].
    apply NX. intros [A _]. now apply A.
Defined.

End FoodLog.

(* ================================================================== *)
(** ** website.py: notes *)
(* ================================================================== *)

Section Notes.
Import Website.

Lemma fold_left_max_ge (ids : list Z) (i : Z) :
  i <= fold_left Z.max ids i /\ forall x, In x ids -> x <= fold_left Z.max ids i.
Proof.
  revert i. induction ids as [| y ids IH]; intro i; simpl.
  - split; [lia | tauto].
  - destruct (IH (Z.max i y)) as [A B]. split; [lia |].
    intros x [-> | Hx]; [lia | auto].
Qed.

Lemma fold_left_max_in (ids : list Z) (i : Z) :
  fold_left Z.max ids i = i \/ In (fold_left Z.max ids i) ids.
Proof.
  revert i. induction ids as [| y ids IH]; intro i; simpl.
  - now left.
  - destruct (IH (Z.max i y)) as [E | I]; [| now right; right].
    rewrite E. destruct (Z.max_spec i y) as [[_ ->] | [_ ->]]; auto.
Qed.

Lemma id_max_spec (n : Note) (df : list Note) :
  (exists x, In x (n :: df) /\ id_max (n :: df) = note_id x)
  /\ forall x, In x (n :: df) -> note_id x <= id_max (n :: df).
Proof.
  unfold id_max. cbn [map].
  destruct (fold_left_max_ge (map note_id df) (note_id n)) as [A B].
  split.
  - destruct (fold_left_max_in (map note_id df) (note_id n)) as [E | I].
    + exists n. split; [now left | exact E].
    + apply in_map_iff in I. destruct I as (x & E & I).
      exists x. split; [now right | now symmetry].
  - intros x [-> | I]; [exact A |].
    apply B. now apply in_map.
Qed.

Lemma load_notes_total (d : disk) :
  load_notes d = Ok (match NOTES_FILE d with Some rows => rows | None => [] end).
Proof. unfold load_notes. destruct (NOTES_FILE d); reflexivity. Qed.

Lemma String_eqb_empty_false (s : string) : s <> ""%string -> String.eqb s "" = false.
Proof. intro H. apply String.eqb_neq. exact H. Qed.

(** C6.  A note with a title and a text that are not blank ([str.strip()]
    leaves something of each; the white space it removes is that of
    [str.isspace()], the no-break space and the other Unicode spaces
    included) gets the id [max(existing ids) + 1], or 1 when the frame is
    empty, and is appended and saved.  So on an empty store the first note
    gets id 1; deleting it leaves the store empty, and the next note gets
    id 1 again. *)
Theorem add_note_assigns_max_plus_one
    (today : date) (note_title note_content : string)
    (notes_df : list Note) (d : disk) :
  strip note_title <> ""%string ->
  strip note_content <> ""%string ->
  (exists n,
      add_note today note_title note_content notes_df d
        = (Saved, (notes_df ++ [n])%list, save_notes (notes_df ++ [n])%list d)
      /\ title n = note_title /\ content n = note_content
      /\ (notes_df = [] -> note_id n = 1)
      /\ (notes_df <> [] ->
          (exists x, In x notes_df /\ note_id n = note_id x + 1)
          /\ forall x, In x notes_df -> note_id x < note_id n))
  /\ (load_notes d = Ok [] ->
      exists n1 d1 d2 n2 d3,
        add_note today note_title note_content [] d = (Saved, [n1], d1)
        /\ note_id n1 = 1
        /\ load_notes d1 = Ok [n1]
        /\ delete_note 0 [n1] d1 = Ok ([], d2)
        /\ load_notes d2 = Ok []
        /\ add_note today note_title note_content [] d2 = (Saved, [n2], d3)
        /\ note_id n2 = 1
        /\ load_notes d3 = Ok [n2]).
Proof.
  intros T C.
  assert (G : String.eqb (strip note_title) "" || String.eqb (strip note_content) "" = false).
  { rewrite !String_eqb_empty_false by assumption. reflexivity. }
  split.
  - unfold add_note. rewrite G.
    eexists. split; [reflexivity |].
    cbn [title content note_id]. split; [reflexivity | split; [reflexivity |]].
    destruct notes_df as [| n0 rest].
    + split; [reflexivity | intro N; now contradiction N].
    + split; [discriminate |]. intros _. cbn [df_empty negb].
      destruct (id_max_spec n0 rest) as [(x & I & E) B].
      split.
      * exists x. split; [exact I | now rewrite E].
      * intros y Hy. specialize (B y Hy). lia.
  - intros L. unfold add_note. rewrite G. cbn [df_empty negb app].
    do 5 eexists.
    split; [reflexivity |]. split; [reflexivity |].
    split; [reflexivity |]. split; [reflexivity |].
    split; [reflexivity |]. split; [reflexivity |].
    split; reflexivity.
Qed.

Lemma add_note_assigns_max_plus_one_witness :
  let d := mkDisk None None (Some [mkNote 4 "01/03/2024" "Knee" "Sore"; mkNote 2 "02/03/2024" "Shoes" "New pair"]) in
  exists n,
    add_note (mkdate 2024 3 9) "Plan" "Long run on Sunday"
             [mkNote 4 "01/03/2024" "Knee" "Sore"; mkNote 2 "02/03/2024" "Shoes" "New pair"] d
      = (Saved,
         [mkNote 4 "01/03/2024" "Knee" "Sore"; mkNote 2 "02/03/2024" "Shoes" "New pair"; n],
         save_notes [mkNote 4 "01/03/2024" "Knee" "Sore"; mkNote 2 "02/03/2024" "Shoes" "New pair"; n] d)
    /\ note_id n = 5.
Proof.
  cbv zeta.
  destruct (@add_note_assigns_max_plus_one
              (mkdate 2024 3 9) "Plan" "Long run on Sunday"
              [mkNote 4 "01/03/2024" "Knee" "Sore"; mkNote 2 "02/03/2024" "Shoes" "New pair"]
              (mkDisk None None
                 (Some [mkNote 4 "01/03/2024" "Knee" "Sore"; mkNote 2 "02/03/2024" "Shoes" "New pair"])))
    as [(n & A & _ & _ & _ & N) _].
  - vm_compute. discriminate.
  - vm_compute. discriminate.
  - exists n. split; [exact A |].
    destruct N as [(x & I & E) B]; [discriminate |].
    pose proof (B (mkNote 4 "01/03/2024" "Knee" "Sore") (or_introl eq_refl)) as B4.
    cbn [note_id] in B4.
    destruct I as [<- | [<- | []]]; cbn [note_id] in E; lia.
Defined.

Import Reading.

(** [strip] leaves nothing exactly of the blank texts. *)
Lemma lstrip_space (c s : string) : isspace c = true -> lstrip (c ++ s) = lstrip s.
Proof.
  destruct c as [| a [| b [| c [| e r]]]]; cbn [isspace]; intro H;
    try discriminate H; cbn [append lstrip].
  - rewrite H. reflexivity.
  - assert (A : isspace1 a = false).
    { unfold isspace2 in H. unfold isspace1.
      destruct (Nat.eqb_spec (nat_of_ascii a) 194) as [-> |]; [reflexivity |].
      discriminate H. }
    rewrite A, H. reflexivity.
  - assert (A : isspace1 a = false /\ isspace2 a b = false).
    { unfold isspace3 in H. unfold isspace1, isspace2.
      destruct (Nat.eqb_spec (nat_of_ascii a) 225) as [-> |];
        [split; reflexivity |].
      destruct (Nat.eqb_spec (nat_of_ascii a) 226) as [-> |];
        [split; reflexivity |].
      destruct (Nat.eqb_spec (nat_of_ascii a) 227) as [-> |];
        [split; reflexivity |].
      discriminate H. }
    destruct A as [A1 A2]. rewrite A1, A2, H. reflexivity.
Qed.

Lemma lstrip_blank (s : string) : blank s -> lstrip s = ""%string.
Proof.
  induction 1 as [| c s C _ IH]; [reflexivity |].
  rewrite (@lstrip_space c s C). exact IH.
Qed.

Lemma lstrip_empty_blank (n : nat) :
  forall s, (String.length s <= n)%nat -> lstrip s = ""%string -> blank s.
Proof.
  induction n as [| n IH]; intros s L E.
  - destruct s; [constructor | cbn in L; lia].
  - destruct s as [| a r]; [constructor |]. cbn [lstrip] in E. cbn [String.length] in L.
    destruct (isspace1 a) eqn:A.
    { apply (@blank_cons (String a "") r); [exact A | apply IH; [lia | exact E]]. }
    destruct r as [| b r2]; [discriminate E |]. cbn [String.length] in L.
    destruct (isspace2 a b) eqn:B.
    { apply (@blank_cons (String a (String b "")) r2);
        [exact B | apply IH; [lia | exact E]]. }
    destruct r2 as [| c r3]; [discriminate E |]. cbn [String.length] in L.
    destruct (isspace3 a b c) eqn:C; [| discriminate E].
    apply (@blank_cons (String a (String b (String c ""))) r3);
      [exact C | apply IH; [lia | exact E]].
Qed.

Lemma lstrip_idempotent (n : nat) :
  forall s, (String.length s <= n)%nat -> lstrip (lstrip s) = lstrip s.
Proof.
  induction n as [| n IH]; intros s L.
  - destruct s; [reflexivity | cbn in L; lia].
  - destruct s as [| a r]; [reflexivity |]. cbn [String.length] in L.
    cbn [lstrip].
    destruct (isspace1 a) eqn:A; [apply IH; lia |].
    destruct r as [| b r2].
    { cbn [lstrip]. rewrite A. reflexivity. }
    cbn [String.length] in L.
    destruct (isspace2 a b) eqn:B; [apply IH; lia |].
    destruct r2 as [| c r3].
    { cbn [lstrip]. rewrite A, B. reflexivity. }
    cbn [String.length] in L.
    destruct (isspace3 a b c) eqn:C; [apply IH; lia |].
    cbn [lstrip]. rewrite A, B, C. reflexivity.
Qed.

Lemma strip_empty_iff_blank (s : string) : strip s = ""%string <-> blank s.
Proof.
  unfold strip. split.
  - intro E. apply (@lstrip_empty_blank (String.length s)); [lia |].
    destruct (lstrip s) as [| a r] eqn:Ls; [reflexivity |].
    cbn [rstrip] in E. rewrite <- Ls in E.
    rewrite (@lstrip_idempotent (String.length s) s (le_n _)) in E.
    rewrite Ls in E. cbn [String.eqb] in E. discriminate E.
  - intro B. rewrite (@lstrip_blank s B). reflexivity.
Qed.

(** X2.  A note is turned down with a warning, the frame and the files staying
    as they were, exactly when its title or its text is blank: empty or made
    of white-space characters only, those of Unicode included (a title that
    is one no-break space, U+00A0, is blank).  Any other note is saved. *)
Theorem add_note_rejects_blank
    (today : date) (note_title note_content : string)
    (notes_df : list Note) (d : disk) :
  (blank note_title \/ blank note_content ->
     add_note today note_title note_content notes_df d = (Warned, notes_df, d))
  /\ (~ blank note_title -> ~ blank note_content ->
      exists df' d',
        add_note today note_title note_content notes_df d = (Saved, df', d')
        /\ List.length df' = S (List.length notes_df)).
Proof.
  split.
  - intro B. unfold add_note.
    assert (G : String.eqb (strip note_title) "" || String.eqb (strip note_content) "" = true).
    { apply orb_true_iff.
      destruct B as [B | B]; [left | right];
        apply strip_empty_iff_blank in B; rewrite B; reflexivity. }
    rewrite G. reflexivity.
  - intros T C. unfold add_note.
    assert (G : String.eqb (strip note_title) "" || String.eqb (strip note_content) "" = false).
    { rewrite !String_eqb_empty_false; [reflexivity | |];
        intro E; apply strip_empty_iff_blank in E; contradiction. }
    rewrite G. do 2 eexists. split; [reflexivity |].
    rewrite length_app. cbn [List.length]. lia.
Qed.

Lemma add_note_rejects_blank_witness :
  add_note (mkdate 2024 3 9)
           (String (ascii_of_nat 194) (String (ascii_of_nat 160) " "))
           "Long run on Sunday" [] (mkDisk None None None)
    = (Warned, [], mkDisk None None None).
Proof.
  apply (proj1 (@add_note_rejects_blank (mkdate 2024 3 9)
                  (String (ascii_of_nat 194) (String (ascii_of_nat 160) " "))
                  "Long run on Sunday" [] (mkDisk None None None))).
  left.
  apply (@blank_cons (String (ascii_of_nat 194) (String (ascii_of_nat 160) "")) " ");
    [reflexivity |].
  apply (@blank_cons " " ""); [reflexivity | constructor].
Defined.

End Notes.

(* ================================================================== *)
(** ** body_calculation.py: body measurement *)
(* ================================================================== *)

Section BodyMeasurement.
Import BodyCalculation Reading.
Import PrimFloat.
Local Open Scope Q_scope.
#[local] Set Warnings "-inexact-float".

Lemma bmi_category_cases (x : Q) :
  (bmi_category x = "Underweight"%string <-> x < 18.5)
  /\ (bmi_category x = "Normal weight"%string <-> 18.5 <= x < 25)
  /\ (bmi_category x = "Overweight"%string <-> 25 <= x < 30)
  /\ (bmi_category x = "Obese"%string <-> 30 <= x).
Proof.
  unfold bmi_category.
  destruct (Qltb x 18.5) eqn:A; [apply Qltb_lt in A | apply Qltb_ge in A].
  { repeat split; intros; try discriminate; try lra. }
  destruct (Qltb x 25) eqn:B; [apply Qltb_lt in B | apply Qltb_ge in B].
  { repeat split; intros; try discriminate; try lra. }
  destruct (Qltb x 30) eqn:C; [apply Qltb_lt in C | apply Qltb_ge in C].
  { repeat split; intros; try discriminate; try lra. }
  repeat split; intros; try discriminate; try lra.
Qed.

(** C3, as the claim words it, fails twice.  The label of the band from 18.5
    to 25 is "Normal weight", not "Normal".  And the boundary is respected
    for the BMI value the program computed, not for the BMI of the weight and
    height entered: 64 kg at 160 cm is a BMI of exactly 25, which the claim
    calls "Overweight", but on binary64 floats [(160 / 100) ** 2] is
    2.5600000000000005 and the quotient 24.999999999999996, and the page
    says "Normal weight". *)
Lemma bmi_label_and_boundary_differ :
  bmi_category 24.9 <> "Normal"%string
  /\ Binary64.bmi_category 24.9%float <> "Normal"%string
  /\ (exists q, calculate_bmi 64 160 = Ok q /\ q == 25
                /\ bmi_category q = "Overweight"%string)
  /\ (b <- Binary64.calculate_bmi 64%float 160%float ;;
      Ok (b, Binary64.bmi_category b))
     = Ok (24.999999999999996%float, "Normal weight"%string).
Proof.
  split; [vm_compute; discriminate |].
  split; [vm_compute; discriminate |].
  split; [| vm_compute; reflexivity].
  eexists. split; [vm_compute; reflexivity |].
  split; reflexivity.
Qed.

(** C3, amended.  [bmi_category] gives, for every BMI value, one of
    "Underweight", "Normal weight", "Overweight", "Obese"; each band includes
    its lower bound and excludes its upper bound (below 18.5; 18.5 to 25; 25
    to 30; 30 and above), so the value 24.9 is "Normal weight" and the value
    25 is "Overweight" (the comparisons do not round, so this holds of the
    values the program computes).
    In exact arithmetic the BMI of a positive weight and height is defined
    and is [weight / (height_cm / 100) ** 2].  On binary64 floats, which the
    program computes with, the quotient is rounded: over the whole range of
    the widgets (30 to 300 kg, 100 to 250 cm) the BMI is computed without an
    exception and gets one of the four labels, which is the label of the
    exact BMI for every pair but two, 64 kg at 160 cm and 121 kg at 220 cm,
    where the exact BMI is 25 and the computed one just below. *)
Theorem bmi_category_total_with_boundaries :
  (forall b : Q,
      In (bmi_category b) four_labels
      /\ (bmi_category b = "Underweight"%string <-> b < 18.5)
      /\ (bmi_category b = "Normal weight"%string <-> 18.5 <= b < 25)
      /\ (bmi_category b = "Overweight"%string <-> 25 <= b < 30)
      /\ (bmi_category b = "Obese"%string <-> 30 <= b))
  /\ bmi_category 24.9 = "Normal weight"%string
  /\ bmi_category 25 = "Overweight"%string
  /\ Binary64.bmi_category 24.9%float = "Normal weight"%string
  /\ Binary64.bmi_category 25%float = "Overweight"%string
  /\ (forall w h : Q,
        0 < w -> 0 < h ->
        exists b, calculate_bmi w h = Ok b /\ b == w / (h / 100) ^ 2 /\ 0 < b)
  /\ (forall weight height : Z,
        (30 <= weight <= 300)%Z -> (100 <= height <= 250)%Z ->
        exists b q,
          Binary64.calculate_bmi (Binary64.of_int weight) (Binary64.of_int height) = Ok b
          /\ calculate_bmi (inject_Z weight) (inject_Z height) = Ok q
          /\ In (Binary64.bmi_category b) four_labels
          /\ ((weight, height) <> (64, 160)%Z -> (weight, height) <> (121, 220)%Z ->
              Binary64.bmi_category b = bmi_category q)).
Proof.
  split; [| split; [| split; [| split; [| split; [| split]]]]];
    [| vm_compute; reflexivity | vm_compute; reflexivity
     | vm_compute; reflexivity | vm_compute; reflexivity | |].
  - intro b. destruct (bmi_category_cases b) as (U & N & O & B).
    split; [| split; [exact U | split; [exact N | split; [exact O | exact B]]]].
    unfold bmi_category, four_labels.
    destruct (Qltb b 18.5); [simpl; tauto |].
    destruct (Qltb b 25); [simpl; tauto |].
    destruct (Qltb b 30); simpl; tauto.
  - intros w h W H.
    assert (H2 : 0 < (h / 100) ^ 2).
    { assert (E : (h / 100) ^ 2 == h * h * (1 # 10000)) by (simpl; field).
      rewrite E. nra. }
    exists (w / (h / 100) ^ 2).
    unfold calculate_bmi.
    rewrite py_truediv_ok by (intro E; discriminate E). cbn [bind].
    rewrite py_truediv_ok by lra.
    split; [reflexivity | split; [reflexivity |]].
    assert (X : 0 < / (h / 100) ^ 2) by (apply Qinv_lt_0_compat; exact H2).
    unfold Qdiv at 1. set (x := / (h / 100) ^ 2) in *. clearbody x. nra.
  - intros weight height Hw Hh.
    assert (F : forallb (fun a => forallb (fun b => label_as_exact a b) (zrange 100 151))
                        (zrange 30 271) = true) by (vm_compute; reflexivity).
    pose proof (@forallb_zrange2 _ _ _ _ _ F weight height ltac:(lia) ltac:(lia)) as C.
    cbv beta in C. unfold label_as_exact in C.
    destruct (Binary64.calculate_bmi (Binary64.of_int weight) (Binary64.of_int height))
      as [b | e]; [| discriminate C].
    destruct (calculate_bmi (inject_Z weight) (inject_Z height)) as [q | e];
      [| discriminate C].
    exists b, q. split; [reflexivity |]. split; [reflexivity |].
    apply andb_true_iff in C. destruct C as [C1 C2]. split.
    + apply existsb_exists in C1. destruct C1 as (l & I & E).
      apply String.eqb_eq in E. rewrite E. exact I.
    + intros N1 N2.
      apply orb_true_iff in C2. destruct C2 as [C2 | C2].
      * apply orb_true_iff in C2. destruct C2 as [C2 | C2].
        -- now apply String.eqb_eq.
        -- apply andb_true_iff in C2. destruct C2 as [A B].
           apply Z.eqb_eq in A. apply Z.eqb_eq in B. subst. now contradiction N1.
      * apply andb_true_iff in C2. destruct C2 as [A B].
        apply Z.eqb_eq in A. apply Z.eqb_eq in B. subst. now contradiction N2.
Qed.

Lemma bmi_category_total_with_boundaries_witness :
  exists b q,
    Binary64.calculate_bmi (Binary64.of_int 70) (Binary64.of_int 175) = Ok b
    /\ calculate_bmi (inject_Z 70) (inject_Z 175) = Ok q
    /\ In (Binary64.bmi_category b) four_labels
    /\ ((70, 175)%Z <> (64, 160)%Z -> (70, 175)%Z <> (121, 220)%Z ->
        Binary64.bmi_category b = bmi_category q).
Proof.
  apply (proj2 (proj2 (proj2 (proj2 (proj2 (proj2
           bmi_category_total_with_boundaries))))) 70%Z 175%Z); lia.
Defined.

End BodyMeasurement.

(* ================================================================== *)
(** ** The three stores: loading *)
(* ================================================================== *)

Section Stores.
Import BodyCalculation Website.

(** C8.  Each of [load_food_data], [load_runs] and [load_notes] answers the
    rows of its file in file order when the file exists and the empty frame
    when it does not; none of them raises (where the bare [pd.read_csv] of a
    missing file would). *)
Theorem load_returns_rows_or_empty (d : disk) :
  load_food_data d = Ok (match FOOD_FILE d with Some rows => rows | None => [] end)
  /\ load_runs d = Ok (match FILE d with Some rows => rows | None => [] end)
  /\ load_notes d = Ok (match NOTES_FILE d with Some rows => rows | None => [] end)
  /\ pd_read_csv (@None (list RunEntry)) = Raise FileNotFoundError.
Proof.
  unfold load_food_data, load_runs, load_notes.
  destruct d as [[f |] [r |] [n |]]; cbn; repeat split; reflexivity.
Qed.

End Stores.

(* ================================================================== *)
(** ** body_calculation.py: target weight, BMR and the recommendation *)
(* ================================================================== *)

Section HealthAdvice.
Import BodyCalculation Reading.
Import PrimFloat.
Local Open Scope Q_scope.
#[local] Set Warnings "-inexact-float".

Lemma height_squared_pos (h : Q) : 0 < h -> 0 < (h / 100) ^ 2.
Proof.
  intro H.
  assert (E : (h / 100) ^ 2 == h * h * (1 # 10000)) by (simpl; field).
  rewrite E. nra.
Qed.

Lemma target_weight_ok (h : Q) :
  target_weight h = Ok (18.5 * (h / 100) ^ 2, 24.9 * (h / 100) ^ 2).
Proof.
  unfold target_weight. rewrite py_truediv_ok by (intro E; discriminate E).
  reflexivity.
Qed.

Lemma calculate_bmi_ok (w h : Q) :
  0 < h -> calculate_bmi w h = Ok (w / (h / 100) ^ 2).
Proof.
  intro H. pose proof (height_squared_pos H) as P.
  unfold calculate_bmi. rewrite py_truediv_ok by (intro E; discriminate E).
  cbn [bind]. rewrite py_truediv_ok by lra. reflexivity.
Qed.

Lemma div_lt_iff (w x c : Q) : 0 < x -> (w / x < c <-> w < c * x).
Proof.
  intro X. assert (E : w / x * x == w) by (field; lra).
  split; intro H; nra.
Qed.

Lemma div_le_iff (w x c : Q) : 0 < x -> (w / x <= c <-> w <= c * x).
Proof.
  intro X. assert (E : w / x * x == w) by (field; lra).
  split; intro H; nra.
Qed.

(** X4.  The two weights of [target_weight] are the weights of BMI 18.5 and
    24.9 at that height: [calculate_bmi] gives these two values back, and a
    weight is below the lower one exactly when its BMI is below 18.5, and at
    most the upper one exactly when its BMI is at most 24.9. *)
Theorem target_weight_matches_bmi (w h : Q) :
  0 < h ->
  exists min_w max_w bmi,
    target_weight h = Ok (min_w, max_w)
    /\ calculate_bmi w h = Ok bmi
    /\ 0 < min_w /\ min_w < max_w
    /\ (exists b, calculate_bmi min_w h = Ok b /\ b == 18.5)
    /\ (exists b, calculate_bmi max_w h = Ok b /\ b == 24.9)
    /\ (bmi < 18.5 <-> w < min_w)
    /\ (bmi <= 24.9 <-> w <= max_w).
Proof.
  intro H. pose proof (height_squared_pos H) as P.
  set (x := (h / 100) ^ 2) in *.
  exists (18.5 * x), (24.9 * x), (w / x).
  split; [apply target_weight_ok |].
  split; [now apply calculate_bmi_ok |].
  split; [nra |]. split; [nra |].
  split; [| split; [| split]].
  - exists (18.5 * x / x). split; [now apply calculate_bmi_ok |]. field. lra.
  - exists (24.9 * x / x). split; [now apply calculate_bmi_ok |]. field. lra.
  - now apply div_lt_iff.
  - now apply div_le_iff.
Qed.

Lemma target_weight_matches_bmi_witness :
  exists min_w max_w bmi,
    target_weight 175 = Ok (min_w, max_w)
    /\ calculate_bmi 70 175 = Ok bmi
    /\ 0 < min_w /\ min_w < max_w
    /\ (exists b, calculate_bmi min_w 175 = Ok b /\ b == 18.5)
    /\ (exists b, calculate_bmi max_w 175 = Ok b /\ b == 24.9)
    /\ (bmi < 18.5 <-> 70 < min_w)
    /\ (bmi <= 24.9 <-> 70 <= max_w).
Proof. apply (@target_weight_matches_bmi 70 175). reflexivity. Defined.

(** X5.  In exact arithmetic, when [health_recommendation] is given the BMI
    of the same weight and height, as "Analyze Health" does, the weight it
    asks to gain or lose is positive: below 18.5 the text names
    [round(min_w - weight, 1)] with [min_w > weight], from 25 on it names
    [round(weight - max_w, 1)] with [weight > max_w].  The calories are
    [int(bmr * 1.2)], less 500 from BMI 25 on; between 18.5 and 25 the advice
    is to maintain.
    On binary64 floats, which the program computes with, the difference named
    is positive too, over the whole range of the widgets (30 to 300 kg, 100
    to 250 cm).  Two things differ there from exact arithmetic: the product
    [bmr * 1.2] can fall just below a whole number, so that the calories read
    one less (a woman of 25 years, 163 cm and 63 kg: 1709, where the exact
    product is 1710); and a BMI that is exactly 25 can be computed just
    below it (64 kg at 160 cm: no weight is named, the advice is to
    maintain). *)
Theorem health_recommendation_amounts :
  (forall (w h age : Q) (gender : string),
      0 < h ->
      exists bmi min_w max_w,
        calculate_bmi w h = Ok bmi
        /\ target_weight h = Ok (min_w, max_w)
        /\ let kcal := py_int (calculate_bmr w h age gender * 1.2) in
           (bmi < 18.5 ->
              0 < min_w - w
              /\ health_recommendation bmi w h age gender
                 = Ok ("😋 Underweight! Gain ~" ++ fmt_round1 (min_w - w)
                       ++ " kg. Calories/day: " ++ fmt_d kcal ++ " kcal")%string)
           /\ (18.5 <= bmi -> bmi < 25 ->
               health_recommendation bmi w h age gender
                 = Ok ("🎉 Healthy weight! Maintain. Calories/day: "
                       ++ fmt_d kcal ++ " kcal")%string)
           /\ (25 <= bmi -> bmi < 30 ->
               0 < w - max_w
               /\ health_recommendation bmi w h age gender
                  = Ok ("⚖️ Overweight! Lose ~" ++ fmt_round1 (w - max_w)
                        ++ " kg. Calories/day: " ++ fmt_d (kcal - 500) ++ " kcal")%string)
           /\ (30 <= bmi ->
               0 < w - max_w
               /\ health_recommendation bmi w h age gender
                  = Ok ("🚨 Obese! Lose ~" ++ fmt_round1 (w - max_w)
                        ++ " kg. Calories/day: " ++ fmt_d (kcal - 500) ++ " kcal")%string))
  /\ (forall weight height : Z,
        (30 <= weight <= 300)%Z -> (100 <= height <= 250)%Z ->
        exists named,
          Binary64.amount_named weight height = Ok named
          /\ forall x, named = Some x -> PrimFloat.ltb PrimFloat.zero x = true)
  /\ Binary64.f_int (Binary64.daily_calories 63%float 163%float 25%float "Female" 1.2%float)
     = Ok 1709%Z
  /\ py_int (daily_calories 63 163 25 "Female" 1.2) = 1710%Z
  /\ Binary64.amount_named 64 160 = Ok None.
Proof.
  split; [| split; [| split; [| split]]];
    [| | vm_compute; reflexivity | vm_compute; reflexivity | vm_compute; reflexivity].
  - intros w h age gender H. pose proof (height_squared_pos H) as P.
    set (x := (h / 100) ^ 2) in *.
    exists (w / x), (18.5 * x), (24.9 * x).
    split; [now apply calculate_bmi_ok |].
    split; [apply target_weight_ok |].
    cbv zeta. unfold health_recommendation. rewrite target_weight_ok.
    cbn [bind]. fold x. unfold daily_calories.
    assert (E : w / x * x == w) by (field; lra).
    split; [| split; [| split]].
    + intro B. split; [nra |].
      apply Qltb_lt in B. rewrite B. reflexivity.
    + intros B1 B2. apply Qltb_ge in B1. apply Qltb_lt in B2.
      rewrite B1, B2. reflexivity.
    + intros B1 B2. split; [nra |].
      assert (B0 : 18.5 <= w / x) by lra.
      apply Qltb_ge in B0. apply Qltb_ge in B1. apply Qltb_lt in B2.
      rewrite B0, B1, B2. reflexivity.
    + intros B. split; [nra |].
      assert (B0 : 18.5 <= w / x) by lra.
      assert (B1 : 25 <= w / x) by lra.
      apply Qltb_ge in B0. apply Qltb_ge in B1. apply Qltb_ge in B.
      rewrite B0, B1, B. reflexivity.
  - intros weight height Hw Hh.
    assert (F : forallb (fun a => forallb (fun b => amount_positive a b) (zrange 100 151))
                        (zrange 30 271) = true) by (vm_compute; reflexivity).
    pose proof (@forallb_zrange2 _ _ _ _ _ F weight height ltac:(lia) ltac:(lia)) as C.
    cbv beta in C. unfold amount_positive in C.
    destruct (Binary64.amount_named weight height) as [named | e]; [| discriminate C].
    exists named. split; [reflexivity |].
    intros x ->. exact C.
Qed.

Lemma health_recommendation_amounts_witness :
  exists bmi min_w max_w,
    calculate_bmi 50 180 = Ok bmi
    /\ target_weight 180 = Ok (min_w, max_w)
    /\ (bmi < 18.5 ->
          0 < min_w - 50
          /\ health_recommendation bmi 50 180 30 "Female"
             = Ok ("😋 Underweight! Gain ~" ++ fmt_round1 (min_w - 50)
                   ++ " kg. Calories/day: "
                   ++ fmt_d (py_int (calculate_bmr 50 180 30 "Female" * 1.2))
                   ++ " kcal")%string).
Proof.
  destruct (proj1 health_recommendation_amounts 50 180 30 "Female" eq_refl)
    as (bmi & min_w & max_w & B & T & U & _).
  exists bmi, min_w, max_w. split; [exact B |]. split; [exact T |]. exact U.
Defined.

Lemma py_int_ge (x : Q) (n : Z) : (0 <= n)%Z -> inject_Z n <= x -> (n <= py_int x)%Z.
Proof.
  intros N L.
  assert (X : 0 <= x).
  { apply Qle_trans with (inject_Z n); [| exact L].
    change 0 with (inject_Z 0). rewrite <- Zle_Qle. exact N. }
  rewrite (py_int_nonneg X). rewrite <- (Qfloor_Z n).
  now apply Qfloor_resp_le.
Qed.

(** X6.  For inputs inside the ranges of the four widgets (age 10 to 100,
    height 100 to 250 cm, weight 30 to 300 kg) the BMR is at least 400.36, so
    the calories shown for an underweight or healthy person are at least 480
    and those shown from BMI 25 on, [int(calories) - 500], at least -20; this
    least value is reached inside the ranges (a man of 100 years, 100 cm,
    30 kg is told "-20 kcal"), so the target shown can be negative. *)
Theorem calories_shown_bounds (age height weight : Z) (gender : string) :
  (10 <= age <= 100)%Z -> (100 <= height <= 250)%Z -> (30 <= weight <= 300)%Z ->
  let bmr := calculate_bmr (inject_Z weight) (inject_Z height) (inject_Z age) gender in
  let calories := daily_calories (inject_Z weight) (inject_Z height) (inject_Z age) gender 1.2 in
  400.36 <= bmr
  /\ (480 <= py_int calories)%Z
  /\ (-20 <= py_int calories - 500)%Z
  /\ analyze_health 100 100 "Male" 30
     = Ok ([ ("BMI", "30.00", "Obese");
             ("BMR (kcal/day)", "400", "");
             ("Weight Category", "Obese", "") ]%string,
           "🚨 Obese! Lose ~5.1 kg. Calories/day: -20 kcal"%string).
Proof.
  intros A H W. cbv zeta.
  assert (B : 400.36 <= calculate_bmr (inject_Z weight) (inject_Z height) (inject_Z age) gender).
  { unfold calculate_bmr.
    assert (A1 : 10 <= inject_Z age) by (change 10 with (inject_Z 10); rewrite <- Zle_Qle; lia).
    assert (A2 : inject_Z age <= 100) by (change 100 with (inject_Z 100); rewrite <- Zle_Qle; lia).
    assert (H1 : 100 <= inject_Z height) by (change 100 with (inject_Z 100); rewrite <- Zle_Qle; lia).
    assert (W1 : 30 <= inject_Z weight) by (change 30 with (inject_Z 30); rewrite <- Zle_Qle; lia).
    destruct (String.eqb gender "Male"); lra. }
  assert (C : (480 <= py_int (daily_calories (inject_Z weight) (inject_Z height) (inject_Z age) gender 1.2))%Z).
  { apply py_int_ge; [lia |]. unfold daily_calories.
    change (inject_Z 480) with 480. lra. }
  split; [exact B |]. split; [exact C |]. split; [lia |].
  vm_compute. reflexivity.
Qed.

Lemma calories_shown_bounds_witness :
  400.36 <= calculate_bmr (inject_Z 70) (inject_Z 175) (inject_Z 30) "Female"
  /\ (480 <= py_int (daily_calories (inject_Z 70) (inject_Z 175) (inject_Z 30) "Female" 1.2))%Z.
Proof.
  destruct (@calories_shown_bounds 30 175 70 "Female") as (B & C & _); try lia.
  split; [exact B | exact C].
Defined.

End HealthAdvice.

(* ================================================================== *)
(** ** body_calculation.py: the calendar and the order of the log *)
(* ================================================================== *)

Section FoodCalendar.
Import BodyCalculation Reading.

Lemma filter_filter_implied {A : Type} (p q : A -> bool) (l : list A) :
  (forall a, p a = true -> q a = true) ->
  filter p (filter q l) = filter p l.
Proof.
  intro I. induction l as [| a l IH]; [reflexivity |].
  cbn [filter]. destruct (q a) eqn:Q.
  - cbn [filter]. rewrite IH. reflexivity.
  - destruct (p a) eqn:P; [rewrite (I a P) in Q; discriminate Q | exact IH].
Qed.

Lemma rows_of_day_month_rows (a_day : date) (rows : list (date * Z * Z)) :
  rows_of_day a_day (month_rows (year a_day) (month a_day) rows)
  = rows_of_day a_day rows.
Proof.
  unfold rows_of_day, month_rows. apply filter_filter_implied.
  intros r E. apply date_eqb_eq in E. rewrite E, !Z.eqb_refl. reflexivity.
Qed.

Lemma total_absent (k : date) (rows : list (date * Z * Z)) :
  ~ In k (map key rows) -> total_in k rows = 0 /\ total_out k rows = 0.
Proof.
  induction rows as [| r rows IH]; intro N; [split; reflexivity |].
  rewrite total_in_cons, total_out_cons.
  cbn [map In] in N.
  destruct (date_eqb (key r) k) eqn:E.
  - apply date_eqb_eq in E. exfalso. apply N. now left.
  - destruct IH as [-> ->]; [intro I; apply N; now right |]. split; reflexivity.
Qed.

(** X7.  In the monthly calendar, the cell of a day of the month shown carries
    the net calories of that day, calories in less calories out over the
    entries of the day: the net of the day's row in the daily summary, or 0
    when the day has no row; and its colour is the one [style_row] gives that
    row (green up to 2000, yellow up to 2500, red above). *)
Theorem calendar_cell_shows_daily_net
    (df_food : list FoodLogEntry) (rows : list (date * Z * Z)) (a_day : date) :
  parse_food_dates df_food = Ok rows ->
  let net := total_in a_day rows - total_out a_day rows in
  calendar_cell (month a_day) (month_rows (year a_day) (month a_day) rows) a_day
    = day_cell (calorie_band net) (day a_day) net
  /\ exists table,
       daily_summary df_food = Ok table
       /\ (forall r, In r table -> daily_date r = a_day ->
             net_calories r = net
             /\ style_row r
                = repeat ("background-color:" ++ calorie_band net ++ "; color:black") 4)
       /\ (~ In a_day (map daily_date table) -> net = 0).
Proof.
  intros P net. split.
  - unfold calendar_cell. rewrite Z.eqb_refl, rows_of_day_month_rows.
    reflexivity.
  - destruct (daily_summary_spec _ P) as (table & DS & _ & K & T).
    exists table. split; [exact DS |]. split.
    + intros r I E. destruct (T r I) as (Ti & To & N).
      rewrite E in Ti, To.
      assert (N' : net_calories r = net) by (unfold net; lia).
      split; [exact N' |]. unfold style_row, calorie_band. rewrite N'. reflexivity.
    + intro A. rewrite K in A. destruct (total_absent _ _ A) as [Ti To].
      unfold net. lia.
Qed.

Lemma calendar_cell_shows_daily_net_witness :
  calendar_cell 1
      (month_rows 2024 1 [(mkdate 2024 1 1, 500, 0); (mkdate 2024 1 1, 300, 100)])
      (mkdate 2024 1 1)
    = day_cell (calorie_band 700) 1 700.
Proof.
  apply (@calendar_cell_shows_daily_net
           [ mkFood "01/01/2024" "Breakfast" "Oatmeal" 500 "" 0;
             mkFood "01/01/2024" "Lunch" "Pasta" 300 "Run" 100 ]
           [(mkdate 2024 1 1, 500, 0); (mkdate 2024 1 1, 300, 100)]
           (mkdate 2024 1 1)).
  reflexivity.
Defined.

End FoodCalendar.

Section FoodLogOrder.
Import BodyCalculation Reading.

Lemma mapM_Permutation {A B : Type} (f : A -> result B) (l1 l2 : list A) :
  Permutation l1 l2 ->
  forall r1, mapM f l1 = Ok r1 ->
  exists r2, mapM f l2 = Ok r2 /\ Permutation r1 r2.
Proof.
  induction 1 as [| a l1 l2 P IH | a b l | l1 l2 l3 P12 IH12 P23 IH23];
    intros r1 H1.
  - exists r1. split; [exact H1 |]. cbn in H1. injection H1 as <-. constructor.
  - cbn [mapM] in *. destruct (f a) as [fa |]; cbn [bind] in *; [| discriminate H1].
    destruct (mapM f l1) as [s1 |] eqn:M1; cbn [bind] in H1; [| discriminate H1].
    injection H1 as <-. destruct (IH s1 eq_refl) as (s2 & -> & Ps).
    exists (fa :: s2). split; [reflexivity | now constructor].
  - cbn [mapM] in *.
    destruct (f b) as [fb |]; cbn [bind] in *; [| discriminate H1].
    destruct (f a) as [fa |]; cbn [bind] in *; [| discriminate H1].
    destruct (mapM f l) as [s |]; cbn [bind] in *; [| discriminate H1].
    injection H1 as <-. exists (fa :: fb :: s). split; [reflexivity | constructor].
  - destruct (IH12 r1 H1) as (r2 & H2 & P2).
    destruct (IH23 r2 H2) as (r3 & H3 & P3).
    exists r3. split; [exact H3 | now transitivity r2].
Qed.

Lemma total_Permutation (k : date) (rows1 rows2 : list (date * Z * Z)) :
  Permutation rows1 rows2 ->
  total_in k rows1 = total_in k rows2 /\ total_out k rows1 = total_out k rows2.
Proof.
  induction 1 as [| r l1 l2 P [IHi IHo] | a b l | l1 l2 l3 _ [I1 O1] _ [I2 O2]].
  - split; reflexivity.
  - rewrite !total_in_cons, !total_out_cons, IHi, IHo. split; reflexivity.
  - rewrite !total_in_cons, !total_out_cons. split; lia.
  - split; congruence.
Qed.

(** Two tables with strictly ascending days, the same days and the same
    totals per day are one and the same table. *)
Lemma sorted_groups_unique (g1 g2 : list (date * Z * Z)) :
  StronglySorted date_lt (map key g1) ->
  StronglySorted date_lt (map key g2) ->
  (forall k, In k (map key g1) <-> In k (map key g2)) ->
  (forall k, total_in k g1 = total_in k g2) ->
  (forall k, total_out k g1 = total_out k g2) ->
  g1 = g2.
Proof.
  revert g2. induction g1 as [| [[k1 a1] b1] t1 IH]; intros g2 S1 S2 K I O.
  - destruct g2 as [| r2 t2]; [reflexivity |].
    exfalso. apply (proj2 (K (key r2))). now left.
  - destruct g2 as [| [[k2 a2] b2] t2].
    { exfalso. apply (proj1 (K k1)). now left. }
    cbn [map] in S1, S2. unfold key at 1 in S1. unfold key at 1 in S2.
    cbn [fst] in S1, S2.
    apply StronglySorted_inv in S1. destruct S1 as [S1 F1].
    apply StronglySorted_inv in S2. destruct S2 as [S2 F2].
    rewrite Forall_forall in F1, F2.
    assert (E : k1 = k2).
    { destruct (proj1 (K k1) (or_introl eq_refl)) as [E | I2]; [now symmetry |].
      destruct (proj2 (K k2) (or_introl eq_refl)) as [E | I1]; [exact E |].
      cbn [map key fst] in *.
      pose proof (F2 _ I2) as L21. pose proof (F1 _ I1) as L12.
      pose proof (date_lt_neq (date_lt_trans L12 L21)) as X.
      now rewrite date_eqb_refl in X. }
    subst k2.
    assert (N1 : ~ In k1 (map key t1)).
    { intro I1. pose proof (date_lt_neq (F1 _ I1)) as X.
      now rewrite date_eqb_refl in X. }
    assert (N2 : ~ In k1 (map key t2)).
    { intro I2. pose proof (date_lt_neq (F2 _ I2)) as X.
      now rewrite date_eqb_refl in X. }
    pose proof (I k1) as Ik. pose proof (O k1) as Ok1.
    rewrite !total_in_cons in Ik. rewrite !total_out_cons in Ok1.
    unfold key in Ik, Ok1. cbn [fst snd] in Ik, Ok1.
    rewrite date_eqb_refl in Ik, Ok1.
    destruct (total_absent _ _ N1) as [Z1i Z1o].
    destruct (total_absent _ _ N2) as [Z2i Z2o].
    assert (a1 = a2 /\ b1 = b2) as [-> ->] by lia.
    f_equal. apply IH; try assumption.
    + intro k. split; intro H.
      * destruct (proj1 (K k) (or_intror H)) as [E | H2]; [| exact H2].
        cbn [key fst] in E. subst k. contradiction.
      * destruct (proj2 (K k) (or_intror H)) as [E | H1]; [| exact H1].
        cbn [key fst] in E. subst k. contradiction.
    + intro k. pose proof (I k) as X. rewrite !total_in_cons in X. lia.
    + intro k. pose proof (O k) as X. rewrite !total_out_cons in X. lia.
Qed.

(** X8.  The daily summary does not depend on the order of the log: two logs
    with the same entries in a different order, their dates reading as days,
    give the same table. *)
Theorem daily_summary_order_independent
    (df1 df2 : list FoodLogEntry) (rows1 : list (date * Z * Z)) :
  Permutation df1 df2 ->
  parse_food_dates df1 = Ok rows1 ->
  exists table, daily_summary df1 = Ok table /\ daily_summary df2 = Ok table.
Proof.
  intros P H1.
  destruct (@mapM_Permutation _ _ _ _ _ P _ H1) as (rows2 & H2 & PR).
  fold (parse_food_dates df2) in H2.
  exists (map with_net (groupby_date_sum rows1)).
  split; [now apply daily_summary_table |].
  rewrite (daily_summary_table _ H2). do 2 f_equal.
  destruct (groupby_fold rows1 []) as (S1 & K1 & I1 & O1).
  destruct (groupby_fold rows2 []) as (S2 & K2 & I2 & O2).
  fold (groupby_date_sum rows1) in S1, K1, I1, O1.
  fold (groupby_date_sum rows2) in S2, K2, I2, O2.
  symmetry. apply sorted_groups_unique.
  - apply S1. constructor.
  - apply S2. constructor.
  - intro k. rewrite K1, K2. cbn [map In].
    split; intros [[] | H]; right.
    + eapply Permutation_in; [| exact H]. now apply Permutation_map.
    + eapply Permutation_in; [| exact H]. apply Permutation_sym.
      now apply Permutation_map.
  - intro k. rewrite I1, I2. now destruct (total_Permutation k PR) as [-> _].
  - intro k. rewrite O1, O2. now destruct (total_Permutation k PR) as [_ ->].
Qed.

Lemma daily_summary_order_independent_witness :
  exists table,
    daily_summary [ mkFood "02/01/2024" "Lunch" "Salad" 50 "" 0;
                    mkFood "01/01/2024" "Breakfast" "Egg" 78 "" 0 ] = Ok table
    /\ daily_summary [ mkFood "01/01/2024" "Breakfast" "Egg" 78 "" 0;
                       mkFood "02/01/2024" "Lunch" "Salad" 50 "" 0 ] = Ok table.
Proof.
  apply (@daily_summary_order_independent
           [ mkFood "02/01/2024" "Lunch" "Salad" 50 "" 0;
             mkFood "01/01/2024" "Breakfast" "Egg" 78 "" 0 ]
           [ mkFood "01/01/2024" "Breakfast" "Egg" 78 "" 0;
             mkFood "02/01/2024" "Lunch" "Salad" 50 "" 0 ]
           [ (mkdate 2024 1 2, 50, 0); (mkdate 2024 1 1, 78, 0) ]).
  - apply perm_swap.
  - reflexivity.
Defined.

End FoodLogOrder.

(* ================================================================== *)
(** ** website.py: notes, update and delete *)
(* ================================================================== *)

Section NotesUpdateDelete.
Import Website.

Lemma drop_split {A : Type} (idx : nat) (df df' : list A) :
  drop idx df = Ok df' ->
  (idx < List.length df)%nat
  /\ df' = (firstn idx df ++ skipn (S idx) df)%list.
Proof.
  revert idx df'. induction df as [| a df IH]; intros idx df' H.
  - destruct idx; discriminate H.
  - destruct idx as [| i]; cbn [drop] in H.
    + injection H as <-. split; [cbn; lia | reflexivity].
    + destruct (drop i df) as [r |] eqn:D; cbn [bind] in H; [| discriminate H].
      injection H as <-. destruct (IH i r D) as [L ->].
      split; [cbn; lia | reflexivity].
Qed.

Lemma drop_in_range {A : Type} (idx : nat) (df : list A) :
  (idx < List.length df)%nat ->
  drop idx df = Ok (firstn idx df ++ skipn (S idx) df)%list.
Proof.
  revert idx. induction df as [| a df IH]; intros idx L; [cbn in L; lia |].
  destruct idx as [| i]; [reflexivity |].
  cbn [drop]. rewrite IH by (cbn in L; lia). reflexivity.
Qed.

Lemma drop_out_of_range {A : Type} (idx : nat) (df : list A) :
  (List.length df <= idx)%nat -> drop idx df = Raise KeyError.
Proof.
  revert idx. induction df as [| a df IH]; intros idx L.
  - destruct idx; reflexivity.
  - destruct idx as [| i]; [cbn in L; lia |].
    cbn [drop]. rewrite IH by (cbn in L; lia). reflexivity.
Qed.

Lemma loc_set_spec (idx : nat) (t c : string) (df : list Note) :
  (idx < List.length df)%nat ->
  exists n df',
    nth_error df idx = Some n
    /\ loc_set idx t c df = Some df'
    /\ df' = (firstn idx df ++ mkNote (note_id n) (note_date n) t c
                :: skipn (S idx) df)%list.
Proof.
  revert idx. induction df as [| a df IH]; intros idx L; [cbn in L; lia |].
  destruct idx as [| i].
  - exists a. eexists. repeat split.
  - destruct (IH i) as (n & df' & N & Hset & E); [cbn in L; lia |].
    exists n, (a :: df'). cbn [nth_error loc_set]. rewrite Hset.
    repeat split; [exact N |]. rewrite E. reflexivity.
Qed.

Lemma loc_set_out_of_range (idx : nat) (t c : string) (df : list Note) :
  (List.length df <= idx)%nat -> loc_set idx t c df = None.
Proof.
  revert idx. induction df as [| a df IH]; intros idx L.
  - destruct idx; reflexivity.
  - destruct idx as [| i]; [cbn in L; lia |].
    cbn [loc_set]. rewrite IH by (cbn in L; lia). reflexivity.
Qed.

(** X9.  Pressing "Update" on a row of the frame rewrites the title and the
    text of that note and nothing else: the frame keeps its length, its ids and
    its dates, every other row is as before, and the file then holds the new
    frame. *)
Theorem update_note_changes_only_text
    (idx : nat) (edited_title edited_content : string)
    (notes_df : list Note) (d : disk) :
  (idx < List.length notes_df)%nat ->
  exists df',
    update_note idx edited_title edited_content notes_df d
      = Some (df', save_notes df' d)
    /\ load_notes (save_notes df' d) = Ok df'
    /\ List.length df' = List.length notes_df
    /\ map note_id df' = map note_id notes_df
    /\ map note_date df' = map note_date notes_df
    /\ (exists n, nth_error df' idx = Some n
                  /\ title n = edited_title /\ content n = edited_content)
    /\ (forall j, j <> idx -> nth_error df' j = nth_error notes_df j).
Proof.
  intro L.
  destruct (@loc_set_spec idx edited_title edited_content notes_df L)
    as (n & df' & N & Hset & E).
  exists df'. unfold update_note. rewrite Hset.
  split; [reflexivity |]. split; [reflexivity |].
  assert (Split : notes_df = (firstn idx notes_df ++ n :: skipn (S idx) notes_df)%list).
  { clear - N. revert idx N. induction notes_df as [| a df IH]; intros idx N.
    - destruct idx; discriminate N.
    - destruct idx as [| i]; cbn in N.
      + injection N as ->. reflexivity.
      + cbn [firstn skipn app]. f_equal. now apply IH. }
  assert (LF : List.length (firstn idx notes_df) = idx).
  { apply firstn_length_le. lia. }
  split; [| split; [| split; [| split]]].
  - rewrite E. rewrite Split at 3. rewrite !length_app. reflexivity.
  - rewrite E. rewrite Split at 3. rewrite !map_app. reflexivity.
  - rewrite E. rewrite Split at 3. rewrite !map_app. reflexivity.
  - exists (mkNote (note_id n) (note_date n) edited_title edited_content).
    split; [| split; reflexivity].
    rewrite E. rewrite nth_error_app2 by lia.
    rewrite LF, Nat.sub_diag. reflexivity.
  - intros j J. rewrite E. rewrite Split at 3.
    destruct (Nat.lt_ge_cases j idx) as [Lt | Ge].
    + rewrite !nth_error_app1 by lia. reflexivity.
    + rewrite !nth_error_app2 by lia. rewrite LF.
      destruct (j - idx)%nat as [| k] eqn:D; [lia | reflexivity].
Qed.

Lemma update_note_changes_only_text_witness :
  exists df',
    update_note 1 "Shoes (new)" "Second pair"
      [mkNote 4 "01/03/2024" "Knee" "Sore"; mkNote 2 "02/03/2024" "Shoes" "New pair"]
      (mkDisk None None None)
      = Some (df', save_notes df' (mkDisk None None None))
    /\ map note_id df' = [4; 2].
Proof.
  destruct (@update_note_changes_only_text 1 "Shoes (new)" "Second pair"
              [mkNote 4 "01/03/2024" "Knee" "Sore"; mkNote 2 "02/03/2024" "Shoes" "New pair"]
              (mkDisk None None None))
    as (df' & U & _ & _ & I & _).
  - cbn. lia.
  - exists df'. split; [exact U | exact I].
Defined.

(** X10.  Pressing "Delete" on row [idx] removes that row and no other, the
    rows before and after keeping their order, and writes the file; a row
    label that is not in the frame raises [KeyError] and writes nothing. *)
Theorem delete_note_removes_one_row
    (idx : nat) (notes_df : list Note) (d : disk) :
  ((idx < List.length notes_df)%nat ->
     let df' := (firstn idx notes_df ++ skipn (S idx) notes_df)%list in
     delete_note idx notes_df d = Ok (df', save_notes df' d)
     /\ load_notes (save_notes df' d) = Ok df'
     /\ S (List.length df') = List.length notes_df)
  /\ ((List.length notes_df <= idx)%nat ->
      delete_note idx notes_df d = Raise KeyError).
Proof.
  split.
  - intros L df'. unfold delete_note. rewrite (@drop_in_range _ idx notes_df L). cbn [bind].
    split; [reflexivity |]. split; [reflexivity |].
    unfold df'. rewrite length_app, firstn_length_le, length_skipn by lia. lia.
  - intro L. unfold delete_note. rewrite (@drop_out_of_range _ idx notes_df L). reflexivity.
Qed.

Lemma delete_note_removes_one_row_witness :
  delete_note 0
    [mkNote 4 "01/03/2024" "Knee" "Sore"; mkNote 2 "02/03/2024" "Shoes" "New pair"]
    (mkDisk None None None)
  = Ok ([mkNote 2 "02/03/2024" "Shoes" "New pair"],
        save_notes [mkNote 2 "02/03/2024" "Shoes" "New pair"] (mkDisk None None None)).
Proof.
  apply (proj1 (@delete_note_removes_one_row 0
                  [mkNote 4 "01/03/2024" "Knee" "Sore"; mkNote 2 "02/03/2024" "Shoes" "New pair"]
                  (mkDisk None None None))).
  cbn. lia.
Defined.

Lemma NoDup_app_remove {A : Type} (a b : list A) (x : A) :
  NoDup (a ++ x :: b) -> NoDup (a ++ b).
Proof. apply NoDup_remove_1. Qed.

Lemma id_max_ge (n : Note) (df : list Note) (x : Note) :
  In x (n :: df) -> note_id x <= id_max (n :: df).
Proof. apply (proj2 (id_max_spec n df)). Qed.

(** X11.  Ids stay distinct and positive: if the ids of the frame are pairwise
    different and at least 1, they still are after a note is added, after a
    note is updated and after a note is deleted. *)
Theorem note_ids_stay_distinct
    (today : date) (note_title note_content : string) (idx : nat)
    (notes_df : list Note) (d : disk) :
  NoDup (map note_id notes_df) ->
  Forall (fun n => 1 <= note_id n) notes_df ->
  (forall fb df' d', add_note today note_title note_content notes_df d = (fb, df', d') ->
     NoDup (map note_id df') /\ Forall (fun n => 1 <= note_id n) df')
  /\ (forall df' d', update_note idx note_title note_content notes_df d = Some (df', d') ->
        NoDup (map note_id df') /\ Forall (fun n => 1 <= note_id n) df')
  /\ (forall df' d', delete_note idx notes_df d = Ok (df', d') ->
        NoDup (map note_id df') /\ Forall (fun n => 1 <= note_id n) df').
Proof.
  intros U P. split; [| split].
  - intros fb df' d' A. unfold add_note in A.
    destruct (String.eqb (strip note_title) "" || String.eqb (strip note_content) "").
    + injection A as _ <- _. split; assumption.
    + injection A as _ <- _.
      set (new_id := if negb (df_empty notes_df) then id_max notes_df + 1 else 1).
      assert (G : (forall x, In x notes_df -> note_id x < new_id) /\ 1 <= new_id).
      { unfold new_id. destruct notes_df as [| n0 rest].
        - split; [intros x [] | cbn; lia].
        - cbn [df_empty negb]. split.
          + intros x I. pose proof (@id_max_ge n0 rest x I). lia.
          + apply Forall_inv in P. pose proof (@id_max_ge n0 rest n0 (or_introl eq_refl)). lia. }
      destruct G as [G1 G2]. split.
      * rewrite map_app. cbn [map note_id].
        apply NoDup_app; [exact U | constructor; [intros [] | constructor] |].
        intros i I [E | []]. apply in_map_iff in I. destruct I as (x & <- & I).
        specialize (G1 x I). lia.
      * apply Forall_app. split; [exact P |]. constructor; [exact G2 | constructor].
  - intros df' d' Up. unfold update_note in Up.
    destruct (loc_set idx note_title note_content notes_df) as [r |] eqn:Hset;
      [| discriminate Up].
    injection Up as <- _.
    destruct (Nat.lt_ge_cases idx (List.length notes_df)) as [L | L];
      [| rewrite (@loc_set_out_of_range idx note_title note_content notes_df L) in Hset;
         discriminate Hset].
    destruct (@loc_set_spec idx note_title note_content notes_df L)
      as (n & r' & N & Hset' & E).
    rewrite Hset in Hset'. injection Hset' as <-.
    assert (Split : notes_df = (firstn idx notes_df ++ n :: skipn (S idx) notes_df)%list).
    { clear - N. revert idx N. induction notes_df as [| a df IH]; intros idx N.
      - destruct idx; discriminate N.
      - destruct idx as [| i]; cbn in N.
        + injection N as ->. reflexivity.
        + cbn [firstn skipn app]. f_equal. now apply IH. }
    split.
    + rewrite E, map_app. cbn [map note_id]. rewrite Split in U.
      rewrite map_app in U. exact U.
    + rewrite E. rewrite Split in P. apply Forall_app in P. destruct P as [P1 P2].
      apply Forall_app. split; [exact P1 |].
      inversion P2; subst. constructor; assumption.
  - intros df' d' De. unfold delete_note in De.
    destruct (drop idx notes_df) as [r |] eqn:D; cbn [bind] in De; [| discriminate De].
    injection De as <- _. destruct (@drop_split _ idx notes_df r D) as [L ->].
    assert (Split : notes_df = (firstn idx notes_df ++ skipn idx notes_df)%list)
      by (symmetry; apply firstn_skipn).
    destruct (skipn idx notes_df) as [| x rest] eqn:Sk.
    { exfalso. assert (X : List.length (skipn idx notes_df) = 0%nat) by now rewrite Sk.
      rewrite length_skipn in X. lia. }
    assert (Sk' : skipn (S idx) notes_df = rest).
    { replace (S idx) with (1 + idx)%nat by lia. rewrite <- skipn_skipn, Sk.
      reflexivity. }
    rewrite Sk'. rewrite Split in U, P. split.
    + rewrite map_app in *. cbn [map] in U. now apply NoDup_remove_1 in U.
    + apply Forall_app in P. destruct P as [P1 P2]. apply Forall_app.
      split; [exact P1 |]. now inversion P2.
Qed.

Lemma note_ids_stay_distinct_witness :
  NoDup (map note_id [mkNote 2 "02/03/2024" "Shoes" "New pair"])
  /\ Forall (fun n => 1 <= note_id n) [mkNote 2 "02/03/2024" "Shoes" "New pair"].
Proof.
  apply (proj2 (proj2
           (@note_ids_stay_distinct (mkdate 2024 3 9) "Plan" "Long run" 0
              [mkNote 4 "01/03/2024" "Knee" "Sore"; mkNote 2 "02/03/2024" "Shoes" "New pair"]
              (mkDisk None None None)
              ltac:(repeat constructor; cbn; intuition discriminate)
              ltac:(repeat constructor; cbn; lia)))
           [mkNote 2 "02/03/2024" "Shoes" "New pair"]
           (save_notes [mkNote 2 "02/03/2024" "Shoes" "New pair"] (mkDisk None None None))).
  reflexivity.
Defined.

End NotesUpdateDelete.

(* ================================================================== *)
(** ** website.py: the calculators and the converters *)
(* ================================================================== *)

Section Calculators.
Import Website Reading.
Local Open Scope Q_scope.

Lemma Qfloor_add_Z (x : Q) (n : Z) : Qfloor (x + inject_Z n) = (Qfloor x + n)%Z.
Proof.
  pose proof (Qfloor_le x) as L. pose proof (Qlt_floor x) as U.
  rewrite inject_Z_plus in U.
  apply Qfloor_unique; rewrite !inject_Z_plus; lra.
Qed.

(** Rounding to the nearest integer commutes with adding an even integer. *)
Lemma py_round_add_even (x : Q) (j : Z) :
  py_round (x + inject_Z (2 * j)) = (py_round x + 2 * j)%Z.
Proof.
  unfold py_round. rewrite Qfloor_add_Z.
  assert (E : x + inject_Z (2 * j) - inject_Z (Qfloor x + 2 * j)
              == x - inject_Z (Qfloor x)).
  { rewrite inject_Z_plus. ring. }
  rewrite E.
  assert (V : Z.even (Qfloor x + 2 * j) = Z.even (Qfloor x)).
  { rewrite Z.even_add, Z.even_mul. cbn. now destruct (Z.even (Qfloor x)). }
  rewrite V.
  destruct (x - inject_Z (Qfloor x) ?= 1 # 2); [| lia | lia].
  destruct (Z.even (Qfloor x)); lia.
Qed.

Lemma py_round_comp (x y : Q) : x == y -> py_round x = py_round y.
Proof.
  intro E. unfold py_round. rewrite (Qfloor_comp _ _ E).
  assert (C : (x - inject_Z (Qfloor y) ?= 1 # 2) = (y - inject_Z (Qfloor y) ?= 1 # 2)).
  { apply Qcompare_comp; [rewrite E |]; reflexivity. }
  rewrite C. reflexivity.
Qed.

(** The seconds that [round] makes of a fraction of a minute. *)
Lemma rounded_seconds (u : Q) :
  0 <= u -> u < 60 ->
  (0 <= py_round u <= 60)%Z /\ (py_round u = 60%Z <-> 59.5 <= u).
Proof.
  intros U0 U1. unfold py_round.
  pose proof (Qfloor_le u) as L. pose proof (Qlt_floor u) as U.
  rewrite inject_Z_plus in U. change (inject_Z 1) with 1 in U.
  assert (F0 : (0 <= Qfloor u)%Z).
  { change 0%Z with (Qfloor 0). now apply Qfloor_resp_le. }
  assert (F1 : (Qfloor u < 60)%Z).
  { rewrite Zlt_Qlt. change (inject_Z 60) with 60. lra. }
  set (f := Qfloor u) in *. clearbody f.
  assert (F59 : (f = 59)%Z -> inject_Z f == 59) by (intros ->; reflexivity).
  assert (F58 : (f <= 58)%Z -> inject_Z f <= 58).
  { intro H. change 58 with (inject_Z 58). now rewrite <- Zle_Qle. }
  destruct (u - inject_Z f ?= 1 # 2) eqn:C.
  - apply Qeq_alt in C. destruct (Z.even f) eqn:Ev.
    + split; [lia |]. split; [lia |]. intro H.
      assert (f = 59 \/ f <= 58)%Z as [E | E] by lia.
      * subst f. discriminate Ev.
      * specialize (F58 E). lra.
    + split; [lia |]. split.
      * intro H. assert (E : f = 59%Z) by lia. specialize (F59 E). lra.
      * intro H. assert (f = 59 \/ f <= 58)%Z as [E | E] by lia; [lia |].
        specialize (F58 E). lra.
  - apply Qlt_alt in C. split; [lia |]. split; [lia |]. intro H.
    assert (f = 59 \/ f <= 58)%Z as [E | E] by lia.
    + specialize (F59 E). lra.
    + specialize (F58 E). lra.
  - apply Qgt_alt in C. split; [lia |]. split.
    + intro H. assert (E : f = 59%Z) by lia. specialize (F59 E). lra.
    + intro H. assert (f = 59 \/ f <= 58)%Z as [E | E] by lia; [lia |].
      specialize (F58 E). lra.
Qed.

(** Whole minutes and rounded seconds of a duration [t >= 0] in minutes. *)
Lemma minutes_and_rounded_seconds (t : Q) :
  0 <= t ->
  let m := py_int t in
  let s := py_round ((t - inject_Z m) * 60) in
  m = Qfloor t /\ (0 <= m)%Z /\ (0 <= s <= 60)%Z
  /\ (m * 60 + s)%Z = py_round (t * 60)
  /\ (s = 60%Z <-> 59.5 <= (t - inject_Z (Qfloor t)) * 60).
Proof.
  intros T m s. unfold s, m. rewrite (py_int_nonneg T).
  pose proof (Qfloor_le t) as L. pose proof (Qlt_floor t) as U.
  rewrite inject_Z_plus in U. change (inject_Z 1) with 1 in U.
  assert (F0 : (0 <= Qfloor t)%Z).
  { change 0%Z with (Qfloor 0). now apply Qfloor_resp_le. }
  set (f := Qfloor t) in *. clearbody f.
  destruct (@rounded_seconds ((t - inject_Z f) * 60)) as [B I]; [lra | lra |].
  split; [reflexivity |]. split; [exact F0 |]. split; [exact B |].
  split; [| exact I].
  assert (E : t * 60 == (t - inject_Z f) * 60 + inject_Z (2 * (30 * f))).
  { rewrite inject_Z_mult, inject_Z_mult.
    change (inject_Z 2) with 2. change (inject_Z 30) with 30. ring. }
  rewrite (py_round_comp E), py_round_add_even. lia.
Qed.

(** X12.  For a duration [d * p] that is not negative, the time calculator
    shows the duration rounded to the nearest second (a tie going to the even
    second), split into hours, minutes below 60 and seconds; but the seconds
    are not carried: they read 60, not 0 with one minute more, exactly when
    the fraction of the last minute is 59.5 seconds or more. *)
Theorem time_calculator_nearest_second (d p : Q) :
  0 <= d * p ->
  exists h m s,
    time_calculator_fields d p = (h, m, s)
    /\ time_calculator d p
       = (fmt_d h ++ " hours, " ++ fmt_d m ++ " minutes, " ++ fmt_d s ++ " seconds")%string
    /\ (0 <= h)%Z /\ (0 <= m < 60)%Z /\ (0 <= s <= 60)%Z
    /\ (h * 3600 + m * 60 + s)%Z = py_round (d * p * 60)
    /\ (s = 60%Z <-> 59.5 <= (d * p - inject_Z (Qfloor (d * p))) * 60).
Proof.
  intro T.
  destruct (minutes_and_rounded_seconds T) as (Em & M0 & Bs & Tot & I).
  cbv zeta in *.
  exists (py_int (d * p) / 60)%Z, (py_int (d * p) mod 60)%Z,
         (py_round ((d * p - inject_Z (py_int (d * p))) * 60)).
  split; [reflexivity |]. split; [reflexivity |].
  pose proof (Z.mod_pos_bound (py_int (d * p)) 60 ltac:(lia)) as MB.
  pose proof (Z.div_mod (py_int (d * p)) 60 ltac:(lia)) as DM.
  split; [apply Z.div_pos; lia |]. split; [exact MB |]. split; [exact Bs |].
  split; [| exact I]. rewrite <- Tot. lia.
Qed.

Lemma time_calculator_nearest_second_witness :
  exists h m s,
    time_calculator_fields 1 5.999 = (h, m, s)
    /\ time_calculator 1 5.999
       = (fmt_d h ++ " hours, " ++ fmt_d m ++ " minutes, " ++ fmt_d s ++ " seconds")%string
    /\ (0 <= h)%Z /\ (0 <= m < 60)%Z /\ (0 <= s <= 60)%Z
    /\ (h * 3600 + m * 60 + s)%Z = py_round (1 * 5.999 * 60)
    /\ (s = 60%Z <-> 59.5 <= (1 * 5.999 - inject_Z (Qfloor (1 * 5.999))) * 60).
Proof. apply (@time_calculator_nearest_second 1 5.999). vm_compute. discriminate. Defined.

(** X13.  For a pace that is not negative, the minutes and seconds that
    [format_pace] prints add up to the pace rounded to the nearest second; the
    minutes are the whole minutes of the pace and the seconds lie between 0
    and 60, both included. *)
Theorem format_pace_nearest_second (p : Q) :
  0 <= p ->
  exists m s,
    format_pace p = (fmt_d m ++ ":" ++ fmt_02d s)%string
    /\ m = Qfloor p /\ (0 <= s <= 60)%Z
    /\ (m * 60 + s)%Z = py_round (p * 60).
Proof.
  intro P.
  destruct (minutes_and_rounded_seconds P) as (Em & M0 & Bs & Tot & _).
  cbv zeta in *.
  exists (py_int p), (py_round ((p - inject_Z (py_int p)) * 60)).
  repeat split; try assumption; apply Bs.
Qed.

Lemma format_pace_nearest_second_witness :
  exists m s,
    format_pace 5.51 = (fmt_d m ++ ":" ++ fmt_02d s)%string
    /\ m = Qfloor 5.51 /\ (0 <= s <= 60)%Z
    /\ (m * 60 + s)%Z = py_round (5.51 * 60).
Proof. apply (@format_pace_nearest_second 5.51). vm_compute. discriminate. Defined.

Lemma string_app_assoc (a b c : string) :
  ((a ++ b) ++ c = a ++ (b ++ c))%string.
Proof. induction a as [| x a IH]; cbn [append]; [| rewrite IH]; reflexivity. Qed.

(** X14.  The pace calculator shows, for a distance [d > 0] and a time of [h]
    hours, [m] minutes and [s] seconds (none negative), the time per
    kilometre to the nearest second: the minutes and seconds it prints, taken
    together, are within half a second of the seconds run over [d]. *)
Theorem pace_calculator_nearest_second (d : Q) (h m s : Z) :
  0 < d -> (0 <= h)%Z -> (0 <= m)%Z -> (0 <= s)%Z ->
  exists mm ss,
    pace_calculator d h m s
    = Ok (fmt_d mm ++ ":" ++ fmt_02d ss ++ " min/km")%string
    /\ (0 <= mm)%Z /\ (0 <= ss <= 60)%Z
    /\ Qabs (inject_Z (mm * 60 + ss) - inject_Z (h * 3600 + m * 60 + s) / d) <= 1 # 2.
Proof.
  intros D H M S.
  set (t := inject_Z (h * 60 + m) + inject_Z s / 60).
  assert (T0 : 0 <= t).
  { assert (A : 0 <= inject_Z (h * 60 + m))
      by (change 0 with (inject_Z 0); rewrite <- Zle_Qle; lia).
    assert (B : 0 <= inject_Z s)
      by (change 0 with (inject_Z 0); rewrite <- Zle_Qle; lia).
    assert (E : inject_Z s / 60 == inject_Z s * (1 # 60)) by field.
    unfold t. lra. }
  assert (P0 : 0 <= t / d).
  { assert (X : 0 < / d) by (apply Qinv_lt_0_compat; exact D).
    unfold Qdiv. nra. }
  destruct (minutes_and_rounded_seconds P0) as (Em & M0 & Bs & Tot & _).
  cbv zeta in *.
  exists (py_int (t / d)), (py_round ((t / d - inject_Z (py_int (t / d))) * 60)).
  split; [| split; [exact M0 | split; [exact Bs |]]].
  - unfold pace_calculator, to_minutes.
    rewrite py_truediv_ok by (intro X; discriminate X). cbn [bind]. fold t.
    rewrite py_truediv_ok by lra. cbn [bind]. unfold format_pace.
    rewrite !string_app_assoc. reflexivity.
  - rewrite Tot.
    assert (E : inject_Z (h * 3600 + m * 60 + s) / d == t / d * 60).
    { unfold t. rewrite !inject_Z_plus, !inject_Z_mult.
      change (inject_Z 3600) with 3600. change (inject_Z 60) with 60. field. lra. }
    rewrite E. apply py_round_near.
Qed.

Lemma pace_calculator_nearest_second_witness :
  exists mm ss,
    pace_calculator 21.097 1 45 29
    = Ok (fmt_d mm ++ ":" ++ fmt_02d ss ++ " min/km")%string
    /\ (0 <= mm)%Z /\ (0 <= ss <= 60)%Z
    /\ Qabs (inject_Z (mm * 60 + ss) - inject_Z (1 * 3600 + 45 * 60 + 29) / 21.097) <= 1 # 2.
Proof. apply (@pace_calculator_nearest_second 21.097 1 45 29); [reflexivity | lia ..]. Defined.

(** X15.  The "Time" column of the monthly runs table shows the whole minutes
    of the stored time, as hours and minutes below 60; the fraction of a
    minute is dropped, never rounded, and no stored time makes it raise. *)
Theorem time_column_whole_minutes (t : Q) :
  time_column t
  = Ok (fmt_d (Qfloor t / 60) ++ "h " ++ fmt_d (Qfloor t mod 60) ++ "m")%string.
Proof.
  unfold time_column, py_floordiv, py_mod.
  change (Qis_zero 60) with false. cbn [bind].
  rewrite py_int_inject.
  pose proof (Qfloor_le (t / 60)) as HL. pose proof (Qlt_floor (t / 60)) as HU.
  rewrite inject_Z_plus in HU. change (inject_Z 1) with 1 in HU.
  pose proof (Qfloor_le t) as TL. pose proof (Qlt_floor t) as TU.
  rewrite inject_Z_plus in TU. change (inject_Z 1) with 1 in TU.
  assert (Et : t == 60 * (t / 60)) by field.
  set (H := Qfloor (t / 60)) in *.
  assert (R0 : 0 <= t - 60 * inject_Z H) by lra.
  assert (EM : py_int (t - 60 * inject_Z H) = (Qfloor t - 60 * H)%Z).
  { rewrite (py_int_nonneg R0). apply Qfloor_unique.
    - unfold Z.sub. rewrite inject_Z_plus, inject_Z_opp, inject_Z_mult.
      change (inject_Z 60) with 60. lra.
    - unfold Z.sub. rewrite !inject_Z_plus, inject_Z_opp, inject_Z_mult.
      change (inject_Z 60) with 60. change (inject_Z 1) with 1. lra. }
  rewrite EM.
  assert (B : (0 <= Qfloor t - 60 * H < 60)%Z).
  { split.
    - assert (L : inject_Z (60 * H) <= t)
        by (rewrite inject_Z_mult; change (inject_Z 60) with 60; lra).
      apply Qfloor_resp_le in L. rewrite Qfloor_Z in L. lia.
    - rewrite Zlt_Qlt. unfold Z.sub.
      rewrite inject_Z_plus, inject_Z_opp, inject_Z_mult.
      change (inject_Z 60) with 60. lra. }
  assert (EH : (Qfloor t / 60)%Z = H).
  { symmetry. apply Z.div_unique with (r := (Qfloor t - 60 * H)%Z); lia. }
  assert (EMod : (Qfloor t mod 60)%Z = (Qfloor t - 60 * H)%Z).
  { symmetry. apply Z.mod_unique with (q := H); lia. }
  rewrite EH, EMod. reflexivity.
Qed.

(** X16.  The distance calculator shows, for a pace [p > 0] and a time of [h]
    hours, [m] minutes and [s] seconds (none negative), the distance covered
    to the nearest hundredth of a kilometre, printed without a sign. *)
Theorem distance_calculator_nearest_hundredth (p : Q) (h m s : Z) :
  0 < p -> (0 <= h)%Z -> (0 <= m)%Z -> (0 <= s)%Z ->
  exists k,
    distance_calculator p h m s
    = Ok (fmt_d (k / 100) ++ "." ++ fmt_02d (k mod 100) ++ " km")%string
    /\ (0 <= k)%Z
    /\ Qabs (inject_Z k / 100 - (inject_Z (h * 60 + m) + inject_Z s / 60) / p) <= 0.005.
Proof.
  intros P H M S.
  set (t := inject_Z (h * 60 + m) + inject_Z s / 60).
  assert (T0 : 0 <= t).
  { assert (A : 0 <= inject_Z (h * 60 + m))
      by (change 0 with (inject_Z 0); rewrite <- Zle_Qle; lia).
    assert (B : 0 <= inject_Z s)
      by (change 0 with (inject_Z 0); rewrite <- Zle_Qle; lia).
    assert (E : inject_Z s / 60 == inject_Z s * (1 # 60)) by field.
    unfold t. lra. }
  assert (X0 : 0 <= t / p).
  { assert (X : 0 < / p) by (apply Qinv_lt_0_compat; exact P).
    unfold Qdiv. nra. }
  set (x := t / p) in *.
  pose proof (py_round_near (x * 100)) as N. apply Qabs_Qle_condition in N.
  set (k := py_round (x * 100)) in *.
  assert (K0 : (0 <= k)%Z).
  { assert (L : -1 < inject_Z k) by lra.
    change (-1) with (inject_Z (-1)) in L. rewrite <- Zlt_Qlt in L. lia. }
  exists k. split; [| split; [exact K0 |]].
  - unfold distance_calculator, to_minutes.
    rewrite py_truediv_ok by (intro X; discriminate X). cbn [bind]. fold t.
    rewrite py_truediv_ok by lra. cbn [bind]. fold x.
    unfold fmt_2f, sign_text. fold k.
    assert (E1 : (k <? 0)%Z = false) by (apply Z.ltb_ge; exact K0).
    assert (E2 : Qltb x 0 = false) by (apply Qltb_ge; exact X0).
    rewrite E1, E2, andb_false_r. cbn [orb].
    rewrite Z.abs_eq by exact K0.
    cbn [append]. rewrite !string_app_assoc. reflexivity.
  - apply Qabs_Qle_condition.
    assert (E : inject_Z k / 100 == inject_Z k * (1 # 100)) by field.
    clearbody k x. rewrite E. split; lra.
Qed.

Lemma distance_calculator_nearest_hundredth_witness :
  exists k,
    distance_calculator 5.5 0 30 0
    = Ok (fmt_d (k / 100) ++ "." ++ fmt_02d (k mod 100) ++ " km")%string
    /\ (0 <= k)%Z
    /\ Qabs (inject_Z k / 100 - (inject_Z (0 * 60 + 30) + inject_Z 0 / 60) / 5.5) <= 0.005.
Proof.
  apply (@distance_calculator_nearest_hundredth 5.5 0 30 0); [reflexivity | lia ..].
Defined.

End Calculators.

Section Converters.
Import Website Reading.
Local Open Scope Q_scope.
#[local] Set Warnings "-inexact-float".

Lemma time_table_total (pace : Q) : exists table, time_table_from_pace pace = Ok table.
Proof.
  unfold time_table_from_pace, distances. cbn [mapM fst snd].
  rewrite !time_row_clock. cbn [bind]. eexists. reflexivity.
Qed.

Lemma pace_of_widgets (pace_min pace_sec : Z) :
  inject_Z pace_min + inject_Z pace_sec / 60
  == inject_Z (60 * pace_min + pace_sec) / 60.
Proof.
  rewrite inject_Z_plus, inject_Z_mult. change (inject_Z 60) with 60. field.
Qed.

(** X17.  The two converters warn instead of dividing by zero.
    In exact arithmetic "Convert to Speed" warns when the pace entered,
    [pace_min + pace_sec / 60], is not positive, and otherwise shows
    [60 / pace] to two decimals with the finish times of that pace; "Convert
    to Pace" warns when the speed is not positive and otherwise shows the
    pace [60 / speed] with its finish times.
    On binary64 floats, which the program computes with, the same decision is
    taken over the values of the widgets: for "Minutes" from 0 to 30 and
    "Seconds" from 0 to 59, "Convert to Speed" warns at 0:00 and nowhere
    else and raises nowhere; for every speed of one decimal from 0.1 to 50.0
    km/h, "Convert to Pace" shows a pace and a table.  The times in the
    tables are those of the floats, which can read one second less than the
    exact ones (at 4:20 the 5 km row reads 21:39, for 21:40). *)
Theorem converters_warn_instead_of_raising :
  (forall pace_min pace_sec : Z,
      let pace := inject_Z pace_min + inject_Z pace_sec / 60 in
      ((60 * pace_min + pace_sec <= 0)%Z ->
         convert_to_speed pace_min pace_sec = Ok (Warning "Pace must be greater than 0"))
      /\ ((0 < 60 * pace_min + pace_sec)%Z ->
          exists table,
            time_table_from_pace pace = Ok table
            /\ convert_to_speed pace_min pace_sec
               = Ok (Success ("🚀 **" ++ fmt_2f (60 / pace) ++ " km/h**")%string table)))
  /\ (forall speed : Q,
        (speed <= 0 ->
           convert_to_pace speed = Ok (Warning "Speed must be greater than 0"))
        /\ (0 < speed ->
            exists table,
              time_table_from_pace (60 / speed) = Ok table
              /\ convert_to_pace speed
                 = Ok (Success ("🏃 **" ++ format_pace (60 / speed) ++ " min/km**")%string
                               table)))
  /\ (forall pace_min pace_sec : Z,
        (0 <= pace_min <= 30)%Z -> (0 <= pace_sec <= 59)%Z ->
        match Binary64.convert_to_speed pace_min pace_sec with
        | Ok (Warning text) =>
            text = "Pace must be greater than 0"%string
            /\ pace_min = 0%Z /\ pace_sec = 0%Z
        | Ok (Success _ _) => (0 < 60 * pace_min + pace_sec)%Z
        | Raise _ => False
        end)
  /\ (forall tenths : Z,
        (1 <= tenths <= 500)%Z ->
        exists text table,
          Binary64.convert_to_pace
            (PrimFloat.div (Binary64.of_int tenths) (Binary64.of_int 10))
          = Ok (Success text table))
  /\ (c <- Binary64.convert_to_speed 4 20 ;;
      Ok (match c with
          | Success text table => (text, nth_error table 0)
          | Warning text => (text, None)
          end))
     = Ok ("🚀 **13.85 km/h**"%string, Some (mkTimeRow "5 km" "21:39")).
Proof.
  split; [| split; [| split; [| split]]]; [| | | | vm_compute; reflexivity].
  - intros pace_min pace_sec pace.
    pose proof (pace_of_widgets pace_min pace_sec) as E. fold pace in E.
    unfold convert_to_speed.
    rewrite py_truediv_ok by (intro X; discriminate X). cbn [bind]. fold pace.
    split.
    + intro N.
      assert (P : pace <= 0).
      { rewrite E. assert (I : inject_Z (60 * pace_min + pace_sec) <= 0).
        { change 0 with (inject_Z 0). now rewrite <- Zle_Qle. }
        set (z := inject_Z (60 * pace_min + pace_sec)) in *. clearbody z.
        assert (z / 60 == z * (1 # 60)) as -> by field. lra. }
      apply Qltb_ge in P. rewrite P. reflexivity.
    + intro N.
      assert (P : 0 < pace).
      { rewrite E. assert (I : 0 < inject_Z (60 * pace_min + pace_sec)).
        { change 0 with (inject_Z 0). now rewrite <- Zlt_Qlt. }
        set (z := inject_Z (60 * pace_min + pace_sec)) in *. clearbody z.
        assert (z / 60 == z * (1 # 60)) as -> by field. lra. }
      destruct (time_table_total pace) as [table T].
      exists table. split; [exact T |].
      apply Qltb_lt in P. rewrite P.
      rewrite py_truediv_ok by (apply Qltb_lt in P; lra).
      cbn [bind]. rewrite T. reflexivity.
  - intro speed. unfold convert_to_pace. split.
    + intro N. apply Qltb_ge in N. rewrite N. reflexivity.
    + intro P. destruct (time_table_total (60 / speed)) as [table T].
      exists table. split; [exact T |].
      rewrite py_truediv_ok by lra.
      apply Qltb_lt in P. rewrite P. cbn [bind]. rewrite T. reflexivity.
  - intros pace_min pace_sec Hm Hs.
    pose proof (@converter_checked_all pace_min pace_sec Hm Hs) as C.
    unfold converter_checked in C.
    destruct (Binary64.convert_to_speed pace_min pace_sec) as [[text table | text] | e];
      [| | discriminate C].
    + apply andb_true_iff in C. destruct C as [C _].
      apply negb_true_iff, andb_false_iff in C.
      destruct C as [C | C]; apply Z.eqb_neq in C; lia.
    + apply andb_true_iff in C. destruct C as [C0 C]. apply andb_true_iff in C.
      destruct C as [C1 C2]. apply String.eqb_eq in C0.
      apply Z.eqb_eq in C1. apply Z.eqb_eq in C2. repeat split; assumption.
  - intros tenths Ht.
    assert (F : forallb pace_shown (zrange 1 500) = true) by (vm_compute; reflexivity).
    pose proof (@forallb_zrange _ _ _ F tenths ltac:(lia)) as C.
    unfold pace_shown in C.
    destruct (Binary64.convert_to_pace _) as [[text table | text] | e];
      try discriminate C.
    exists text, table. reflexivity.
Qed.

Lemma converters_warn_instead_of_raising_witness :
  convert_to_speed 0 0 = Ok (Warning "Pace must be greater than 0")
  /\ (exists table,
         time_table_from_pace (60 / 12) = Ok table
         /\ convert_to_pace 12
            = Ok (Success ("🏃 **" ++ format_pace (60 / 12) ++ " min/km**")%string table))
  /\ exists text table,
       Binary64.convert_to_pace (PrimFloat.div (Binary64.of_int 120) (Binary64.of_int 10))
       = Ok (Success text table).
Proof.
  destruct converters_warn_instead_of_raising as (S & P & _ & F & _).
  split; [| split].
  - apply (proj1 (S 0%Z 0%Z)). reflexivity.
  - apply (proj2 (P 12)). reflexivity.
  - apply (F 120%Z). lia.
Defined.

End Converters.

(* ================================================================== *)
(** ** website.py: the calendar grid and what a saved run changes *)
(* ================================================================== *)

Section RunCalendar.
Import Website.

Lemma week_cells_length (cell : Z -> string) (dc : Z) :
  List.length (week_cells cell dc) = 7%nat.
Proof. reflexivity. Qed.

Lemma week_cells_nth (cell : Z -> string) (dc : Z) (i : nat) :
  (i < 7)%nat -> nth i (week_cells cell dc) "" = cell (dc + Z.of_nat i).
Proof.
  intro I. unfold week_cells.
  do 7 (destruct i as [| i]; [reflexivity |]). lia.
Qed.

(** The loop makes [n] passes when [n] weeks from [dc] on are what it takes
    to get past the last day. *)
Lemma calendar_weeks_rows (cell : Z -> string) (dim : Z) (n : nat) :
  forall (fuel : nat) (dc : Z),
    (n <= fuel)%nat ->
    dim < dc + 7 * Z.of_nat n ->
    (n = 0%nat \/ dc + 7 * Z.of_nat n - 7 <= dim) ->
    calendar_weeks fuel cell dim dc
    = Some (map (fun j => week_cells cell (dc + 7 * Z.of_nat j)) (seq 0 n)).
Proof.
  induction n as [| n IH]; intros fuel dc F U L.
  - assert (E : (dc <=? dim) = false) by (apply Z.leb_gt; lia).
    destruct fuel; cbn [calendar_weeks]; rewrite E; reflexivity.
  - destruct fuel as [| fuel]; [lia |].
    assert (E : (dc <=? dim) = true) by (apply Z.leb_le; lia).
    cbn [calendar_weeks]. rewrite E.
    rewrite (IH fuel (dc + 7)) by lia.
    cbn [seq map]. rewrite <- seq_shift, map_map.
    f_equal. f_equal; [f_equal; lia |].
    apply map_ext. intro j. f_equal. lia.
Qed.

(** X18.  The grid of the calendar tab, for a month of [days_in_month] days
    whose first day falls on weekday [first_weekday] (Monday is 0): the loop
    ends, after as many rows as the month has weeks; every row has seven
    cells; day [k] of the month sits in the column of its weekday,
    [(first_weekday + k - 1) mod 7], of row [(first_weekday + k - 1) / 7]; and
    every other cell is the empty one. *)
Theorem run_calendar_grid
    (fuel : nat) (year_sel month_num first_weekday days_in_month : Z)
    (month_df : list (date * RunEntry)) :
  0 <= first_weekday <= 6 -> 1 <= days_in_month ->
  (Z.to_nat ((first_weekday + days_in_month + 6) / 7) <= fuel)%nat ->
  let cell := run_calendar_cell year_sel month_num days_in_month month_df in
  exists rows,
    run_calendar_rows fuel year_sel month_num first_weekday days_in_month month_df
    = Some rows
    /\ Z.of_nat (List.length rows) = (first_weekday + days_in_month + 6) / 7
    /\ (forall row, In row rows -> List.length row = 7%nat)
    /\ (forall k, 1 <= k <= days_in_month ->
          nth (Z.to_nat ((first_weekday + k - 1) mod 7))
              (nth (Z.to_nat ((first_weekday + k - 1) / 7)) rows []) ""
          = cell k)
    /\ (forall j i, (j < List.length rows)%nat -> (i < 7)%nat ->
          let k := 7 * Z.of_nat j + Z.of_nat i + 1 - first_weekday in
          k < 1 \/ days_in_month < k ->
          nth i (nth j rows []) ""
          = "<td style='padding:10px;border:1px solid #333;background:rgba(255,255,255,0.05);opacity:0.1;'></td>").
Proof.
  intros W D F cell.
  set (n := Z.to_nat ((first_weekday + days_in_month + 6) / 7)) in *.
  pose proof (Z.div_mod (first_weekday + days_in_month + 6) 7 ltac:(lia)) as DM.
  pose proof (Z.mod_pos_bound (first_weekday + days_in_month + 6) 7 ltac:(lia)) as MB.
  assert (N0 : 0 <= (first_weekday + days_in_month + 6) / 7) by (apply Z.div_pos; lia).
  assert (EN : Z.of_nat n = (first_weekday + days_in_month + 6) / 7)
    by (unfold n; lia).
  set (dc := 1 - first_weekday).
  set (rows := map (fun j => week_cells cell (dc + 7 * Z.of_nat j)) (seq 0 n)).
  assert (R : run_calendar_rows fuel year_sel month_num first_weekday days_in_month month_df
              = Some rows).
  { unfold run_calendar_rows. fold cell.
    replace (1 - (first_weekday - 0) mod 7) with dc
      by (unfold dc; rewrite Z.sub_0_r, Z.mod_small by lia; reflexivity).
    apply calendar_weeks_rows; [exact F | unfold dc; lia |].
    right. unfold dc. lia. }
  assert (Len : List.length rows = n) by (unfold rows; now rewrite length_map, length_seq).
  assert (Nth : forall j i, (j < n)%nat -> (i < 7)%nat ->
            nth i (nth j rows []) "" = cell (dc + 7 * Z.of_nat j + Z.of_nat i)).
  { intros j i J I. unfold rows.
    rewrite (nth_indep _ [] (week_cells cell (dc + 7 * Z.of_nat 0)))
      by (rewrite length_map, length_seq; exact J).
    rewrite (map_nth (fun j => week_cells cell (dc + 7 * Z.of_nat j)) (seq 0 n) 0%nat j).
    rewrite seq_nth by exact J. cbn [Nat.add].
    now apply week_cells_nth. }
  exists rows. split; [exact R |]. split; [lia |]. split; [| split].
  - intros row I. unfold rows in I. apply in_map_iff in I.
    destruct I as (j & <- & _). apply week_cells_length.
  - intros k K.
    pose proof (Z.div_mod (first_weekday + k - 1) 7 ltac:(lia)) as DK.
    pose proof (Z.mod_pos_bound (first_weekday + k - 1) 7 ltac:(lia)) as MK.
    assert (Q0 : 0 <= (first_weekday + k - 1) / 7) by (apply Z.div_pos; lia).
    rewrite Nth by lia. f_equal. unfold dc. lia.
  - intros j i J I k K. rewrite Nth by lia.
    replace (dc + 7 * Z.of_nat j + Z.of_nat i) with k by (unfold k, dc; lia).
    unfold cell, run_calendar_cell.
    destruct K as [K | K].
    + apply Z.ltb_lt in K. rewrite K. reflexivity.
    + apply Z.ltb_lt in K. rewrite K, orb_true_r. reflexivity.
Qed.

Lemma run_calendar_grid_witness :
  exists rows,
    run_calendar_rows 6 2024 9 6 30 [] = Some rows
    /\ Z.of_nat (List.length rows) = (6 + 30 + 6) / 7
    /\ (forall row, In row rows -> List.length row = 7%nat)
    /\ (forall k, 1 <= k <= 30 ->
          nth (Z.to_nat ((6 + k - 1) mod 7))
              (nth (Z.to_nat ((6 + k - 1) / 7)) rows []) ""
          = run_calendar_cell 2024 9 30 [] k)
    /\ (forall j i, (j < List.length rows)%nat -> (i < 7)%nat ->
          let k := 7 * Z.of_nat j + Z.of_nat i + 1 - 6 in
          k < 1 \/ 30 < k ->
          nth i (nth j rows []) ""
          = "<td style='padding:10px;border:1px solid #333;background:rgba(255,255,255,0.05);opacity:0.1;'></td>").
Proof.
  apply (@run_calendar_grid 6 2024 9 6 30 []); [lia | lia | vm_compute; lia].
Defined.

End RunCalendar.

Section SavedRun.
Import Website.
Local Open Scope Q_scope.

Lemma series_sum_snoc (xs : list Q) (x : Q) :
  series_sum (xs ++ [x]) = series_sum xs + x.
Proof. unfold series_sum. rewrite fold_left_app. reflexivity. Qed.

(** The run log after "Save Activity", loaded again and its dates parsed. *)
Lemma save_activity_then_load
    (day : date) (km : Q) (h m s : Z) (d : disk)
    (df : list RunEntry) (parsed : list (date * RunEntry)) :
  valid_date day = true -> 0 < km ->
  load_runs d = Ok df -> parse_run_dates df = Ok parsed ->
  exists run d',
    save_activity day km h m s d = Ok d'
    /\ distance_km run = km
    /\ load_runs d' = Ok (df ++ [run])%list
    /\ parse_run_dates (df ++ [run]) = Ok (parsed ++ [(day, run)])%list.
Proof.
  intros V K L P.
  set (t := inject_Z (h * 60 + m) + inject_Z s / 60).
  exists (mkRun (strftime_dmy day) km (py_round2 t) (py_round2 (t / km))).
  exists (mkDisk (FOOD_FILE d)
                 (Some (df ++ [mkRun (strftime_dmy day) km (py_round2 t) (py_round2 (t / km))])%list)
                 (NOTES_FILE d)).
  split; [| split; [reflexivity | split; [reflexivity |]]].
  - unfold save_activity, to_minutes, save_run.
    rewrite py_truediv_ok by (intro E; discriminate E).
    cbn [bind]. fold t.
    rewrite py_truediv_ok by lra.
    cbn [bind]. rewrite L. reflexivity.
  - unfold parse_run_dates. apply mapM_app; [exact P |].
    cbn [mapM run_date]. rewrite (to_datetime_strftime _ V). reflexivity.
Qed.

(** X19.  A run saved with "Save Activity" is counted by the calendar tab:
    when the rows already in the log carry dates that parse, the tab then
    shows a summary for every month, the total of the month of the run has
    grown by its distance, and the summary of every other month is the one
    the log gave before. *)
Theorem saved_run_counts_in_its_month
    (day : date) (km : Q) (h m s : Z) (d : disk)
    (df : list RunEntry) (parsed : list (date * RunEntry)) :
  valid_date day = true -> 0 < km ->
  load_runs d = Ok df -> parse_run_dates df = Ok parsed ->
  exists d',
    save_activity day km h m s d = Ok d'
    /\ forall year_sel month_num,
         exists before after,
           monthly_summary year_sel month_num df = Ok before
           /\ calendar_tab year_sel month_num d' = Ok (Some after)
           /\ if (year day =? year_sel)%Z && (month day =? month_num)%Z
              then total_km after == total_km before + km
              else after = before.
Proof.
  intros V K L P.
  destruct (@save_activity_then_load day km h m s d df parsed V K L P) as (run & d' & SA & Ekm & L' & P').
  exists d'. split; [exact SA |]. intros year_sel month_num.
  unfold calendar_tab. rewrite L'.
  assert (NE : df_empty (df ++ [run]) = false) by (destruct df; reflexivity).
  cbn [bind]. rewrite NE. unfold monthly_summary. rewrite P, P'. cbn [bind].
  do 2 eexists. split; [reflexivity |]. split; [reflexivity |].
  unfold month_filter. rewrite filter_app. cbn [filter fst year month].
  destruct ((year day =? year_sel)%Z && (month day =? month_num)%Z).
  - cbn [total_km]. rewrite map_app. cbn [map snd].
    rewrite series_sum_snoc, Ekm. reflexivity.
  - rewrite app_nil_r. reflexivity.
Qed.

Lemma saved_run_counts_in_its_month_witness :
  exists d',
    save_activity (mkdate 2024 3 9) 10 0 50 0
      (mkDisk None (Some [mkRun "02/03/2024" 5 25 5]) None) = Ok d'
    /\ forall year_sel month_num,
         exists before after,
           monthly_summary year_sel month_num [mkRun "02/03/2024" 5 25 5] = Ok before
           /\ calendar_tab year_sel month_num d' = Ok (Some after)
           /\ if (2024 =? year_sel)%Z && (3 =? month_num)%Z
              then total_km after == total_km before + 10
              else after = before.
Proof.
  apply (@saved_run_counts_in_its_month (mkdate 2024 3 9) 10 0 50 0
           (mkDisk None (Some [mkRun "02/03/2024" 5 25 5]) None)
           [mkRun "02/03/2024" 5 25 5]
           [(mkdate 2024 3 2, mkRun "02/03/2024" 5 25 5)]);
    reflexivity.
Defined.



End SavedRun.
